(** * Wifi station manager (modules/lib/wifi/station.py)

    A shallow embedding of [StationConfig] and [Station] together with the
    helpers of tools/useful.py they rely on ([iptoint], [issameinterface],
    [tobytes], [tostrings]).

    Modelling choices.
    - A Python [str] is represented by its UTF-8 encoding, so that
      [str.encode] is the identity on representations and [bytes.decode]
      succeeds, with the same representation, exactly on the byte strings
      that are well-formed UTF-8 and raises UnicodeError on the others; the
      two Python types stay apart through the tag of [pytext].
    - The class attributes [Station.wlan], [Station.config] and
      [Station.networks] are the fields of the record [Station]; the radio
      behind the handle and everything the code prints or asks of the driver
      are kept in the same record ([radio], [journal], newest entry first).
    - A Python exception is a [Raise] result; the state reached when it was
      raised is kept, as in Python.
    - The radio driver (network.WLAN) is an interface: the class [WLAN].
      [jsonconfig.load] is not part of the sources and is a parameter.
    - The platform is a parameter too: whether it is MicroPython
      (useful.ismicropython) and how it formats a traceback. *)

From Stdlib Require Import ZArith List String Ascii Bool Arith Lia.
From Stdlib Require Import Permutation Sorted.
From Equations Require Import Equations.
Import ListNotations.

Local Open Scope string_scope.
Local Open Scope Z_scope.

(** ** Python values *)

Definition str := string.
Definition bytes := string.

(** A value that is either a [str] or a [bytes] object. *)
Inductive pytext : Type :=
| PStr (s : str)
| PBytes (b : bytes).

Definition encode (s : str) : bytes := s.

(** useful.tobytes, on text. *)
Definition tobytes (datas : pytext) : bytes :=
  match datas with
  | PStr s => encode s
  | PBytes b => b
  end.

(** ["%s" % b] for a boolean. *)
Definition str_of_bool (b : bool) : str :=
  if b then "True" else "False".

Definition NL : string := String (ascii_of_nat 10) EmptyString.

(** ** Exceptions and the state monad *)

(** The exceptions the code can meet.  [UnicodeError] stands for what
    [bytes.decode] raises (UnicodeError on MicroPython, its subclass
    UnicodeDecodeError on CPython). *)
Inductive exn : Type :=
| AttributeError
| ValueError
| IndexError
| OSError
| UnicodeError.

Inductive result (A : Type) : Type :=
| Ret (a : A)
| Raise (e : exn).
Arguments Ret {A} a.
Arguments Raise {A} e.

Definition M (S A : Type) : Type := S -> result A * S.

Definition ret {S A} (a : A) : M S A := fun st => (Ret a, st).

Definition bind {S A B} (m : M S A) (k : A -> M S B) : M S B :=
  fun st =>
    match m st with
    | (Ret a, st1) => k a st1
    | (Raise e, st1) => (Raise e, st1)
    end.

(** [try: m except Exception as err: h err] *)
Definition try_except {S A} (m : M S A) (h : exn -> M S A) : M S A :=
  fun st =>
    match m st with
    | (Ret a, st1) => (Ret a, st1)
    | (Raise e, st1) => h e st1
    end.

Declare Scope py_scope.
Delimit Scope py_scope with py.
Notation "x <- m ;; k" := (bind m (fun x => k))
  (at level 61, m at next level, right associativity) : py_scope.
Notation "m ;;; k" := (bind m (fun _ => k))
  (at level 61, right associativity) : py_scope.
Local Open Scope py_scope.

(** [if c: m] *)
Definition when {S} (c : bool) (m : M S unit) : M S unit :=
  if c then m else ret tt.

(** A value together with the proof of what it is the value of: lets a
    branch remember the test that led to it. *)
Definition inspect {A : Type} (x : A) : {y : A | x = y} := exist _ x eq_refl.

(** How far [count] is from the value at which [connect] gives up. *)
Definition remaining (count : nat) : nat := (121 - count)%nat.
Arguments remaining : simpl never.

(** [count > 120] *)
Definition over_limit (count : nat) : bool := (120 <? count)%nat.
Arguments over_limit : simpl never.

(** A failing computation without state. *)
Definition rbind {A B} (r : result A) (k : A -> result B) : result B :=
  match r with
  | Ret a => k a
  | Raise e => Raise e
  end.

Definition lift {S A} (r : result A) : M S A := fun st => (r, st).

(** ** Decoding *)

(** [lo <= c <= hi] for a byte. *)
Definition byte_in (lo hi : nat) (c : ascii) : bool :=
  let n := nat_of_ascii c in ((lo <=? n) && (n <=? hi))%nat.

(** A continuation byte, 10xxxxxx. *)
Definition continuation (c : ascii) : bool := byte_in 128 191 c.

(** Well-formed UTF-8: one byte below 0x80, or a lead byte followed by the
    continuation bytes it announces, without overlong forms, surrogates or
    code points above U+10FFFF. *)
Fixpoint utf8_valid (b : bytes) : bool :=
  match b with
  | EmptyString => true
  | String c r =>
      if byte_in 0 127 c then utf8_valid r
      else if byte_in 194 223 c then
        match r with
        | String c1 r1 => continuation c1 && utf8_valid r1
        | _ => false
        end
      else if byte_in 224 239 c then
        match r with
        | String c1 (String c2 r2) =>
            (if byte_in 224 224 c then byte_in 160 191 c1
             else if byte_in 237 237 c then byte_in 128 159 c1
             else continuation c1)
            && continuation c2 && utf8_valid r2
        | _ => false
        end
      else if byte_in 240 244 c then
        match r with
        | String c1 (String c2 (String c3 r3)) =>
            (if byte_in 240 240 c then byte_in 144 191 c1
             else if byte_in 244 244 c then byte_in 128 143 c1
             else continuation c1)
            && continuation c2 && continuation c3 && utf8_valid r3
        | _ => false
        end
      else false
  end.

(** [b.decode("utf8")] *)
Definition decode (b : bytes) : result str :=
  if utf8_valid b then Ret b else Raise UnicodeError.

(** useful.tostrings, on text. *)
Definition tostrings (datas : pytext) : result str :=
  match datas with
  | PBytes b => decode b
  | PStr s => Ret s
  end.

(** ** tools/useful.py: addresses *)

(** [s.split(sep)] for a one-character separator: never an empty list. *)
Fixpoint split_on (sep : ascii) (s : str) : list str :=
  match s with
  | EmptyString => [EmptyString]
  | String c r =>
      if Ascii.eqb c sep then EmptyString :: split_on sep r
      else match split_on sep r with
           | h :: t => String c h :: t
           | [] => [String c EmptyString]
           end
  end.

Definition digit_of (c : ascii) : option Z :=
  let n := nat_of_ascii c in
  if ((48 <=? n) && (n <=? 57))%nat then Some (Z.of_nat (n - 48)) else None.

Definition is_digit (c : ascii) : bool :=
  match digit_of c with Some _ => true | None => false end.

(** The blanks of ASCII: tab, line feed, vertical tab, form feed, carriage
    return and space. *)
Definition is_space (c : ascii) : bool :=
  byte_in 9 13 c || byte_in 32 32 c.

(** [s.strip()], on the blanks of ASCII: first the left end, then the
    right end. *)
Fixpoint strip_left (s : str) : str :=
  match s with
  | String c r => if is_space c then strip_left r else s
  | EmptyString => EmptyString
  end.

Fixpoint strip_right (s : str) : str :=
  match s with
  | EmptyString => EmptyString
  | String c r =>
      match strip_right r with
      | EmptyString => if is_space c then EmptyString else String c EmptyString
      | r' => String c r'
      end
  end.

Definition strip (s : str) : str := strip_right (strip_left s).

(** The digits of a decimal literal, read from a digit on: a single ["_"]
    may stand between two digits. *)
Fixpoint parse_digits (acc : Z) (s : str) : result Z :=
  match s with
  | EmptyString => Ret acc
  | String c r =>
      match digit_of c with
      | Some d => parse_digits (10 * acc + d) r
      | None =>
          if Ascii.eqb c "_" then
            match r with
            | String c' _ => if is_digit c' then parse_digits acc r
                             else Raise ValueError
            | EmptyString => Raise ValueError
            end
          else Raise ValueError
      end
  end.

(** An unsigned decimal literal: it starts with a digit. *)
Definition parse_literal (s : str) : result Z :=
  match s with
  | String c _ => if is_digit c then parse_digits 0 s else Raise ValueError
  | EmptyString => Raise ValueError
  end.

(** [int(s)] for a [str]: blanks around the literal are dropped, then comes
    an optional sign and a decimal literal; ValueError otherwise.  (Python
    also takes the blanks and the decimal digits of Unicode outside ASCII;
    these are not modelled and give ValueError here.) *)
Definition py_int (s : str) : result Z :=
  match strip s with
  | String "-" r => rbind (parse_literal r) (fun n => Ret (- n))
  | String "+" r => parse_literal r
  | t => parse_literal t
  end.

(** [l[n]] *)
Definition item (l : list str) (n : nat) : result str :=
  match nth_error l n with
  | Some x => Ret x
  | None => Raise IndexError
  end.

(** useful.iptoint *)
Definition iptoint (ipaddr : str) : result Z :=
  let spl := split_on "." ipaddr in
  if negb (List.length spl =? 0)%nat then
    rbind (rbind (item spl 0) py_int) (fun a =>
    rbind (rbind (item spl 1) py_int) (fun b =>
    rbind (rbind (item spl 2) py_int) (fun c =>
    rbind (rbind (item spl 3) py_int) (fun d =>
    Ret (Z.shiftl a 24 + Z.shiftl b 16 + Z.shiftl c 8 + d)))))
  else Ret 0.

(** useful.issameinterface *)
Definition issameinterface (ipaddr ipinterface maskinterface : str) : result bool :=
  rbind (iptoint ipaddr) (fun ipaddr =>
  rbind (iptoint ipinterface) (fun ipinterface =>
  rbind (iptoint maskinterface) (fun maskinterface =>
  if Z.land ipaddr maskinterface =? Z.land ipinterface maskinterface
  then Ret true else Ret false))).

(** ** Data *)

(** StationConfig: the attributes set by [__init__].  [connect] stores its
    [ssid] and [password] arguments as they come, so these two hold a
    [str] or a [bytes]; the address fields are only ever written through
    [tobytes]. *)
Record StationConfig : Type := mkStationConfig {
  activated : bool;
  wifipassword : pytext;
  ssid : pytext;
  ipaddress : bytes;
  netmask : bytes;
  gateway : bytes;
  dns : bytes
}.

(** StationConfig.__init__ *)
Definition StationConfig_init : StationConfig :=
  mkStationConfig true (PBytes "") (PBytes "") "" "" "" "".

Definition set_wifipassword (v : pytext) (c : StationConfig) :=
  mkStationConfig (activated c) v (ssid c) (ipaddress c) (netmask c) (gateway c) (dns c).
Definition set_ssid (v : pytext) (c : StationConfig) :=
  mkStationConfig (activated c) (wifipassword c) v (ipaddress c) (netmask c) (gateway c) (dns c).
Definition set_ipaddress (v : bytes) (c : StationConfig) :=
  mkStationConfig (activated c) (wifipassword c) (ssid c) v (netmask c) (gateway c) (dns c).
Definition set_netmask (v : bytes) (c : StationConfig) :=
  mkStationConfig (activated c) (wifipassword c) (ssid c) (ipaddress c) v (gateway c) (dns c).
Definition set_gateway (v : bytes) (c : StationConfig) :=
  mkStationConfig (activated c) (wifipassword c) (ssid c) (ipaddress c) (netmask c) v (dns c).
Definition set_dns (v : bytes) (c : StationConfig) :=
  mkStationConfig (activated c) (wifipassword c) (ssid c) (ipaddress c) (netmask c) (gateway c) v.

(** The 4-tuple of [wlan.ifconfig()]: ip, netmask, gateway, dns. *)
Record ifcfg : Type := mkIfcfg {
  if_ip : str;
  if_netmask : str;
  if_gateway : str;
  if_dns : str
}.

(** One entry of [wlan.scan()]:
    (ssid, bssid, channel, rssi, authmode, hidden). *)
Record scan_entry : Type := mkScanEntry {
  se_ssid : bytes;
  se_bssid : bytes;
  se_channel : Z;
  se_rssi : Z;
  se_authmode : Z;
  se_hidden : bool
}.

(** One entry of [Station.networks]: (ssid, channel, authmode). *)
Definition network : Type := (bytes * Z * Z)%type.

(** ** sorted(networks, key=lambda x: x[3], reverse=True)

    [sorted] is stable, also with [reverse=True]: entries with equal keys
    keep the order of the input.  The model inserts each entry, from the
    last one to the first, in front of the first entry whose key is not
    greater. *)
Fixpoint insert_desc (x : scan_entry) (l : list scan_entry) : list scan_entry :=
  match l with
  | [] => [x]
  | y :: ys =>
      if se_rssi y <=? se_rssi x then x :: y :: ys
      else y :: insert_desc x ys
  end.

Fixpoint sorted_rssi_desc (l : list scan_entry) : list scan_entry :=
  match l with
  | [] => []
  | x :: xs => insert_desc x (sorted_rssi_desc xs)
  end.

(** The body of the [for] loop of [scan]: one [append] per entry. *)
Definition append_networks (acc : list network) (l : list scan_entry) : list network :=
  fold_left (fun acc e => (acc ++ [(se_ssid e, se_channel e, se_authmode e)])%list) l acc.

(** ** The radio driver *)

(** The methods of network.WLAN that station.py calls, over a driver state
    [D].  [ifconfig()] and [active()] read the state; [isconnected()] and
    [scan()] may also change it (the answer of the next poll may differ);
    [ifconfig(tuple)] may raise. *)
Class WLAN (D : Type) : Type := {
  wl_isconnected : D -> bool * D;
  wl_active : D -> bool;
  wl_set_active : bool -> D -> D;
  wl_connect : bytes -> bytes -> D -> D;
  wl_disconnect : D -> D;
  wl_scan : D -> list scan_entry * D;
  wl_ifconfig : D -> ifcfg;
  wl_set_ifconfig : ifcfg -> D -> result unit * D
}.

(** What the code asks of the driver. *)
Inductive call : Type :=
| CIsConnected
| CActive
| CSetActive (b : bool)
| CConnect (s p : bytes)
| CDisconnect
| CScan
| CIfconfig
| CSetIfconfig (c : ifcfg).

(** What can be observed of a run: driver calls, [print], [sleep] (in
    milliseconds), the creation of the handle and the configuration load. *)
Inductive event : Type :=
| EvCall (c : call)
| EvPrint (s : str)
| EvSleep (ms : Z)
| EvBind
| EvLoad.

(** The handle returned by [WLAN(STA_IF)]. *)
Inductive handle : Type := STA_IF.

(** ** The Station class *)

Record Station (D : Type) : Type := mkStation {
  wlan : option handle;
  config : option StationConfig;
  networks : list network;
  radio : D;
  journal : list event
}.
Arguments mkStation {D}.
Arguments wlan {D}.
Arguments config {D}.
Arguments networks {D}.
Arguments radio {D}.
Arguments journal {D}.

(** The class as the module defines it: no handle, no configuration, no
    network. *)
Definition Station_init {D} (d : D) : Station D :=
  mkStation None None [] d [].

Section StationOps.

Context {D : Type} `{WLAN D}.

(** tools/jsonconfig.load, applied to a fresh configuration: success flag
    and the configuration as the store filled it. *)
Variable jsonconfig_load : StationConfig -> bool * StationConfig.

Local Abbreviation St := (Station D).
Local Abbreviation Py := (M St).

Definition log (e : event) : Py unit :=
  fun st => (Ret tt, mkStation (wlan st) (config st) (networks st) (radio st)
                               (e :: journal st)).

Definition print (s : str) : Py unit := log (EvPrint s).

Definition sleep (ms : Z) : Py unit := log (EvSleep ms).

(** [Station.wlan.<method>]: AttributeError when the handle is None. *)
Definition get_wlan : Py handle :=
  fun st => match wlan st with
            | Some h => (Ret h, st)
            | None => (Raise AttributeError, st)
            end.

Definition set_wlan (h : option handle) : Py unit :=
  fun st => (Ret tt, mkStation h (config st) (networks st) (radio st) (journal st)).

(** [Station.config.<attribute>]: AttributeError when it is None. *)
Definition get_config : Py StationConfig :=
  fun st => match config st with
            | Some c => (Ret c, st)
            | None => (Raise AttributeError, st)
            end.

Definition set_config (c : option StationConfig) : Py unit :=
  fun st => (Ret tt, mkStation (wlan st) c (networks st) (radio st) (journal st)).

Definition get_networks : Py (list network) :=
  fun st => (Ret (networks st), st).

Definition set_networks (l : list network) : Py unit :=
  fun st => (Ret tt, mkStation (wlan st) (config st) l (radio st) (journal st)).

(** Assignment to an attribute of [Station.config]. *)
Definition modify_config (f : StationConfig -> StationConfig) : Py unit :=
  c <- get_config ;; set_config (Some (f c)).

(** A driver method that reads the driver state. *)
Definition driver_read {A} (c : call) (f : D -> A) : Py A :=
  get_wlan ;;;
  log (EvCall c) ;;;
  fun st => (Ret (f (radio st)), st).

(** A driver method that changes the driver state. *)
Definition driver_run {A} (c : call) (f : D -> result A * D) : Py A :=
  get_wlan ;;;
  log (EvCall c) ;;;
  fun st => let (r, d) := f (radio st) in
            (r, mkStation (wlan st) (config st) (networks st) d (journal st)).

Definition wlan_isconnected : Py bool :=
  driver_run CIsConnected (fun d => let (b, d') := wl_isconnected d in (Ret b, d')).

Definition wlan_active : Py bool :=
  driver_read CActive wl_active.

Definition wlan_set_active (b : bool) : Py unit :=
  driver_run (CSetActive b) (fun d => (Ret tt, wl_set_active b d)).

Definition wlan_connect (s p : bytes) : Py unit :=
  driver_run (CConnect s p) (fun d => (Ret tt, wl_connect s p d)).

Definition wlan_disconnect : Py unit :=
  driver_run CDisconnect (fun d => (Ret tt, wl_disconnect d)).

Definition wlan_scan : Py (list scan_entry) :=
  driver_run CScan (fun d => let (l, d') := wl_scan d in (Ret l, d')).

Definition wlan_ifconfig : Py ifcfg :=
  driver_read CIfconfig wl_ifconfig.

Definition wlan_set_ifconfig (c : ifcfg) : Py unit :=
  driver_run (CSetIfconfig c) (wl_set_ifconfig c).

(** *** StationConfig.__repr__ *)

Definition StationConfig_repr (self : StationConfig) : Py str :=
  i <- wlan_ifconfig ;;
  name <- lift (tostrings (ssid self)) ;;
  ret ("StationConfig:" ++ NL
       ++ "   Ip address :" ++ if_ip i ++ NL
       ++ "   Netmask    :" ++ if_netmask i ++ NL
       ++ "   Gateway    :" ++ if_gateway i ++ NL
       ++ "   Dns        :" ++ if_dns i ++ NL
       ++ "   Ssid       :" ++ name ++ NL
       ++ "   Activated  :" ++ str_of_bool (activated self) ++ NL).

(** [repr(Station.config)]: the attribute may still be None. *)
Definition repr_config : Py str :=
  fun st => match config st with
            | Some c => StationConfig_repr c st
            | None => (Ret "None", st)
            end.

(** *** Station.connect *)

(** The body of the [while] loop up to the increment of [count]. *)
Definition poll_body (count : nat) : Py unit :=
  sleep 500 ;;;
  when (count mod 6 =? 0)%nat (print "Try wifi connection").

(** The [while not Station.wlan.isconnected()] loop, entered with the
    current value of [count].  The loop is left through [break] once
    [count] has gone past 120, so [remaining] decreases at each turn. *)
Equations? poll_loop (count : nat) (st : St) : result unit * St
  by wf (remaining count) lt :=
  poll_loop count st with wlan_isconnected st => {
    | (Raise e, st1) => (Raise e, st1);
    | (Ret true, st1) => (Ret tt, st1);
    | (Ret false, st1) with poll_body count st1 => {
        | (Raise e, st2) => (Raise e, st2);
        | (Ret _, st2) with inspect (over_limit (S count)) => {
            | exist _ true _ => (Ret tt, st2);
            | exist _ false Hle => poll_loop (S count) st2 } } }.
Proof.
  unfold over_limit in Hle. apply Nat.ltb_ge in Hle. unfold remaining. lia.
Qed.

Definition connect (ssid_ password : option pytext) : Py bool :=
  match ssid_ with
  | Some s => modify_config (set_ssid s)
  | None => ret tt
  end ;;;
  match password with
  | Some p => modify_config (set_wifipassword p)
  | None => ret tt
  end ;;;
  c <- wlan_isconnected ;;
  if negb c then
    wlan_set_active true ;;;
    cfg <- get_config ;;
    wlan_connect (tobytes (ssid cfg)) (tobytes (wifipassword cfg)) ;;;
    poll_loop 0 ;;;
    c' <- wlan_isconnected ;;
    if Bool.eqb c' false then
      wlan_set_active false ;;; ret false
    else ret true
  else ret true.

(** *** Station.disconnect

    The method is declared static with one parameter, which its body does
    not read: a caller has to hand it some value. *)

Definition disconnect {A : Type} (self : A) : Py unit :=
  c <- wlan_isconnected ;;
  when c (wlan_disconnect ;;; wlan_set_active false).

(** *** Station.isActive *)

Definition isActive : Py bool :=
  fun st => match wlan st with
            | None => (Ret false, st)
            | Some _ => wlan_active st
            end.

(** *** Station.configure *)

(** [if Station.config.f == b"": Station.config.f = tobytes(Station.wlan.ifconfig()[i])] *)
Definition from_interface (get : StationConfig -> bytes)
    (set : bytes -> StationConfig -> StationConfig) (proj : ifcfg -> str) : Py unit :=
  c <- get_config ;;
  when (get c =? "")%string
    (i <- wlan_ifconfig ;; modify_config (set (tobytes (PStr (proj i))))).

(** [if Station.config.f == b"0.0.0.0": Station.config.f = b""] *)
Definition drop_null (get : StationConfig -> bytes)
    (set : bytes -> StationConfig -> StationConfig) : Py unit :=
  c <- get_config ;;
  when (get c =? "0.0.0.0")%string (modify_config (set "")).

(** [if p != None: Station.config.f = tobytes(p)] *)
Definition from_parameter (p : option pytext)
    (set : bytes -> StationConfig -> StationConfig) : Py unit :=
  match p with
  | Some v => modify_config (set (tobytes v))
  | None => ret tt
  end.

(** useful.ismicropython(), and the text of the traceback of an exception
    as the platform formats it. *)
Variable ismicropython : bool.
Variable format_exc : exn -> str.

(** useful.exception: returns the traceback as text; outside MicroPython
    it also prints it. *)
Definition exception (err : exn) : Py str :=
  if ismicropython then ret (format_exc err)
  else print (format_exc err) ;;; ret (format_exc err).

Definition configure (ipaddress_ netmask_ gateway_ dns_ : option pytext) : Py unit :=
  from_parameter ipaddress_ set_ipaddress ;;;
  from_parameter netmask_ set_netmask ;;;
  from_parameter gateway_ set_gateway ;;;
  from_parameter dns_ set_dns ;;;
  from_interface ipaddress set_ipaddress if_ip ;;;
  from_interface netmask set_netmask if_netmask ;;;
  from_interface gateway set_gateway if_gateway ;;;
  from_interface dns set_dns if_dns ;;;
  drop_null ipaddress set_ipaddress ;;;
  drop_null netmask set_netmask ;;;
  drop_null gateway set_gateway ;;;
  drop_null dns set_dns ;;;
  try_except
    (c <- get_config ;;
     when (negb (ipaddress c =? "")%string && negb (netmask c =? "")%string
           && negb (gateway c =? "")%string && negb (dns c =? "")%string)
       (get_wlan ;;;
        ip <- lift (tostrings (PBytes (ipaddress c))) ;;
        nm <- lift (tostrings (PBytes (netmask c))) ;;
        gw <- lift (tostrings (PBytes (gateway c))) ;;
        ns <- lift (tostrings (PBytes (dns c))) ;;
        wlan_set_ifconfig (mkIfcfg ip nm gw ns)))
    (fun err =>
       text <- exception err ;;
       print ("Cannot configure wifi station " ++ text)).

(** *** Station.getInfo *)

Definition getInfo : Py (option ifcfg) :=
  fun st => match wlan st with
            | None => (Ret None, st)
            | Some _ =>
                (c <- wlan_isconnected ;;
                 if c then i <- wlan_ifconfig ;; ret (Some i)
                 else ret None) st
            end.

(** *** Station.isConnected *)

Definition isConnected : Py bool := wlan_isconnected.

(** *** Station.scan *)

Definition scan (force : bool) : Py (list network) :=
  nets <- get_networks ;;
  when (Bool.eqb force true || (List.length nets =? 0)%nat)
    (set_networks [] ;;;
     found <- wlan_scan ;;
     nets0 <- get_networks ;;
     set_networks (append_networks nets0 (sorted_rssi_desc found))) ;;;
  get_networks.

(** *** Station.start *)

Definition start (force : bool) : Py bool :=
  a <- isActive ;;
  if Bool.eqb a false then
    log EvLoad ;;;
    let (loaded, cfg) := jsonconfig_load StationConfig_init in
    if loaded then
      if activated cfg || force then
        log EvBind ;;;
        set_wlan (Some STA_IF) ;;;
        set_config (Some cfg) ;;;
        set_networks [] ;;;
        print "Start wifi" ;;;
        configure None None None None ;;;
        c <- connect None None ;;
        (if c then r <- repr_config ;; print r
         else print "Wifi connection failed") ;;;
        ret true
      else
        print "Wifi disabled" ;;; ret false
    else
      print "Wifi not initialized" ;;; ret false
  else
    print "Wifi already started" ;;;
    r <- repr_config ;;
    print r ;;;
    ret true.

(** *** Station.stop *)

Definition stop : Py unit :=
  a <- isActive ;;
  when (Bool.eqb a false) (print "Wifi stopped").

(** *** Station.isIpOnInterface *)

Definition isIpOnInterface (ipAddr : pytext) : Py bool :=
  ipInterface <- getInfo ;;
  match ipInterface with
  | Some i =>
      lift (rbind (tostrings ipAddr)
                  (fun ip => issameinterface ip (if_ip i) (if_netmask i)))
  | None => ret false
  end.

End StationOps.


Arguments poll_loop {D _} count st.
Arguments connect {D _} ssid_ password.
Arguments disconnect {D _ A} self.
Arguments isActive {D _}.
Arguments exception {D} ismicropython format_exc err.
Arguments configure {D _} ismicropython format_exc ipaddress_ netmask_ gateway_ dns_.
Arguments getInfo {D _}.
Arguments isConnected {D _}.
Arguments scan {D _} force.
Arguments start {D _} jsonconfig_load ismicropython format_exc force.
Arguments stop {D _}.
Arguments isIpOnInterface {D _} ipAddr.
Arguments StationConfig_repr {D _} self.
Arguments repr_config {D _}.

(** ** A driver for examples

    A radio that reports connected from a given poll on (or never), keeps
    its activation flag and address configuration, answers every scan with
    the same list and may refuse a static address. *)
Record mock : Type := mkMock {
  m_connected_at : option nat;
  m_polls : nat;
  m_active : bool;
  m_ifcfg : ifcfg;
  m_found : list scan_entry;
  m_refuse : bool
}.

#[export] Instance mock_WLAN : WLAN mock := {
  wl_isconnected d :=
    (match m_connected_at d with
     | Some n => (n <=? m_polls d)%nat
     | None => false
     end,
     mkMock (m_connected_at d) (S (m_polls d)) (m_active d) (m_ifcfg d)
            (m_found d) (m_refuse d));
  wl_active d := m_active d;
  wl_set_active b d :=
    mkMock (m_connected_at d) (m_polls d) b (m_ifcfg d) (m_found d) (m_refuse d);
  wl_connect _ _ d := d;
  wl_disconnect d := d;
  wl_scan d := (m_found d, d);
  wl_ifconfig d := m_ifcfg d;
  wl_set_ifconfig c d :=
    if m_refuse d then (Raise OSError, d)
    else (Ret tt, mkMock (m_connected_at d) (m_polls d) (m_active d) c
                         (m_found d) (m_refuse d))
}.

Definition null_ifcfg : ifcfg := mkIfcfg "0.0.0.0" "0.0.0.0" "0.0.0.0" "0.0.0.0".

Definition home_ifcfg : ifcfg :=
  mkIfcfg "192.168.1.1" "255.255.255.0" "192.168.1.254" "8.8.8.8".

(** A radio that never connects. *)
Definition deaf_radio : mock := mkMock None 0 false null_ifcfg [] false.

(** A station bound to that radio with the default configuration. *)
Definition deaf_station : Station mock :=
  mkStation (Some STA_IF) (Some StationConfig_init) [] deaf_radio [].

(** The traceback text is of no interest in most examples. *)
Definition no_text (e : exn) : str := "".

(** A traceback reduced to the name of the exception. *)
Definition exn_name (e : exn) : str :=
  match e with
  | AttributeError => "AttributeError"
  | ValueError => "ValueError"
  | IndexError => "IndexError"
  | OSError => "OSError"
  | UnicodeError => "UnicodeError"
  end.

(** A radio with no hotspot in range: it counts the polls and keeps its
    activation flag, and never reports connected. *)
Record lonely : Type := mkLonely {
  l_polls : nat;
  l_active : bool
}.

#[export] Instance lonely_WLAN : WLAN lonely := {
  wl_isconnected d := (false, mkLonely (S (l_polls d)) (l_active d));
  wl_active d := l_active d;
  wl_set_active b d := mkLonely (l_polls d) b;
  wl_connect _ _ d := d;
  wl_disconnect d := d;
  wl_scan d := ([], d);
  wl_ifconfig d := null_ifcfg;
  wl_set_ifconfig c d := (Raise OSError, d)
}.

(** A station bound to that radio, switched on, with the default
    configuration. *)
Definition lonely_station : Station lonely :=
  mkStation (Some STA_IF) (Some StationConfig_init) [] (mkLonely 0 true) [].

(** Three hotspots as a radio may report them, with signal strengths
    -80, -40 and -60. *)
Definition cellar : scan_entry := mkScanEntry "cellar" "b1" 1 (-80) 3 false.
Definition kitchen : scan_entry := mkScanEntry "kitchen" "b2" 6 (-40) 3 false.
Definition attic : scan_entry := mkScanEntry "attic" "b3" 11 (-60) 4 true.

(** A radio that is connected at home and sees the three hotspots. *)
Definition home_radio : mock :=
  mkMock (Some 0%nat) 0 true home_ifcfg [cellar; kitchen; attic] false.

(** A station bound to [home_radio] with the default configuration. *)
Definition home_station : Station mock :=
  mkStation (Some STA_IF) (Some StationConfig_init) [] home_radio [].

(** The same station when the stored gateway is the null address. *)
Definition null_gateway_config : StationConfig :=
  set_gateway "0.0.0.0" StationConfig_init.

Definition null_gateway_station : Station mock :=
  mkStation (Some STA_IF) (Some null_gateway_config) [] home_radio [].

(** The station once a scan has filled [Station.networks]. *)
Definition scanned_station : Station mock := snd (scan true home_station).

(** A station whose radio refuses a static address, with the four addresses
    stored. *)
Definition static_config : StationConfig :=
  mkStationConfig true (PBytes "") (PBytes "home")
    "10.0.0.2" "255.0.0.0" "10.0.0.1" "10.0.0.1".

Definition stubborn_station : Station mock :=
  mkStation (Some STA_IF) (Some static_config) []
    (mkMock (Some 0%nat) 0 true home_ifcfg [] true) [].

(** A store that holds a configuration that is not activated. *)
Definition disabled_store (c : StationConfig) : bool * StationConfig :=
  (true, mkStationConfig false (wifipassword c) (PBytes "home") (ipaddress c)
           (netmask c) (gateway c) (dns c)).

(** A byte string that is not UTF-8: the single byte 0xFF. *)
Definition garbled : bytes := String (ascii_of_nat 255) EmptyString.


(** A station that is active at home and whose ssid is that byte string. *)
Definition garbled_station : Station mock :=
  mkStation (Some STA_IF) (Some (set_ssid (PBytes garbled) StationConfig_init)) []
    home_radio [].

(** ** Observations on the journal *)

Definition is_sleep (e : event) : bool :=
  match e with EvSleep _ => true | _ => false end.

Definition is_poll (e : event) : bool :=
  match e with EvCall CIsConnected => true | _ => false end.

Definition is_scan (e : event) : bool :=
  match e with EvCall CScan => true | _ => false end.

Definition is_push (e : event) : bool :=
  match e with EvCall (CSetIfconfig _) => true | _ => false end.

Definition is_bind (e : event) : bool :=
  match e with EvBind => true | _ => false end.

(** The time spent in [sleep], in milliseconds. *)
Fixpoint slept (j : list event) : Z :=
  match j with
  | [] => 0
  | EvSleep ms :: j' => ms + slept j'
  | _ :: j' => slept j'
  end.

(** How many entries of a journal satisfy [p]. *)
Definition occurrences (p : event -> bool) (j : list event) : nat :=
  List.length (filter p j).

(** [st'] has the handle, the configuration and the networks of [st], and
    no handle was created on the way from [st] to [st']. *)
Definition same_binding {D} (st st' : Station D) : Prop :=
  wlan st' = wlan st /\ config st' = config st /\ networks st' = networks st
  /\ occurrences is_bind (journal st') = occurrences is_bind (journal st).

(** The configuration once [connect] has stored the arguments it was
    given. *)
Definition with_credentials (ssid_ password : option pytext) (c : StationConfig)
    : StationConfig :=
  let c1 := match ssid_ with Some s => set_ssid s c | None => c end in
  match password with Some p => set_wifipassword p c1 | None => c1 end.

(** *** What configure computes

    Field by field: the parameter when there is one, else the stored value;
    when that is empty, the value the interface has; and nothing at all when
    the outcome is the null address. *)
Definition resolve (p : option pytext) (stored : bytes) (live : str) : bytes :=
  let v := match p with Some x => tobytes x | None => stored end in
  let v := if (v =? "")%string then tobytes (PStr live) else v in
  if (v =? "0.0.0.0")%string then "" else v.

(** The same as the specification words it: the stored value counts only
    when it is neither empty nor the null address, and the interface is
    asked otherwise. *)
Definition resolve_as_specified (p : option pytext) (stored : bytes) (live : str)
    : bytes :=
  let v := match p with
           | Some x => tobytes x
           | None =>
               if (negb (stored =? "") && negb (stored =? "0.0.0.0"))%string
               then stored else tobytes (PStr live)
           end in
  if (v =? "0.0.0.0")%string then "" else v.

Definition resolved (pi pn pg pd : option pytext) (c : StationConfig) (live : ifcfg)
    : StationConfig :=
  mkStationConfig (activated c) (wifipassword c) (ssid c)
    (resolve pi (ipaddress c) (if_ip live))
    (resolve pn (netmask c) (if_netmask live))
    (resolve pg (gateway c) (if_gateway live))
    (resolve pd (dns c) (if_dns live)).

(** The four address fields are all set. *)
Definition complete (c : StationConfig) : bool :=
  (negb (ipaddress c =? "") && negb (netmask c =? "")
   && negb (gateway c =? "") && negb (dns c =? ""))%string.

(** The tuple [configure] hands to [ifconfig]. *)
Definition static_of (c : StationConfig) : ifcfg :=
  mkIfcfg (ipaddress c) (netmask c) (gateway c) (dns c).

(** The four fields can be decoded: they are well-formed UTF-8. *)
Definition decodable (c : StationConfig) : bool :=
  utf8_valid (ipaddress c) && utf8_valid (netmask c)
  && utf8_valid (gateway c) && utf8_valid (dns c).


(** The journal after [configure] caught [e]: useful.exception prints the
    traceback itself outside MicroPython, then comes the message of
    [configure]. *)
Definition reported (ismicropython : bool) (format_exc : exn -> str) (e : exn)
    (j : list event) : list event :=
  EvPrint ("Cannot configure wifi station " ++ format_exc e)
  :: (if ismicropython then j else EvPrint (format_exc e) :: j).

(** The journal after the interface was asked for a field left empty. *)
Definition asked (p : option pytext) (stored : bytes) (j : list event) : list event :=
  if (match p with Some x => tobytes x | None => stored end =? "")%string
  then EvCall CIfconfig :: j else j.

(** *** What start depends on *)


(** The answer of [isActive] in a state. *)
Definition is_active {D} `{WLAN D} (st : Station D) : bool :=
  match wlan st with
  | None => false
  | Some _ => wl_active (radio st)
  end.

(** [start] creates the handle: the station is not active, the
    configuration loads, and it is activated or [force] is set. *)
Definition goes_live {D} `{WLAN D} (load : StationConfig -> bool * StationConfig)
    (force : bool) (st : Station D) : bool :=
  negb (is_active st) && fst (load StationConfig_init)
  && (activated (snd (load StationConfig_init)) || force).


(** *** What scan computes *)

(** (ssid, channel, authmode) of an entry of the radio. *)
Definition project (e : scan_entry) : network :=
  (se_ssid e, se_channel e, se_authmode e).

(** [a] may stand before [b] in a ranking by signal strength. *)
Definition stronger (a b : scan_entry) : Prop := se_rssi b <= se_rssi a.

(** The entries of [l] whose signal strength is [k], in the order of [l]. *)
Definition at_strength (k : Z) (l : list scan_entry) : list scan_entry :=
  filter (fun e => se_rssi e =? k) l.

(** *** Dotted quads *)

(** Four octets, first one first. *)
Definition quad : Type := (nat * nat * nat * nat)%type.

Definition octets_ok (q : quad) : Prop :=
  let '(a, b, c, d) := q in (a < 256 /\ b < 256 /\ c < 256 /\ d < 256)%nat.

Definition digit (n : nat) : ascii := ascii_of_nat (48 + n).

(** The decimal writing of an octet, without leading zero. *)
Definition octet_text (n : nat) : str :=
  if (n <? 10)%nat then String (digit n) EmptyString
  else if (n <? 100)%nat then
    String (digit (n / 10)) (String (digit (n mod 10)) EmptyString)
  else
    String (digit (n / 100))
      (String (digit (n / 10 mod 10)) (String (digit (n mod 10)) EmptyString)).

(** The dotted-quad writing of four octets. *)
Definition dotted (q : quad) : str :=
  let '(a, b, c, d) := q in
  octet_text a ++ "." ++ octet_text b ++ "." ++ octet_text c ++ "." ++ octet_text d.

(** The four octets read as one 32-bit number, most significant octet
    first. *)
Definition be32 (q : quad) : Z :=
  let '(a, b, c, d) := q in
  ((Z.of_nat a * 256 + Z.of_nat b) * 256 + Z.of_nat c) * 256 + Z.of_nat d.

(** The address [Station.getInfo] reports: the one of the interface when
    there is a handle and the radio reports connected. *)
Definition live_address {D} `{WLAN D} (st : Station D) : option ifcfg :=
  match wlan st with
  | None => None
  | Some _ =>
      if fst (wl_isconnected (radio st))
      then Some (wl_ifconfig (snd (wl_isconnected (radio st))))
      else None
  end.

(** No "." in a text. *)
Definition dotless (s : str) : bool :=
  forallb (fun c => negb (Ascii.eqb c ".")) (list_ascii_of_string s).

(** ** tools/useful.py: paths

    Texts are cut at indices, so they are looked at as lists of characters.
    The characters the functions look for are ASCII: on the UTF-8 writing of
    a text they are found where they are in the text. *)

Definition chars (s : str) : list ascii := list_ascii_of_string s.
Definition text (l : list ascii) : str := string_of_list_ascii l.

(** [s.rfind(c)] for a one-character [c]: the index of the last [c], or -1.
    [pos] is the index of the head of [l], [found] the answer so far. *)
Fixpoint rfind_from (c : ascii) (l : list ascii) (pos found : Z) : Z :=
  match l with
  | [] => found
  | x :: r => rfind_from c r (pos + 1) (if Ascii.eqb x c then pos else found)
  end.

Definition rfind (c : ascii) (s : str) : Z := rfind_from c (chars s) 0 (-1).

(** The place a slice bound [i] stands for in a text of length [len]:
    negative bounds count from the end, bounds past an end stop there. *)
Definition bound (len : nat) (i : Z) : nat :=
  if i <? 0 then Z.to_nat (Z.of_nat len + i) else Nat.min (Z.to_nat i) len.

(** [s[:i]] *)
Definition upto (s : str) (i : Z) : str :=
  text (firstn (bound (List.length (chars s)) i) (chars s)).

(** [s[i:]] *)
Definition from (s : str) (i : Z) : str :=
  text (skipn (bound (List.length (chars s)) i) (chars s)).

(** [s[i:j]] *)
Definition between (s : str) (i j : Z) : str :=
  let a := bound (List.length (chars s)) i in
  let b := bound (List.length (chars s)) j in
  text (firstn (b - a) (skipn a (chars s))).

Fixpoint drop_while (f : ascii -> bool) (l : list ascii) : list ascii :=
  match l with
  | [] => []
  | x :: r => if f x then drop_while f r else l
  end.

(** [s.rstrip(c)] for a one-character [c]. *)
Definition rstrip (c : ascii) (s : str) : str :=
  text (rev (drop_while (Ascii.eqb c) (rev (chars s)))).

(** [c * n] *)
Definition times (c : ascii) (n : nat) : str := text (repeat c n).

(** useful.split *)
Definition split (p : str) : str * str :=
  let sep := "/"%char in
  let i := rfind sep p + 1 in
  let head := upto p i in
  let tail := from p i in
  let head :=
    if negb (head =? "")%string
       && negb (head =? times sep (List.length (chars head)))%string
    then rstrip sep head else head in
  (head, tail).

(** The [while] loop of useful.splitext: the first index from
    [filenameIndex] on, below [dotIndex], at which [p] has no dot decides for
    the cut at [dotIndex]; None when the loop ends without [return]. *)
Equations? splitext_loop (p : str) (filenameIndex dotIndex : Z) : option (str * str)
  by wf (Z.to_nat (dotIndex - filenameIndex)) lt :=
  splitext_loop p filenameIndex dotIndex with inspect (filenameIndex <? dotIndex) => {
    | exist _ true Hlt =>
        if negb (between p filenameIndex (filenameIndex + 1) =? ".")%string
        then Some (upto p dotIndex, from p dotIndex)
        else splitext_loop p (filenameIndex + 1) dotIndex;
    | exist _ false _ => None }.
Proof.
  apply Z.ltb_lt in Hlt. lia.
Qed.

(** useful.splitext *)
Definition splitext (p : str) : str * str :=
  let sep := "\"%char in
  let altsep := "/"%char in
  let extsep := "."%char in
  let sepIndex := rfind sep p in
  let altsepIndex := rfind altsep p in
  let sepIndex := Z.max sepIndex altsepIndex in
  let dotIndex := rfind extsep p in
  match (if sepIndex <? dotIndex
         then splitext_loop p (sepIndex + 1) dotIndex else None) with
  | Some r => r
  | None => (p, upto p 0)
  end.

(** One turn of the [for] loop of useful.abspath. *)
Definition abspath_token (cwd token : str) : str :=
  if (token =? "..")%string then
    if negb (cwd =? "/")%string then
      let cwd := String.concat "/" (removelast (split_on "/" cwd)) in
      if (cwd =? "")%string then "/" else cwd
    else cwd
  else if negb (token =? ".")%string && negb (token =? "")%string then
    if (cwd =? "/")%string then cwd ++ token
    else cwd ++ "/" ++ token
  else cwd.

(** useful.abspath *)
Definition abspath (cwd payload : str) : str :=
  let cwd := if String.prefix "/" payload then "/" else cwd in
  fold_left abspath_token (split_on "/" payload) cwd.

(** useful.abspathbytes: the same on bytes. *)
Definition abspathbytes (cwd payload : bytes) : bytes := abspath cwd payload.

(** ** tools/useful.py: file information

    [os.stat] is the file system as it is when the call is made: a
    parameter.  Of the tuple it returns only element 0 is looked at. *)

Record stat_result : Type := mkStat {
  st_mode : Z;
  st_others : list Z
}.

(** The module variable [previousFileInfo] ([] or [path, stat]) and the
    paths [os.stat] was called with, newest first. *)
Record Files : Type := mkFiles {
  previousFileInfo : option (str * stat_result);
  stat_calls : list str
}.

Section FileInfo.

Variable os_stat : str -> result stat_result.

(** [previousFileInfo = [path, os.stat(path)]]: nothing is assigned when
    [os.stat] raises. *)
Definition remember (path : str) : M Files unit :=
  fun fs =>
    match os_stat path with
    | Ret s => (Ret tt, mkFiles (Some (path, s)) (path :: stat_calls fs))
    | Raise e => (Raise e, mkFiles (previousFileInfo fs) (path :: stat_calls fs))
    end.

(** [previousFileInfo[1]] *)
Definition remembered : M Files stat_result :=
  fun fs =>
    match previousFileInfo fs with
    | Some (_, s) => (Ret s, fs)
    | None => (Raise IndexError, fs)
    end.

(** useful.fileinfo *)
Definition fileinfo (path : str) : M Files stat_result :=
  (fun fs =>
     match previousFileInfo fs with
     | None => remember path fs
     | Some (known, _) =>
         if negb (known =? path)%string then remember path fs else (Ret tt, fs)
     end) ;;;
  remembered.

(** useful.isdir *)
Definition isdir (path : str) : M Files bool :=
  try_except
    (s <- fileinfo path ;;
     if Z.land (st_mode s) 16384 =? 16384 then ret true else ret false)
    (fun _ => ret false).

(** useful.isfile *)
Definition isfile (path : str) : M Files bool :=
  try_except
    (s <- fileinfo path ;;
     if Z.land (st_mode s) 16384 =? 0 then ret true else ret false)
    (fun _ => ret false).

End FileInfo.

(** What is known about [path] without asking the file system. *)
Definition cached (fs : Files) (path : str) : option stat_result :=
  match previousFileInfo fs with
  | Some (known, s) => if (known =? path)%string then Some s else None
  | None => None
  end.

(** ** tools/useful.py: makedir *)

(** The [while 1] loop of useful.makedir: the heads of [directory], one
    after the other, added to [directories].  [fuel] bounds the number of
    turns; None when it is used up. *)
Fixpoint makedir_climb (fuel : nat) (directory : str) (directories : list str)
    : option (list str) :=
  match fuel with
  | O => None
  | S fuel' =>
      let parts := split directory in
      if ((snd parts =? "") || (fst parts =? ""))%string then Some directories
      else makedir_climb fuel' (fst parts) (directories ++ [fst parts])
  end.

(** The list the [for] loop of useful.makedir goes through, when
    [recursive] is set: a head is shorter than what it is the head of, so
    one turn more than [directory] has characters are enough. *)
Definition makedir_directories (directory : str) : option (list str) :=
  option_map (@rev str)
    (makedir_climb (S (String.length directory)) directory [directory]).

(** The rest of useful.makedir, over a file system [F]: [os.lstat],
    [os.stat] and [os.mkdir] are parameters.  The state also lists the paths
    [os.mkdir] was called with, newest first. *)
Section MakeDir.

Context {F : Type}.
Variable os_lstat : str -> F -> result stat_result.
Variable os_stat : str -> F -> result stat_result.
Variable os_mkdir : str -> F -> result unit * F.

(** useful.exists *)
Definition exists_ (filename : str) : M (F * list str) bool :=
  fun st =>
    match os_lstat filename (fst st) with
    | Ret _ => (Ret true, st)
    | Raise _ =>
        match os_stat filename (fst st) with
        | Ret _ => (Ret true, st)
        | Raise _ => (Ret false, st)
        end
    end.

Definition mkdir (d : str) : M (F * list str) unit :=
  fun st => let (r, fs) := os_mkdir d (fst st) in (r, (fs, d :: snd st)).

(** [for d in directories: if not(exists(d)): os.mkdir(d)] *)
Fixpoint makedir_each (directories : list str) : M (F * list str) unit :=
  match directories with
  | [] => ret tt
  | d :: r =>
      e <- exists_ d ;;
      when (negb e) (mkdir d) ;;;
      makedir_each r
  end.

(** useful.makedir; None when the loop that collects the directories ran
    out of fuel. *)
Definition makedir (directory : str) (recursive : bool)
    : M (F * list str) (option unit) :=
  if Bool.eqb recursive false then
    mkdir directory ;;; ret (Some tt)
  else
    match makedir_directories directory with
    | Some directories => makedir_each directories ;;; ret (Some tt)
    | None => ret None
    end.

End MakeDir.

(** The paths a relative path goes through, component after component:
    for a, b, c these are a, a/b and a/b/c. *)
Fixpoint prefixes_from (done names : list str) : list str :=
  match names with
  | [] => []
  | n :: r => String.concat "/" (done ++ [n]) :: prefixes_from (done ++ [n]) r
  end.

Definition prefixes (names : list str) : list str := prefixes_from [] names.

(** The loop of makedir as a relation: the heads it adds, starting from
    [directory], until a head or a tail is empty. *)
Inductive climbs : str -> list str -> Prop :=
| climbs_stop directory :
    snd (split directory) = "" \/ fst (split directory) = "" ->
    climbs directory []
| climbs_up directory heads :
    snd (split directory) <> "" -> fst (split directory) <> "" ->
    climbs (fst (split directory)) heads ->
    climbs directory (fst (split directory) :: heads).

(** [y] is [x] with something after it. *)
Definition extends (x y : str) : Prop :=
  exists rest, rest <> "" /\ y = (x ++ rest)%string.

(** *** What the path functions are compared with *)

(** No [c] in a text. *)
Definition without (c : ascii) (s : str) : Prop := ~ In c (chars s).

(** The path that has the components [stack] below the root. *)
Definition path_of (stack : list str) : str :=
  match stack with
  | [] => "/"
  | _ => "/" ++ String.concat "/" stack
  end.

(** What a token of a path does to the components walked so far. *)
Definition walk_token (stack : list str) (token : str) : list str :=
  if (token =? "..")%string then removelast stack
  else if negb (token =? ".")%string && negb (token =? "")%string
       then (stack ++ [token])%list
       else stack.

(** A component of a path: not empty, no "/". *)
Definition component (c : str) : Prop := c <> "" /\ without "/" c.

(** A component that is a name, not a move. *)
Definition name (c : str) : Prop := component c /\ c <> "." /\ c <> "..".

(** *** More observations *)

Definition is_switch_off (e : event) : bool :=
  match e with EvCall (CSetActive false) => true | _ => false end.

Definition is_print (e : event) : bool :=
  match e with EvPrint _ => true | _ => false end.

(** An event of the polling loop: a poll, a sleep of half a second or the
    message of the loop. *)
Definition is_polling (e : event) : bool :=
  match e with
  | EvCall CIsConnected => true
  | EvSleep _ => true
  | EvPrint _ => true
  | _ => false
  end.

(** The value of an address field once the parameter, if any, is stored. *)
Definition given (p : option pytext) (stored : bytes) : bytes :=
  match p with Some x => tobytes x | None => stored end.

(** The configuration once the four parameters are stored. *)
Definition stored_parameters (pi pn pg pd : option pytext) (c : StationConfig)
    : StationConfig :=
  mkStationConfig (activated c) (wifipassword c) (ssid c)
    (given pi (ipaddress c)) (given pn (netmask c))
    (given pg (gateway c)) (given pd (dns c)).

(** [b"0.0.0.0"] replaced by [b""]. *)
Definition drop_null_address (v : bytes) : bytes :=
  if (v =? "0.0.0.0")%string then "" else v.

(** The decimal writing of a number below 1000 is [octet_text]; an address
    written with such numbers, octets or not. *)
Definition numbers_ok (q : quad) : Prop :=
  let '(a, b, c, d) := q in (a < 1000 /\ b < 1000 /\ c < 1000 /\ d < 1000)%nat.

(** ** Properties *)

Section Proofs.

Context {D : Type} `{WLAN D}.

Lemma same_binding_refl (st : Station D) : same_binding st st.
Proof. repeat split. Qed.

Lemma same_binding_trans (a b c : Station D) :
  same_binding a b -> same_binding b c -> same_binding a c.
Proof.
  unfold same_binding. intros (?&?&?&?) (?&?&?&?). repeat split; congruence.
Qed.

Lemma occurrences_cons (p : event -> bool) (e : event) (j : list event) :
  occurrences p (e :: j) = ((if p e then 1 else 0) + occurrences p j)%nat.
Proof. unfold occurrences. simpl. destruct (p e); reflexivity. Qed.

(** *** Driver calls through a handle *)

Lemma wlan_isconnected_bound (h : handle) c n (d : D) j :
  wlan_isconnected (mkStation (Some h) c n d j)
  = (Ret (fst (wl_isconnected d)),
     mkStation (Some h) c n (snd (wl_isconnected d)) (EvCall CIsConnected :: j)).
Proof.
  unfold wlan_isconnected, driver_run, bind, get_wlan, log. simpl.
  destruct (wl_isconnected d); reflexivity.
Qed.

Lemma poll_body_eq (count : nat) w c n (d : D) j :
  poll_body count (mkStation w c n d j)
  = (Ret tt,
     mkStation w c n d
       (if (count mod 6 =? 0)%nat
        then EvPrint "Try wifi connection" :: EvSleep 500 :: j
        else EvSleep 500 :: j)).
Proof.
  unfold poll_body, bind, sleep, print, log, when, ret.
  destruct (count mod 6 =? 0)%nat; reflexivity.
Qed.

(** *** The polling loop *)

(** Case analysis on the test of the first conditional of the goal. *)
Ltac case_if :=
  match goal with
  | |- context [if ?b then _ else _] => destruct b
  end.

(** Turns the equations that [funelim] leaves for the tests of the loop
    into facts about the radio and the state. *)
Ltac poll_facts :=
  repeat match goal with
    | E : wlan_isconnected (mkStation (Some _) _ _ _ _) = _ |- _ =>
        rewrite wlan_isconnected_bound in E;
        first [discriminate E | injection E as ? ?; subst]
    | E : poll_body _ (mkStation _ _ _ _ _) = _ |- _ =>
        rewrite poll_body_eq in E;
        first [discriminate E | injection E as ?; subst]
    end.

(** With a handle the loop always comes to an end, whatever the radio
    answers; it touches neither the handle nor the configuration. *)
Lemma poll_loop_returns (count : nat) (st : Station D) :
  wlan st <> None ->
  exists st', poll_loop count st = (Ret tt, st') /\ same_binding st st'.
Proof.
  funelim (poll_loop count st); intros Hb;
    destruct st as [[h|] c n d j]; try (exfalso; apply Hb; reflexivity);
    poll_facts.
  - eexists; split; [reflexivity|]. repeat split.
  - eexists; split; [reflexivity|].
    repeat split. cbn [journal]. case_if; reflexivity.
  - match goal with
    | IH : _ -> exists _, poll_loop (S count) _ = _ /\ _ |- _ =>
        destruct IH as (st' & Hst' & Hs); [simpl; discriminate|]
    end.
    exists st'; split; [exact Hst'|].
    eapply same_binding_trans; [|exact Hs].
    repeat split. cbn [journal]. case_if; reflexivity.
Qed.

(** A radio that never reports connected keeps the loop going until
    [count] has gone past 120: from [count] on, that is [121 - count] turns,
    each with one poll and one sleep. *)
Lemma poll_loop_never (count : nat) (st : Station D) :
  (forall d : D, fst (wl_isconnected d) = false) ->
  wlan st <> None ->
  (count <= 120)%nat ->
  exists st',
    poll_loop count st = (Ret tt, st') /\ same_binding st st'
    /\ occurrences is_sleep (journal st')
       = (occurrences is_sleep (journal st) + (121 - count))%nat
    /\ occurrences is_poll (journal st')
       = (occurrences is_poll (journal st) + (121 - count))%nat
    /\ slept (journal st') = slept (journal st) + 500 * Z.of_nat (121 - count).
Proof.
  intros Hnever.
  funelim (poll_loop count st); intros Hb Hc;
    destruct st as [[h|] c n d j]; try (exfalso; apply Hb; reflexivity);
    poll_facts;
    try match goal with
      | E : fst (wl_isconnected _) = true |- _ => rewrite Hnever in E; discriminate E
      end.
  - assert (count = 120)%nat as ->.
    { match goal with
      | E : over_limit _ = true |- _ =>
          pose proof E as E'; unfold over_limit in E'; apply Nat.ltb_lt in E'; lia
      end. }
    eexists; split; [reflexivity|].
    split; [repeat split; cbn [journal]; case_if; reflexivity|].
    cbn [journal].
    repeat split; case_if;
      rewrite ?occurrences_cons; cbn [is_sleep is_poll slept]; lia.
  - assert (S count <= 120)%nat as Hc'.
    { match goal with
      | E : over_limit _ = false |- _ =>
          pose proof E as E'; unfold over_limit in E'; apply Nat.ltb_ge in E'; lia
      end. }
    match goal with
    | IH : _ -> _ -> _ -> exists _, poll_loop (S count) _ = _ /\ _ |- _ =>
        destruct (IH Hnever) as (st' & Hst' & Hs & Hsl & Hpo & Hti);
        [simpl; discriminate | exact Hc' |]
    end.
    exists st'; split; [exact Hst'|].
    split.
    { eapply same_binding_trans; [|exact Hs].
      repeat split. cbn [journal]. case_if; reflexivity. }
    rewrite Hsl, Hpo, Hti. cbn [journal].
    repeat split; case_if;
      rewrite ?occurrences_cons; cbn [is_sleep is_poll slept]; lia.
Qed.

(** *** connect *)

Lemma bind_Ret {S A B} (m : M S A) (k : A -> M S B) st a st1 :
  m st = (Ret a, st1) -> bind m k st = k a st1.
Proof. unfold bind. intros ->. reflexivity. Qed.

Lemma bind_Raise {S A B} (m : M S A) (k : A -> M S B) st e st1 :
  m st = (Raise e, st1) -> bind m k st = (Raise e, st1).
Proof. unfold bind. intros ->. reflexivity. Qed.

Lemma wlan_set_active_bound (b : bool) (h : handle) c n (d : D) j :
  wlan_set_active b (mkStation (Some h) c n d j)
  = (Ret tt, mkStation (Some h) c n (wl_set_active b d) (EvCall (CSetActive b) :: j)).
Proof. reflexivity. Qed.

Lemma wlan_connect_bound (s p : bytes) (h : handle) c n (d : D) j :
  wlan_connect s p (mkStation (Some h) c n d j)
  = (Ret tt, mkStation (Some h) c n (wl_connect s p d) (EvCall (CConnect s p) :: j)).
Proof. reflexivity. Qed.

Lemma get_config_some w c n (d : D) j :
  get_config (mkStation w (Some c) n d j) = (Ret c, mkStation w (Some c) n d j).
Proof. reflexivity. Qed.

Lemma store_credentials {X} (ssid_ password : option pytext) (k : M (Station D) X)
    w c n (d : D) j :
  bind
    (match ssid_ with
     | Some s => modify_config (set_ssid s)
     | None => ret tt
     end)
    (fun _ =>
       bind
         (match password with
          | Some p => modify_config (set_wifipassword p)
          | None => ret tt
          end)
         (fun _ => k))
    (mkStation w (Some c) n d j)
  = k (mkStation w (Some (with_credentials ssid_ password c)) n d j).
Proof. destruct ssid_, password; reflexivity. Qed.


(** C2.  With a radio that never reports connected, [connect] returns
    False and its last request to the radio is [active(False)].  The polling
    loop does not stop after 120 turns, as the claim has it, but after 121:
    [count] is compared with 120 after it was incremented, and with [>].
    That makes 121 sleeps of half a second, 60.5 seconds in all, and, with
    the test before the loop and the one after it, 123 calls of
    [isconnected]. *)
Theorem connect_never_connected (ssid_ password : option pytext) (st : Station D) :
  (forall d : D, fst (wl_isconnected d) = false) ->
  wlan st <> None -> config st <> None ->
  exists st',
    connect ssid_ password st = (Ret false, st')
    /\ occurrences is_sleep (journal st')
       = (occurrences is_sleep (journal st) + 121)%nat
    /\ occurrences is_poll (journal st')
       = (occurrences is_poll (journal st) + 123)%nat
    /\ slept (journal st') = slept (journal st) + 60500
    /\ (exists j', journal st' = EvCall (CSetActive false) :: j')
    /\ (exists d', radio st' = wl_set_active false d').
Proof.
  intros Hnever.
  destruct st as [[h|] [c|] n d j]; cbn [wlan config]; try congruence.
  intros _ _.
  unfold connect. rewrite store_credentials.
  erewrite bind_Ret by apply wlan_isconnected_bound.
  rewrite Hnever. cbn [negb].
  erewrite bind_Ret by apply wlan_set_active_bound.
  erewrite bind_Ret by apply get_config_some.
  erewrite bind_Ret by apply wlan_connect_bound.
  match goal with
  | |- context [bind (poll_loop 0) _ ?s] =>
      destruct (poll_loop_never 0 s Hnever)
        as ([w' c' n' d' j'] & Hloop & (Hw & _) & Hsl & Hpo & Hti);
      [discriminate | lia |]
  end.
  cbn [wlan journal] in Hw, Hsl, Hpo, Hti. subst w'.
  erewrite bind_Ret by exact Hloop.
  erewrite bind_Ret by apply wlan_isconnected_bound.
  rewrite Hnever. cbn [Bool.eqb].
  erewrite bind_Ret by apply wlan_set_active_bound.
  eexists. split; [reflexivity|]. cbn [journal radio].
  rewrite !occurrences_cons in *. cbn [is_sleep is_poll slept] in *.
  repeat split; [lia | lia | lia | eexists; reflexivity | eexists; reflexivity].
Qed.

(** *** Without a handle *)

(** C4.  While [Station.wlan] is None, [isActive] answers False, [getInfo]
    answers None and [isIpOnInterface] answers False: they test the handle
    first.  [isConnected], [scan] (when it has to ask the radio) and
    [connect] do not, and raise AttributeError instead of reporting a
    failure. *)
Theorem unbound_operations c n (d : D) j (ipAddr : pytext)
    (ssid_ password : option pytext) (force : bool) :
  let st := mkStation None c n d j in
  isActive st = (Ret false, st)
  /\ getInfo st = (Ret None, st)
  /\ isIpOnInterface ipAddr st = (Ret false, st)
  /\ isConnected st = (Raise AttributeError, st)
  /\ scan true st = (Raise AttributeError, mkStation None c [] d j)
  /\ scan force (mkStation None c [] d j)
     = (Raise AttributeError, mkStation None c [] d j)
  /\ fst (connect ssid_ password st) = Raise AttributeError.
Proof.
  cbv zeta. repeat split.
  - destruct force; reflexivity.
  - destruct c, ssid_, password; reflexivity.
Qed.

(** *** configure *)

Section Configure.

Variable ismicropython : bool.
Variable format_exc : exn -> str.

Lemma from_parameter_eq (p : option pytext) get set w c n (d : D) j :
  (forall c0, set (get c0) c0 = c0) ->
  from_parameter p set (mkStation w (Some c) n d j)
  = (Ret tt,
     mkStation w
       (Some (set (match p with Some x => tobytes x | None => get c end) c)) n d j).
Proof.
  intros Hlens. destruct p; cbn; rewrite ?Hlens; reflexivity.
Qed.

Lemma from_interface_eq get set proj h c n (d : D) j :
  (forall c0, set (get c0) c0 = c0) ->
  from_interface get set proj (mkStation (Some h) (Some c) n d j)
  = (Ret tt,
     mkStation (Some h)
       (Some (set (if (get c =? "")%string
                   then tobytes (PStr (proj (wl_ifconfig d))) else get c) c))
       n d
       (if (get c =? "")%string then EvCall CIfconfig :: j else j)).
Proof.
  intros Hlens. unfold from_interface.
  erewrite bind_Ret by apply get_config_some.
  destruct (get c =? "")%string; cbn; rewrite ?Hlens; reflexivity.
Qed.

Lemma drop_null_eq get set w c n (d : D) j :
  (forall c0, set (get c0) c0 = c0) ->
  drop_null get set (mkStation w (Some c) n d j)
  = (Ret tt,
     mkStation w
       (Some (set (if (get c =? "0.0.0.0")%string then "" else get c) c)) n d j).
Proof.
  intros Hlens. unfold drop_null.
  erewrite bind_Ret by apply get_config_some.
  destruct (get c =? "0.0.0.0")%string; cbn; rewrite ?Hlens; reflexivity.
Qed.

Lemma wlan_set_ifconfig_bound (i : ifcfg) h c n (d : D) j :
  wlan_set_ifconfig i (mkStation (Some h) c n d j)
  = (fst (wl_set_ifconfig i d),
     mkStation (Some h) c n (snd (wl_set_ifconfig i d)) (EvCall (CSetIfconfig i) :: j)).
Proof.
  unfold wlan_set_ifconfig, driver_run, bind, get_wlan, log. cbn.
  destruct (wl_set_ifconfig i d); reflexivity.
Qed.

(** One step of [configure] on a configuration given field by field. *)
Ltac lens_law := intros []; reflexivity.

Ltac configure_step :=
  erewrite bind_Ret
    by first [ apply from_parameter_eq with (get := ipaddress); lens_law
             | apply from_parameter_eq with (get := netmask); lens_law
             | apply from_parameter_eq with (get := gateway); lens_law
             | apply from_parameter_eq with (get := dns); lens_law
             | apply from_interface_eq; lens_law
             | apply drop_null_eq; lens_law ];
  cbn [set_ipaddress set_netmask set_gateway set_dns
       ipaddress netmask gateway dns activated wifipassword ssid].

(** What the [except] clause of [configure] does with [e]. *)
Lemma handler_eq (e : exn) w c n (d : D) j :
  (text <- exception ismicropython format_exc e ;;
   print ("Cannot configure wifi station " ++ text)) (mkStation w c n d j)
  = (Ret tt, mkStation w c n d (reported ismicropython format_exc e j)).
Proof.
  unfold exception, reported. destruct ismicropython; reflexivity.
Qed.

(** [configure] in one equation, for a station with a handle and a
    configuration. *)
Lemma configure_eq (pi pn pg pd : option pytext) h c n (d : D) j :
  let c' := resolved pi pn pg pd c (wl_ifconfig d) in
  let j1 := asked pd (dns c) (asked pg (gateway c)
              (asked pn (netmask c) (asked pi (ipaddress c) j))) in
  configure ismicropython format_exc pi pn pg pd (mkStation (Some h) (Some c) n d j)
  = (Ret tt,
     mkStation (Some h) (Some c') n
       (if complete c' && decodable c'
        then snd (wl_set_ifconfig (static_of c') d) else d)
       (if complete c'
        then if decodable c'
             then match fst (wl_set_ifconfig (static_of c') d) with
                  | Ret _ => EvCall (CSetIfconfig (static_of c')) :: j1
                  | Raise e =>
                      reported ismicropython format_exc e
                        (EvCall (CSetIfconfig (static_of c')) :: j1)
                  end
             else reported ismicropython format_exc UnicodeError j1
        else j1)).
Proof.
  destruct c as [a pw s i m g x]. cbv zeta.
  unfold configure. do 12 configure_step.
  set (c' := resolved pi pn pg pd (mkStationConfig a pw s i m g x) (wl_ifconfig d)).
  match goal with
  | |- context [mkStation _ (Some ?x) _ _ _] => change x with c'
  end.
  unfold try_except. erewrite bind_Ret by apply get_config_some.
  fold (complete c').
  destruct (complete c'); cbn [when andb]; [|reflexivity].
  erewrite bind_Ret by reflexivity.
  unfold decodable. cbn [tostrings]. unfold decode.
  destruct (utf8_valid (ipaddress c')); cbn [andb];
    [erewrite bind_Ret by reflexivity|apply handler_eq].
  destruct (utf8_valid (netmask c')); cbn [andb];
    [erewrite bind_Ret by reflexivity|apply handler_eq].
  destruct (utf8_valid (gateway c')); cbn [andb];
    [erewrite bind_Ret by reflexivity|apply handler_eq].
  destruct (utf8_valid (dns c')); cbn [andb];
    [erewrite bind_Ret by reflexivity|apply handler_eq].
  fold (static_of c').
  rewrite wlan_set_ifconfig_bound.
  destruct (wl_set_ifconfig (static_of c') d) as [[[]|e] d']; cbn [fst snd];
    [reflexivity|apply handler_eq].
Qed.

Lemma occurrences_asked (q : event -> bool) p stored j :
  q (EvCall CIfconfig) = false ->
  occurrences q (asked p stored j) = occurrences q j.
Proof.
  intros Hq. unfold asked. case_if; [|reflexivity].
  rewrite occurrences_cons, Hq. reflexivity.
Qed.

Lemma occurrences_reported (q : event -> bool) e j :
  (forall s, q (EvPrint s) = false) ->
  occurrences q (reported ismicropython format_exc e j) = occurrences q j.
Proof.
  intros Hq. unfold reported.
  destruct ismicropython; rewrite !occurrences_cons, !Hq; reflexivity.
Qed.

(** With a handle and a configuration [configure] returns, also when the
    radio refuses the addresses; no handle is created. *)
Lemma configure_returns (pi pn pg pd : option pytext) (st : Station D) h c :
  wlan st = Some h -> config st = Some c ->
  exists st',
    configure ismicropython format_exc pi pn pg pd st = (Ret tt, st')
    /\ wlan st' = Some h
    /\ config st' = Some (resolved pi pn pg pd c (wl_ifconfig (radio st)))
    /\ networks st' = networks st
    /\ occurrences is_bind (journal st') = occurrences is_bind (journal st).
Proof.
  destruct st as [w c0 n d j]. cbn [wlan config radio journal networks].
  intros -> ->.
  rewrite configure_eq. eexists.
  split; [reflexivity|]. repeat split. cbn [journal].
  destruct (complete _); [destruct (decodable _); [destruct (fst _)|]|];
    rewrite ?occurrences_reported by (intros; reflexivity);
    rewrite ?occurrences_cons; cbn [is_bind];
    rewrite !occurrences_asked by reflexivity; reflexivity.
Qed.

(** C1, as the code has it.  For a station with a handle and a
    configuration, [configure] returns and leaves in each address field: the
    parameter when one was given, else the stored value; if that is empty,
    the value of the interface; and the empty value if the outcome is
    "0.0.0.0".  The interface is asked only for a field that is empty after
    the parameters were stored: a stored "0.0.0.0" without parameter ends
    empty.  The other fields are left alone. *)
Theorem configure_resolution (pi pn pg pd : option pytext) (st : Station D) h c :
  wlan st = Some h -> config st = Some c ->
  exists st' c',
    configure ismicropython format_exc pi pn pg pd st = (Ret tt, st')
    /\ config st' = Some c'
    /\ ipaddress c' = resolve pi (ipaddress c) (if_ip (wl_ifconfig (radio st)))
    /\ netmask c' = resolve pn (netmask c) (if_netmask (wl_ifconfig (radio st)))
    /\ gateway c' = resolve pg (gateway c) (if_gateway (wl_ifconfig (radio st)))
    /\ dns c' = resolve pd (dns c) (if_dns (wl_ifconfig (radio st)))
    /\ activated c' = activated c /\ ssid c' = ssid c
    /\ wifipassword c' = wifipassword c
    /\ (forall live, resolve None "0.0.0.0" live = "").
Proof.
  destruct st as [w c0 n d j]. cbn [wlan config radio]. intros -> ->.
  rewrite configure_eq. do 2 eexists.
  split; [reflexivity|]. split; [reflexivity|].
  repeat split.
Qed.

(** C5, as the code has it.  For a station with a handle and a
    configuration, [configure] calls [ifconfig] with a tuple exactly when the
    four address fields are all non-empty after resolution and all four can
    be decoded as UTF-8, and then with these four fields.  When one of them
    is empty the setter is not called and the radio is left as it was.  When
    all four are set but one cannot be decoded, the UnicodeError is caught
    and reported, the setter is not called and the radio is left as it
    was. *)
Theorem configure_static_iff_complete_decodable (pi pn pg pd : option pytext)
    (st : Station D) h c :
  wlan st = Some h -> config st = Some c ->
  exists st' c',
    configure ismicropython format_exc pi pn pg pd st = (Ret tt, st')
    /\ config st' = Some c'
    /\ c' = resolved pi pn pg pd c (wl_ifconfig (radio st))
    /\ occurrences is_push (journal st')
       = ((if complete c' && decodable c' then 1 else 0)
          + occurrences is_push (journal st))%nat
    /\ (complete c' = true -> decodable c' = true ->
        In (EvCall (CSetIfconfig (static_of c'))) (journal st')
        /\ radio st' = snd (wl_set_ifconfig (static_of c') (radio st)))
    /\ (complete c' = false -> radio st' = radio st)
    /\ (complete c' = true -> decodable c' = false ->
        radio st' = radio st
        /\ hd_error (journal st')
           = Some (EvPrint ("Cannot configure wifi station "
                            ++ format_exc UnicodeError))).
Proof.
  destruct st as [w c0 n d j]. cbn [wlan config radio journal]. intros -> ->.
  rewrite configure_eq. do 2 eexists.
  split; [reflexivity|]. split; [reflexivity|]. split; [reflexivity|].
  cbn [radio journal].
  set (c' := resolved pi pn pg pd c (wl_ifconfig d)).
  destruct (complete c'); [destruct (decodable c')|]; cbn [andb].
  - split; [|split; [intros _ _|split; discriminate]].
    + destruct (fst (wl_set_ifconfig (static_of c') d));
        rewrite ?occurrences_reported by (intros; reflexivity);
        rewrite !occurrences_cons; cbn [is_push];
        rewrite !occurrences_asked by reflexivity; reflexivity.
    + split; [|reflexivity].
      destruct (fst (wl_set_ifconfig (static_of c') d));
        unfold reported; destruct ismicropython; cbn; auto.
  - split; [|split; [discriminate|split; [discriminate|intros _ _]]].
    + rewrite occurrences_reported by (intros; reflexivity).
      rewrite !occurrences_asked by reflexivity. reflexivity.
    + split; reflexivity.
  - split; [|split; [discriminate|split; [reflexivity|discriminate]]].
    rewrite !occurrences_asked by reflexivity. reflexivity.
Qed.

End Configure.

(** *** sorted *)

Lemma insert_desc_perm (x : scan_entry) (l : list scan_entry) :
  Permutation (insert_desc x l) (x :: l).
Proof.
  induction l as [|y ys IH]; cbn [insert_desc].
  - apply Permutation_refl.
  - destruct (se_rssi y <=? se_rssi x).
    + apply Permutation_refl.
    + eapply perm_trans; [apply perm_skip, IH | apply perm_swap].
Qed.

Lemma sorted_rssi_desc_perm (l : list scan_entry) :
  Permutation (sorted_rssi_desc l) l.
Proof.
  induction l as [|x xs IH]; cbn [sorted_rssi_desc].
  - apply perm_nil.
  - eapply perm_trans; [apply insert_desc_perm | apply perm_skip, IH].
Qed.

Lemma insert_desc_sorted (x : scan_entry) (l : list scan_entry) :
  StronglySorted stronger l -> StronglySorted stronger (insert_desc x l).
Proof.
  induction 1 as [|y ys Hs IH Hy]; cbn [insert_desc].
  - repeat constructor.
  - destruct (se_rssi y <=? se_rssi x) eqn:E.
    + apply Z.leb_le in E.
      constructor; [constructor; assumption|].
      constructor; [exact E|].
      eapply Forall_impl; [|exact Hy].
      unfold stronger. intros. lia.
    + apply Z.leb_gt in E.
      constructor; [exact IH|].
      eapply Permutation_Forall; [apply Permutation_sym, insert_desc_perm|].
      constructor; [unfold stronger; lia | exact Hy].
Qed.

Lemma sorted_rssi_desc_sorted (l : list scan_entry) :
  StronglySorted stronger (sorted_rssi_desc l).
Proof.
  induction l as [|x xs IH]; cbn [sorted_rssi_desc].
  - constructor.
  - apply insert_desc_sorted, IH.
Qed.

(** Inserting [x] puts it in front of every entry of the same strength. *)
Lemma insert_desc_stable (k : Z) (x : scan_entry) (l : list scan_entry) :
  at_strength k (insert_desc x l) = at_strength k (x :: l).
Proof.
  unfold at_strength.
  induction l as [|y ys IH]; cbn [insert_desc]; [reflexivity|].
  destruct (se_rssi y <=? se_rssi x) eqn:E; [reflexivity|].
  apply Z.leb_gt in E.
  cbn [filter] in *. rewrite IH.
  destruct (se_rssi y =? k) eqn:Ey, (se_rssi x =? k) eqn:Ex; try reflexivity.
  apply Z.eqb_eq in Ey, Ex. lia.
Qed.

Lemma sorted_rssi_desc_stable (k : Z) (l : list scan_entry) :
  at_strength k (sorted_rssi_desc l) = at_strength k l.
Proof.
  induction l as [|x xs IH]; cbn [sorted_rssi_desc]; [reflexivity|].
  rewrite insert_desc_stable. unfold at_strength in *. cbn [filter].
  rewrite IH. reflexivity.
Qed.

Lemma append_networks_map (acc : list network) (l : list scan_entry) :
  append_networks acc l = (acc ++ map project l)%list.
Proof.
  unfold append_networks. revert acc.
  induction l as [|e es IH]; intros acc; cbn [fold_left map].
  - rewrite app_nil_r. reflexivity.
  - rewrite IH, <- app_assoc. reflexivity.
Qed.

(** *** scan *)

Lemma wlan_scan_bound (h : handle) c n (d : D) j :
  wlan_scan (mkStation (Some h) c n d j)
  = (Ret (fst (wl_scan d)),
     mkStation (Some h) c n (snd (wl_scan d)) (EvCall CScan :: j)).
Proof.
  unfold wlan_scan, driver_run, bind, get_wlan, log. cbn.
  destruct (wl_scan d); reflexivity.
Qed.

(** A scan that asks the radio. *)
Lemma scan_fresh (force : bool) h c n (d : D) j :
  force = true \/ n = [] ->
  scan force (mkStation (Some h) c n d j)
  = (Ret (map project (sorted_rssi_desc (fst (wl_scan d)))),
     mkStation (Some h) c (map project (sorted_rssi_desc (fst (wl_scan d))))
               (snd (wl_scan d)) (EvCall CScan :: j)).
Proof.
  intros Hwhy. unfold scan.
  erewrite bind_Ret by reflexivity. cbn [networks].
  assert (Bool.eqb force true || (List.length n =? 0)%nat = true) as ->.
  { destruct Hwhy as [-> | ->]; [reflexivity|]. apply orb_true_r. }
  cbn [when].
  erewrite bind_Ret.
  2:{ erewrite bind_Ret by reflexivity.
      erewrite bind_Ret by apply wlan_scan_bound.
      erewrite bind_Ret by reflexivity.
      rewrite append_networks_map. reflexivity. }
  reflexivity.
Qed.

(** A scan answered from [Station.networks]. *)
Lemma scan_cached w c n (d : D) j :
  n <> [] ->
  scan false (mkStation w c n d j) = (Ret n, mkStation w c n d j).
Proof.
  intros Hn. destruct n as [|x xs]; [congruence|]. reflexivity.
Qed.

(** C6.  With a handle, [scan(True)] asks the radio and puts in
    [Station.networks], and returns, the (ssid, channel, authmode) of the
    entries found, ranked: the ranking has the same entries as the answer of
    the radio, is in descending order of signal strength, and keeps entries
    of equal strength in the order the radio gave them.  What was in
    [Station.networks] before is dropped. *)
Theorem scan_force_ranks (st : Station D) :
  wlan st <> None ->
  exists ranked st',
    scan true st = (Ret (map project ranked), st')
    /\ networks st' = map project ranked
    /\ Permutation ranked (fst (wl_scan (radio st)))
    /\ StronglySorted stronger ranked
    /\ (forall k, at_strength k ranked = at_strength k (fst (wl_scan (radio st)))).
Proof.
  destruct st as [[h|] c n d j]; cbn [wlan radio]; [intros _|congruence].
  exists (sorted_rssi_desc (fst (wl_scan d))). eexists.
  split; [apply scan_fresh; left; reflexivity|].
  split; [reflexivity|].
  split; [apply sorted_rssi_desc_perm|].
  split; [apply sorted_rssi_desc_sorted|].
  intros k. apply sorted_rssi_desc_stable.
Qed.

(** C7.  When [Station.networks] is not empty, [scan(False)] returns it and
    changes nothing, the journal included: the radio is not asked.  Two
    calls in a row return the same list and ask the radio no scan at all. *)
Theorem scan_twice_cached (st : Station D) :
  networks st <> [] ->
  scan false st = (Ret (networks st), st)
  /\ (r1 <- scan false ;; r2 <- scan false ;; ret (r1, r2)) st
     = (Ret (networks st, networks st), st)
  /\ occurrences is_scan (journal (snd (scan false (snd (scan false st)))))
     = occurrences is_scan (journal st).
Proof.
  intros Hn. destruct st as [w c n d j]. cbn [networks] in *.
  pose proof (scan_cached w c n d j Hn) as Hscan.
  split; [exact Hscan|]. split.
  - erewrite bind_Ret by exact Hscan.
    erewrite bind_Ret by exact Hscan. reflexivity.
  - rewrite Hscan. cbn [snd]. rewrite Hscan. reflexivity.
Qed.

(** C10.  With a handle, [scan(False)] asks the radio for a scan exactly
    when [Station.networks] is empty.  That is also the state a scan leaves
    when the radio found no network: the next [scan(False)] asks the radio
    again. *)
Theorem scan_empty_cache_rescans (st : Station D) :
  wlan st <> None ->
  (networks st = [] ->
   occurrences is_scan (journal (snd (scan false st)))
   = S (occurrences is_scan (journal st)))
  /\ (networks st <> [] ->
      occurrences is_scan (journal (snd (scan false st)))
      = occurrences is_scan (journal st))
  /\ (fst (wl_scan (radio st)) = [] ->
      forall force, force = true \/ networks st = [] ->
      networks (snd (scan force st)) = []
      /\ wlan (snd (scan force st)) <> None
      /\ occurrences is_scan (journal (snd (scan false (snd (scan force st)))))
         = S (S (occurrences is_scan (journal st)))).
Proof.
  destruct st as [[h|] c n d j]; cbn [wlan radio networks journal];
    [intros _|congruence].
  split; [|split].
  - intros ->. rewrite scan_fresh by (right; reflexivity).
    cbn [snd journal]. rewrite occurrences_cons. reflexivity.
  - intros Hn. rewrite scan_cached by exact Hn. reflexivity.
  - intros Hnone force Hwhy.
    rewrite scan_fresh by exact Hwhy. rewrite Hnone.
    cbn [snd networks wlan sorted_rssi_desc map].
    split; [reflexivity|]. split; [discriminate|].
    rewrite scan_fresh by (right; reflexivity).
    cbn [snd journal]. rewrite !occurrences_cons. reflexivity.
Qed.

(** *** __repr__ *)

Lemma string_app_assoc (a b c : string) : ((a ++ b) ++ c = a ++ (b ++ c))%string.
Proof.
  induction a as [|x a IH]; cbn; [reflexivity|]. rewrite IH. reflexivity.
Qed.


(** *** Addresses *)

Lemma split_on_dotless (s : str) :
  dotless s = true -> split_on "." s = [s].
Proof.
  unfold dotless.
  induction s as [|c s IH]; cbn [list_ascii_of_string forallb split_on];
    [reflexivity|].
  intros Hc. apply andb_prop in Hc as [Hc Hs].
  apply negb_true_iff in Hc. rewrite Hc, (IH Hs). reflexivity.
Qed.

Lemma split_on_app (s t : str) :
  dotless s = true ->
  split_on "." (s ++ String "." t) = s :: split_on "." t.
Proof.
  unfold dotless.
  induction s as [|c s IH]; cbn [list_ascii_of_string forallb split_on String.append].
  - reflexivity.
  - intros Hc. apply andb_prop in Hc as [Hc Hs].
    apply negb_true_iff in Hc. rewrite Hc, (IH Hs). reflexivity.
Qed.

(** The decimal writing of an octet has no dot and [int] reads it back. *)
Lemma octet_text_reads :
  forallb (fun n => dotless (octet_text n)
                    && match py_int (octet_text n) with
                       | Ret z => z =? Z.of_nat n
                       | Raise _ => false
                       end)
          (seq 0 256) = true.
Proof. vm_compute. reflexivity. Qed.

Lemma octet_text_dotless (n : nat) :
  (n < 256)%nat -> dotless (octet_text n) = true.
Proof.
  intros Hn. pose proof octet_text_reads as Hall.
  rewrite forallb_forall in Hall.
  specialize (Hall n). rewrite in_seq in Hall.
  apply andb_prop in Hall as [Hd _]; [exact Hd | lia].
Qed.

Lemma py_int_octet_text (n : nat) :
  (n < 256)%nat -> py_int (octet_text n) = Ret (Z.of_nat n).
Proof.
  intros Hn. pose proof octet_text_reads as Hall.
  rewrite forallb_forall in Hall.
  specialize (Hall n). rewrite in_seq in Hall.
  apply andb_prop in Hall as [_ Hi]; [|lia].
  destruct (py_int (octet_text n)) as [z|e]; [|discriminate].
  apply Z.eqb_eq in Hi. rewrite Hi. reflexivity.
Qed.

(** [iptoint] reads a dotted quad as its 32-bit big-endian number. *)
Lemma iptoint_dotted (q : quad) :
  octets_ok q -> iptoint (dotted q) = Ret (be32 q).
Proof.
  destruct q as [[[a b] c] d]. cbn [octets_ok dotted be32].
  intros (Ha & Hb & Hc & Hd).
  unfold iptoint.
  change ("." ++ octet_text b ++ "." ++ octet_text c ++ "." ++ octet_text d)%string
    with (String "." (octet_text b ++ String "." (octet_text c
            ++ String "." (octet_text d)))).
  rewrite !split_on_app by (apply octet_text_dotless; assumption).
  rewrite split_on_dotless by (apply octet_text_dotless; assumption).
  cbn [List.length Nat.eqb negb item nth_error rbind].
  rewrite !py_int_octet_text by assumption.
  cbn [rbind]. f_equal.
  rewrite !Z.shiftl_mul_pow2 by lia. ring.
Qed.

Lemma getInfo_eq (st : Station D) :
  fst (getInfo st) = Ret (live_address st).
Proof.
  destruct st as [[h|] c n d j]; [|reflexivity].
  unfold getInfo, live_address. cbn [wlan radio].
  erewrite bind_Ret by apply wlan_isconnected_bound.
  destruct (fst (wl_isconnected d)); reflexivity.
Qed.

(** C8.  [isIpOnInterface] answers False when the station has no live
    address (no handle, or the radio does not report connected).  When it
    has one, and the candidate, the address and the netmask of the interface
    are dotted quads, it answers whether candidate and interface address
    agree under the netmask, all three read as 32-bit big-endian numbers. *)
Theorem isIpOnInterface_subnet (ipAddr : pytext) (st : Station D) :
  (live_address st = None -> fst (isIpOnInterface ipAddr st) = Ret false)
  /\ (forall (candidate address mask : quad) (i : ifcfg),
        octets_ok candidate -> octets_ok address -> octets_ok mask ->
        tostrings ipAddr = Ret (dotted candidate) ->
        live_address st = Some i ->
        if_ip i = dotted address -> if_netmask i = dotted mask ->
        fst (isIpOnInterface ipAddr st)
        = Ret (Z.land (be32 candidate) (be32 mask)
               =? Z.land (be32 address) (be32 mask))).
Proof.
  pose proof (getInfo_eq st) as Hinfo.
  unfold isIpOnInterface, bind.
  destruct (getInfo st) as [[info|e] st1]; cbn [fst] in Hinfo; [|discriminate].
  injection Hinfo as ->.
  split.
  - intros ->. reflexivity.
  - intros candidate address mask i Hc Ha Hm Htext -> Hip Hmask.
    unfold lift, issameinterface. cbn [fst].
    rewrite Htext. cbn [rbind].
    rewrite Hip, Hmask, !iptoint_dotted by assumption.
    cbn [rbind]. case_if; reflexivity.
Qed.

(** *** start *)

Lemma wlan_active_bound (h : handle) c n (d : D) j :
  wlan_active (mkStation (Some h) c n d j)
  = (Ret (wl_active d), mkStation (Some h) c n d (EvCall CActive :: j)).
Proof. reflexivity. Qed.


Section Start.

Variable jsonconfig_load : StationConfig -> bool * StationConfig.
Variable ismicropython : bool.
Variable format_exc : exn -> str.



End Start.

(** *** More on connect *)

(** The polling loop only polls, sleeps and prints: an event of another
    kind is as frequent in the journal after the loop as before. *)
Lemma poll_loop_journal (q : event -> bool) (count : nat) (st : Station D) :
  (forall e, is_polling e = true -> q e = false) ->
  wlan st <> None ->
  occurrences q (journal (snd (poll_loop count st))) = occurrences q (journal st).
Proof.
  intros Hq.
  funelim (poll_loop count st); intros Hb;
    destruct st as [[h|] c n d j]; try (exfalso; apply Hb; reflexivity);
    poll_facts; cbn [snd journal].
  - rewrite occurrences_cons, Hq by reflexivity. reflexivity.
  - case_if; rewrite !occurrences_cons, !Hq by reflexivity; reflexivity.
  - match goal with
    | IH : forall _ : event -> bool, _ |- _ =>
        rewrite (IH q Hq) by (cbn; discriminate)
    end.
    cbn [journal].
    case_if; rewrite !occurrences_cons, !Hq by reflexivity; reflexivity.
Qed.

(** The loop sleeps at most [121 - count] times, whatever the radio
    answers. *)
Lemma poll_loop_bounded (count : nat) (st : Station D) :
  wlan st <> None -> (count <= 120)%nat ->
  (occurrences is_sleep (journal (snd (poll_loop count st)))
   <= occurrences is_sleep (journal st) + (121 - count))%nat
  /\ slept (journal (snd (poll_loop count st)))
     <= slept (journal st) + 500 * Z.of_nat (121 - count).
Proof.
  funelim (poll_loop count st); intros Hb Hc;
    destruct st as [[h|] c n d j]; try (exfalso; apply Hb; reflexivity);
    poll_facts; cbn [snd journal].
  - rewrite occurrences_cons. cbn [is_sleep slept]. lia.
  - split; case_if; rewrite ?occurrences_cons; cbn [is_sleep slept]; lia.
  - assert (S count <= 120)%nat as Hc'.
    { match goal with
      | E : over_limit _ = false |- _ =>
          pose proof E as E'; unfold over_limit in E'; apply Nat.ltb_ge in E'; lia
      end. }
    match goal with
    | IH : _ -> _ -> _ /\ _ |- _ =>
        destruct IH as [Hsl Hti]; [cbn; discriminate | lia |]
    end.
    cbn [journal] in Hsl, Hti.
    split; [etransitivity; [exact Hsl|] | etransitivity; [exact Hti|]];
      case_if; rewrite ?occurrences_cons; cbn [is_sleep slept]; lia.
Qed.

(** [connect] on a station with a handle and a configuration, when the
    radio is not connected yet: the state in which the loop is entered, and
    what follows the loop. *)
Lemma connect_unfold (ssid_ password : option pytext) h c n (d : D) j :
  fst (wl_isconnected d) = false ->
  let c1 := with_credentials ssid_ password c in
  let s1 := mkStation (Some h) (Some c1) n
              (wl_connect (tobytes (ssid c1)) (tobytes (wifipassword c1))
                 (wl_set_active true (snd (wl_isconnected d))))
              (EvCall (CConnect (tobytes (ssid c1)) (tobytes (wifipassword c1)))
               :: EvCall (CSetActive true) :: EvCall CIsConnected :: j) in
  exists d2 j2,
    poll_loop 0 s1 = (Ret tt, mkStation (Some h) (Some c1) n d2 j2)
    /\ connect ssid_ password (mkStation (Some h) (Some c) n d j)
       = (Ret (fst (wl_isconnected d2)),
          mkStation (Some h) (Some c1) n
            (if fst (wl_isconnected d2) then snd (wl_isconnected d2)
             else wl_set_active false (snd (wl_isconnected d2)))
            (if fst (wl_isconnected d2) then EvCall CIsConnected :: j2
             else EvCall (CSetActive false) :: EvCall CIsConnected :: j2)).
Proof.
  intros Hfirst c1 s1.
  destruct (poll_loop_returns 0 s1) as ([w2 c2 n2 d2 j2] & Hloop & Hw & Hc & Hn & _);
    [discriminate|].
  cbn [wlan config networks] in Hw, Hc, Hn. subst w2 c2 n2.
  exists d2, j2. split; [exact Hloop|].
  unfold connect. rewrite store_credentials. fold c1.
  erewrite bind_Ret by apply wlan_isconnected_bound.
  rewrite Hfirst. cbn [negb].
  erewrite bind_Ret by apply wlan_set_active_bound.
  erewrite bind_Ret by apply get_config_some.
  erewrite bind_Ret by apply wlan_connect_bound.
  erewrite bind_Ret by exact Hloop.
  erewrite bind_Ret by apply wlan_isconnected_bound.
  destruct (fst (wl_isconnected d2)); cbn [Bool.eqb]; [reflexivity|].
  erewrite bind_Ret by apply wlan_set_active_bound. reflexivity.
Qed.

Lemma connect_when_connected (ssid_ password : option pytext) h c n (d : D) j :
  fst (wl_isconnected d) = true ->
  connect ssid_ password (mkStation (Some h) (Some c) n d j)
  = (Ret true,
     mkStation (Some h) (Some (with_credentials ssid_ password c)) n
       (snd (wl_isconnected d)) (EvCall CIsConnected :: j)).
Proof.
  intros Hfirst. unfold connect. rewrite store_credentials.
  erewrite bind_Ret by apply wlan_isconnected_bound.
  rewrite Hfirst. reflexivity.
Qed.

(** X1.  When the radio is connected already, [connect] returns True after that
    one question: the radio is neither switched on nor asked to connect, and
    nothing is slept.  A [ssid] or a [password] given with the call is stored
    in the configuration all the same. *)
Theorem connect_already_connected (ssid_ password : option pytext)
    (st : Station D) c :
  wlan st <> None -> config st = Some c ->
  fst (wl_isconnected (radio st)) = true ->
  connect ssid_ password st
  = (Ret true,
     mkStation (wlan st) (Some (with_credentials ssid_ password c)) (networks st)
       (snd (wl_isconnected (radio st))) (EvCall CIsConnected :: journal st)).
Proof.
  destruct st as [[h|] c0 n d j]; cbn [wlan config radio networks journal];
    [|congruence].
  intros _ -> Hfirst. apply connect_when_connected. exact Hfirst.
Qed.

(** X2.  What [connect] returns is the last answer it got from [isconnected], and
    it switches the radio off exactly when that answer is False: once, as its
    last request.  A radio that answers True after the loop gave up still
    makes the call succeed. *)
Theorem connect_reports_last_poll (ssid_ password : option pytext)
    (st : Station D) :
  wlan st <> None -> config st <> None ->
  exists (b : bool) d' j' st',
    connect ssid_ password st = (Ret b, st')
    /\ b = fst (wl_isconnected d')
    /\ journal st'
       = (if b then EvCall CIsConnected :: j'
          else EvCall (CSetActive false) :: EvCall CIsConnected :: j')
    /\ radio st'
       = (if b then snd (wl_isconnected d')
          else wl_set_active false (snd (wl_isconnected d')))
    /\ occurrences is_switch_off (journal st')
       = ((if b then 0 else 1) + occurrences is_switch_off (journal st))%nat.
Proof.
  destruct st as [[h|] [c|] n d j]; cbn [wlan config]; try congruence.
  intros _ _.
  destruct (fst (wl_isconnected d)) eqn:Hfirst.
  - exists true, d, j. eexists.
    split; [apply connect_when_connected; exact Hfirst|].
    rewrite Hfirst. cbn [journal radio].
    rewrite occurrences_cons. repeat split.
  - destruct (connect_unfold ssid_ password h c n d j Hfirst)
      as (d2 & j2 & Hloop & Hrun).
    exists (fst (wl_isconnected d2)), d2, j2. eexists.
    split; [exact Hrun|]. cbn [journal radio].
    split; [reflexivity|]. split; [reflexivity|]. split; [reflexivity|].
    match type of Hloop with
    | poll_loop 0 ?s1 = _ =>
        pose proof (poll_loop_journal is_switch_off 0 s1) as Hquiet
    end.
    rewrite Hloop in Hquiet. cbn [snd journal] in Hquiet.
    rewrite !occurrences_cons in Hquiet. cbn [is_switch_off] in Hquiet.
    assert (Hj2 : occurrences is_switch_off j2 = occurrences is_switch_off j).
    { apply Hquiet; [|discriminate].
      intros [[]| | | |]; cbn; congruence. }
    case_if; rewrite !occurrences_cons; cbn [is_switch_off]; lia.
Qed.

(** X3.  Whatever the radio answers, [connect] sleeps at most 121 times, that is
    60.5 seconds. *)
Theorem connect_blocks_at_most (ssid_ password : option pytext) (st : Station D) :
  wlan st <> None -> config st <> None ->
  (occurrences is_sleep (journal (snd (connect ssid_ password st)))
   <= occurrences is_sleep (journal st) + 121)%nat
  /\ slept (journal (snd (connect ssid_ password st))) <= slept (journal st) + 60500.
Proof.
  destruct st as [[h|] [c|] n d j]; cbn [wlan config]; try congruence.
  intros _ _.
  destruct (fst (wl_isconnected d)) eqn:Hfirst.
  - rewrite connect_when_connected by exact Hfirst.
    cbn [snd journal]. rewrite occurrences_cons. cbn [is_sleep slept]. lia.
  - destruct (connect_unfold ssid_ password h c n d j Hfirst)
      as (d2 & j2 & Hloop & Hrun).
    rewrite Hrun. cbn [snd journal].
    match type of Hloop with
    | poll_loop 0 ?s1 = _ =>
        destruct (poll_loop_bounded 0 s1) as [Hsl Hti]; [discriminate | lia |]
    end.
    rewrite Hloop in Hsl, Hti. cbn [snd journal] in Hsl, Hti.
    rewrite !occurrences_cons in Hsl. cbn [is_sleep slept] in Hsl, Hti.
    split; case_if; rewrite ?occurrences_cons; cbn [is_sleep slept]; lia.
Qed.

(** X4.  Without a handle [connect] raises AttributeError, but only after it
    stored the [ssid] and the [password] it was given. *)
Theorem connect_without_handle_keeps_credentials
    (ssid_ password : option pytext) c n (d : D) j :
  connect ssid_ password (mkStation None (Some c) n d j)
  = (Raise AttributeError,
     mkStation None (Some (with_credentials ssid_ password c)) n d j).
Proof.
  unfold connect. rewrite store_credentials. reflexivity.
Qed.

(** *** disconnect and stop *)

(** [disconnect], called with some argument, asks the radio whether it is
    connected; if so it asks it to disconnect and then switches it off, in
    this order, and otherwise asks nothing more.  Without a handle it raises
    AttributeError. *)
Lemma disconnect_sequence {A} (self : A) w c n (d : D) j :
  disconnect self (mkStation w c n d j)
  = match w with
    | None => (Raise AttributeError, mkStation None c n d j)
    | Some h =>
        if fst (wl_isconnected d)
        then (Ret tt,
              mkStation (Some h) c n
                (wl_set_active false (wl_disconnect (snd (wl_isconnected d))))
                (EvCall (CSetActive false) :: EvCall CDisconnect
                 :: EvCall CIsConnected :: j))
        else (Ret tt,
              mkStation (Some h) c n (snd (wl_isconnected d))
                (EvCall CIsConnected :: j))
    end.
Proof.
  destruct w as [h|]; [|reflexivity].
  unfold disconnect.
  erewrite bind_Ret by apply wlan_isconnected_bound.
  destruct (fst (wl_isconnected d)); reflexivity.
Qed.

(** X5.  [stop] never raises and never changes the handle, the configuration, the
    networks or the radio, active or not: it only prints "Wifi stopped",
    and that exactly when the station is not active. *)
Theorem stop_only_reports (st : Station D) :
  exists j',
    stop st = (Ret tt, mkStation (wlan st) (config st) (networks st) (radio st) j')
    /\ occurrences is_print j'
       = ((if is_active st then 0 else 1) + occurrences is_print (journal st))%nat
    /\ (is_active st = false -> hd_error j' = Some (EvPrint "Wifi stopped")).
Proof.
  destruct st as [[h|] c n d j]; unfold stop, is_active;
    cbn [wlan config networks radio journal].
  - erewrite bind_Ret by apply wlan_active_bound.
    destruct (wl_active d); eexists; (split; [reflexivity|]);
      rewrite !occurrences_cons; cbn [is_print]; split;
      first [reflexivity | discriminate].
  - eexists. split; [reflexivity|].
    rewrite occurrences_cons. split; reflexivity.
Qed.

(** *** More on configure *)

Lemma resolve_not_null (p : option pytext) (stored : bytes) (live : str) :
  resolve p stored live <> "0.0.0.0".
Proof.
  unfold resolve. cbv zeta.
  match goal with
  | |- context [if (?v =? "0.0.0.0")%string then _ else _] =>
      destruct (String.eqb_spec v "0.0.0.0") as [_|Hv]; [discriminate | exact Hv]
  end.
Qed.

(** A value that is neither empty nor the null address is what a call
    without parameter resolves it to. *)
Lemma resolve_settled (v : bytes) (live : str) :
  v <> "" -> v <> "0.0.0.0" -> resolve None v live = v.
Proof.
  intros He Hn. unfold resolve. cbv zeta.
  destruct (String.eqb_spec v "") as [|_]; [contradiction|].
  destruct (String.eqb_spec v "0.0.0.0") as [|_]; [contradiction|reflexivity].
Qed.

(** Resolving again, against the same interface, changes nothing unless the
    value was the null address before it reached the interface. *)
Lemma resolve_again (p : option pytext) (stored : bytes) (live : str) :
  given p stored <> "0.0.0.0" ->
  resolve None (resolve p stored live) live = resolve p stored live.
Proof.
  unfold resolve, given. cbv zeta. cbn [tobytes]. unfold encode.
  generalize (match p with Some x => tobytes x | None => stored end).
  intros v Hg.
  repeat match goal with
    | |- context [(?x =? ?y)%string] =>
        is_var x; destruct (String.eqb_spec x y);
        [subst x|]; try congruence; cbn
    end;
    reflexivity.
Qed.

Lemma complete_fields (c : StationConfig) :
  complete c = true ->
  ipaddress c <> "" /\ netmask c <> "" /\ gateway c <> "" /\ dns c <> "".
Proof.
  unfold complete. intros Hc.
  repeat (apply andb_prop in Hc as [Hc ?]).
  repeat split;
    match goal with
    | E : negb (?f c =? "")%string = true |- ?f c <> "" =>
        apply negb_true_iff in E; apply String.eqb_neq; exact E
    end.
Qed.

Section ConfigureMore.

Variable ismicropython : bool.
Variable format_exc : exn -> str.

(** X6.  [configure] never leaves "0.0.0.0" in an address field, and the
    addresses it hands to the radio are never empty nor "0.0.0.0". *)
Theorem configure_never_stores_null (pi pn pg pd : option pytext)
    (st : Station D) :
  wlan st <> None -> config st <> None ->
  exists st' c',
    configure ismicropython format_exc pi pn pg pd st = (Ret tt, st')
    /\ config st' = Some c'
    /\ ipaddress c' <> "0.0.0.0" /\ netmask c' <> "0.0.0.0"
    /\ gateway c' <> "0.0.0.0" /\ dns c' <> "0.0.0.0"
    /\ (forall i, ~ In (EvCall (CSetIfconfig i)) (journal st) ->
        In (EvCall (CSetIfconfig i)) (journal st') ->
        i = static_of c'
        /\ Forall (fun a => a <> "" /\ a <> "0.0.0.0")
             [if_ip i; if_netmask i; if_gateway i; if_dns i]).
Proof.
  destruct st as [[h|] [c|] n d j]; cbn [wlan config journal]; try congruence.
  intros _ _. rewrite configure_eq. do 2 eexists.
  split; [reflexivity|]. split; [reflexivity|].
  cbn [ipaddress netmask gateway dns resolved].
  repeat (split; [apply resolve_not_null|]).
  intros i Hold Hnew. cbn [journal] in Hnew.
  set (c' := resolved pi pn pg pd c (wl_ifconfig d)) in *.
  assert (Hasked : forall k, In (EvCall (CSetIfconfig i))
                      (asked pd (dns c) (asked pg (gateway c)
                         (asked pn (netmask c) (asked pi (ipaddress c) k)))) ->
                    In (EvCall (CSetIfconfig i)) k).
  { intros k. unfold asked. repeat case_if; cbn [In]; intuition discriminate. }
  destruct (complete c') eqn:Hc; [destruct (decodable c')|].
  - assert (Hi : i = static_of c').
    { unfold reported in Hnew.
      destruct (fst (wl_set_ifconfig (static_of c') d)); [|destruct ismicropython];
        cbn [In] in Hnew;
        repeat match goal with
          | E : _ \/ _ |- _ => destruct E as [E|E]
          | E : EvCall (CSetIfconfig _) = EvCall (CSetIfconfig _) |- _ =>
              injection E as E; symmetry; exact E
          | E : EvPrint _ = EvCall _ |- _ => discriminate E
          | E : In _ (asked _ _ _) |- _ => apply Hasked in E; contradiction
          end. }
    split; [exact Hi|]. subst i.
    destruct (complete_fields c' Hc) as (H1 & H2 & H3 & H4).
    unfold static_of. cbn [if_ip if_netmask if_gateway if_dns].
    repeat constructor; try assumption;
      subst c'; cbn [ipaddress netmask gateway dns resolved];
      apply resolve_not_null.
  - exfalso. unfold reported in Hnew.
    destruct ismicropython; cbn [In] in Hnew;
      repeat match goal with
        | E : _ \/ _ |- _ => destruct E as [E|E]
        | E : EvPrint _ = EvCall _ |- _ => discriminate E
        | E : In _ (asked _ _ _) |- _ => apply Hasked in E; contradiction
        end.
  - apply Hasked in Hnew. contradiction.
Qed.

(** X7.  A radio that refuses the addresses does not make [configure] fail: the
    call returns, the configuration is resolved as usual, and the last thing
    printed is "Cannot configure wifi station " followed by the text of the
    exception.  When one of the addresses cannot be decoded the radio is not
    even reached: it is left as it was, and the exception reported is the
    UnicodeError. *)
Theorem configure_survives_refusal (pi pn pg pd : option pytext)
    (st : Station D) c e :
  wlan st <> None -> config st = Some c ->
  let c' := resolved pi pn pg pd c (wl_ifconfig (radio st)) in
  complete c' = true ->
  fst (wl_set_ifconfig (static_of c') (radio st)) = Raise e ->
  exists st',
    configure ismicropython format_exc pi pn pg pd st = (Ret tt, st')
    /\ wlan st' = wlan st /\ config st' = Some c'
    /\ radio st'
       = (if decodable c' then snd (wl_set_ifconfig (static_of c') (radio st))
          else radio st)
    /\ hd_error (journal st')
       = Some (EvPrint ("Cannot configure wifi station "
                        ++ format_exc (if decodable c' then e else UnicodeError))).
Proof.
  destruct st as [[h|] c0 n d j]; cbv zeta; cbn [wlan config radio];
    [|congruence].
  intros _ -> Hc He. rewrite configure_eq, Hc, He. cbn [andb].
  eexists. split; [reflexivity|]. cbn [wlan config radio journal].
  destruct (decodable _); repeat split.
Qed.

(** X8.  Without a configuration [configure] raises AttributeError and changes
    nothing, whatever the parameters. *)
Theorem configure_without_config (pi pn pg pd : option pytext) w n (d : D) j :
  configure ismicropython format_exc pi pn pg pd (mkStation w None n d j)
  = (Raise AttributeError, mkStation w None n d j).
Proof.
  unfold configure. destruct pi; [reflexivity|].
  destruct pn; [reflexivity|]. destruct pg; [reflexivity|].
  destruct pd; reflexivity.
Qed.

(** X9.  A second [configure()] without parameters leaves the configuration as
    the first call made it, provided no field held "0.0.0.0" once the
    parameters of the first call were stored. *)
Theorem configure_again (pi pn pg pd : option pytext) (st : Station D) c :
  wlan st <> None -> config st = Some c ->
  given pi (ipaddress c) <> "0.0.0.0" -> given pn (netmask c) <> "0.0.0.0" ->
  given pg (gateway c) <> "0.0.0.0" -> given pd (dns c) <> "0.0.0.0" ->
  let st1 := snd (configure ismicropython format_exc pi pn pg pd st) in
  fst (configure ismicropython format_exc None None None None st1) = Ret tt
  /\ config (snd (configure ismicropython format_exc None None None None st1)) = config st1.
Proof.
  destruct st as [[h|] c0 n d j]; cbn [wlan config]; [|congruence].
  intros _ -> Hi Hn Hg Hd. cbv zeta.
  rewrite configure_eq. cbn [snd]. rewrite configure_eq. cbn [fst snd config].
  split; [reflexivity|]. f_equal.
  set (c' := resolved pi pn pg pd c (wl_ifconfig d)).
  destruct (complete c') eqn:Hc.
  - destruct (complete_fields c' Hc) as (H1 & H2 & H3 & H4).
    unfold resolved at 1.
    rewrite !resolve_settled
      by first [assumption | subst c'; cbn; apply resolve_not_null].
    reflexivity.
  - unfold resolved at 1. subst c'.
    cbn [ipaddress netmask gateway dns activated wifipassword ssid resolved].
    rewrite !resolve_again by assumption. reflexivity.
Qed.

(** One step of [configure] that needs no handle. *)
Ltac address_step :=
  erewrite bind_Ret
    by first [ apply from_parameter_eq with (get := ipaddress); intros []; reflexivity
             | apply from_parameter_eq with (get := netmask); intros []; reflexivity
             | apply from_parameter_eq with (get := gateway); intros []; reflexivity
             | apply from_parameter_eq with (get := dns); intros []; reflexivity
             | apply drop_null_eq; intros []; reflexivity ];
  cbn [set_ipaddress set_netmask set_gateway set_dns
       ipaddress netmask gateway dns activated wifipassword ssid].

Lemma from_interface_empty get set proj c n (d : D) j :
  (get c =? "")%string = true ->
  from_interface get set proj (mkStation None (Some c) n d j)
  = (Raise AttributeError, mkStation None (Some c) n d j).
Proof.
  intros He. unfold from_interface.
  erewrite bind_Ret by apply get_config_some.
  rewrite He. reflexivity.
Qed.

Lemma from_interface_set get set proj w c n (d : D) j :
  (get c =? "")%string = false ->
  from_interface get set proj (mkStation w (Some c) n d j)
  = (Ret tt, mkStation w (Some c) n d j).
Proof.
  intros He. unfold from_interface.
  erewrite bind_Ret by apply get_config_some.
  rewrite He. reflexivity.
Qed.

(** X10.  Without a handle, what [configure] does depends on the four fields once
    the parameters are stored.  If one of them is empty the interface would
    have to be asked: AttributeError is raised, and the parameters stay
    stored.  If none is empty the call returns: "0.0.0.0" is dropped as
    usual, and when the four fields are still non-empty the AttributeError
    of the missing handle is caught and reported: outside MicroPython the
    traceback is printed, and on every platform the message "Cannot
    configure wifi station " followed by the traceback is printed last. *)
Theorem configure_without_handle (pi pn pg pd : option pytext) c n (d : D) j :
  let c0 := stored_parameters pi pn pg pd c in
  let c' := mkStationConfig (activated c) (wifipassword c) (ssid c)
              (drop_null_address (ipaddress c0)) (drop_null_address (netmask c0))
              (drop_null_address (gateway c0)) (drop_null_address (dns c0)) in
  configure ismicropython format_exc pi pn pg pd (mkStation None (Some c) n d j)
  = if ((ipaddress c0 =? "") || (netmask c0 =? "")
        || (gateway c0 =? "") || (dns c0 =? ""))%string
    then (Raise AttributeError, mkStation None (Some c0) n d j)
    else (Ret tt,
          mkStation None (Some c') n d
            (if complete c'
             then reported ismicropython format_exc AttributeError j
             else j)).
Proof.
  destruct c as [a pw s i m g x]. cbv zeta.
  unfold stored_parameters, given.
  cbn [ipaddress netmask gateway dns activated wifipassword ssid].
  unfold configure. do 4 address_step.
  set (i0 := match pi with Some v => tobytes v | None => i end).
  set (m0 := match pn with Some v => tobytes v | None => m end).
  set (g0 := match pg with Some v => tobytes v | None => g end).
  set (x0 := match pd with Some v => tobytes v | None => x end).
  destruct (i0 =? "")%string eqn:Ei;
    [erewrite bind_Raise by (apply from_interface_empty; exact Ei); reflexivity|].
  erewrite bind_Ret by (apply from_interface_set; exact Ei).
  destruct (m0 =? "")%string eqn:Em;
    [erewrite bind_Raise by (apply from_interface_empty; exact Em); reflexivity|].
  erewrite bind_Ret by (apply from_interface_set; exact Em).
  destruct (g0 =? "")%string eqn:Eg;
    [erewrite bind_Raise by (apply from_interface_empty; exact Eg); reflexivity|].
  erewrite bind_Ret by (apply from_interface_set; exact Eg).
  destruct (x0 =? "")%string eqn:Ex;
    [erewrite bind_Raise by (apply from_interface_empty; exact Ex); reflexivity|].
  erewrite bind_Ret by (apply from_interface_set; exact Ex).
  cbn [orb]. do 4 address_step.
  fold (drop_null_address i0) (drop_null_address m0)
       (drop_null_address g0) (drop_null_address x0).
  unfold try_except. erewrite bind_Ret by apply get_config_some.
  match goal with
  | |- context [when ?b _] =>
      change b with
        (complete (mkStationConfig a pw s (drop_null_address i0)
                     (drop_null_address m0) (drop_null_address g0)
                     (drop_null_address x0)))
  end.
  destruct (complete _); cbn [when]; [|reflexivity].
  erewrite bind_Raise by reflexivity.
  apply handler_eq.
Qed.

End ConfigureMore.

(** *** More on scan *)

Lemma sorted_rssi_desc_nil (l : list scan_entry) :
  sorted_rssi_desc l = [] -> l = [].
Proof.
  intros Hs. pose proof (sorted_rssi_desc_perm l) as Hp.
  rewrite Hs in Hp. apply Permutation_nil in Hp. exact Hp.
Qed.

(** X11.  When the radio finds at least one network, the list a forced scan
    returns is the one the next [scan(False)] returns, and the radio was
    asked once for the two calls. *)
Theorem scan_then_cached (st : Station D) :
  wlan st <> None -> fst (wl_scan (radio st)) <> [] ->
  let st1 := snd (scan true st) in
  fst (scan true st) = Ret (networks st1)
  /\ networks st1 <> []
  /\ scan false st1 = (Ret (networks st1), st1)
  /\ occurrences is_scan (journal (snd (scan false st1)))
     = S (occurrences is_scan (journal st)).
Proof.
  destruct st as [[h|] c n d j]; cbn [wlan radio]; [intros _ Hfound|congruence].
  cbv zeta. rewrite scan_fresh by (left; reflexivity).
  cbn [fst snd networks].
  assert (Hn : map project (sorted_rssi_desc (fst (wl_scan d))) <> []).
  { intros Hm. apply map_eq_nil in Hm. apply sorted_rssi_desc_nil in Hm.
    contradiction. }
  split; [reflexivity|]. split; [exact Hn|].
  rewrite scan_cached by exact Hn.
  split; [reflexivity|]. cbn [snd journal].
  rewrite occurrences_cons. reflexivity.
Qed.

(** *** More on addresses *)

Lemma split_on_nonempty (sep : ascii) (s : str) : split_on sep s <> [].
Proof.
  destruct s as [|c s]; cbn [split_on]; [discriminate|].
  destruct (Ascii.eqb c sep); [discriminate|].
  destruct (split_on sep s); discriminate.
Qed.

Lemma iptoint_short (s : str) :
  (List.length (split_on "." s) < 4)%nat ->
  exists e, iptoint s = Raise e.
Proof.
  unfold iptoint. pose proof (split_on_nonempty "." s) as Hne.
  destruct (split_on "." s) as [|a [|b [|c [|d l]]]]; cbn [List.length];
    intros Hlen; try contradiction; try lia;
    cbn [Nat.eqb negb item nth_error rbind].
  - destruct (py_int a); cbn [rbind]; eexists; reflexivity.
  - destruct (py_int a); cbn [rbind]; [|eexists; reflexivity].
    destruct (py_int b); cbn [rbind]; eexists; reflexivity.
  - destruct (py_int a); cbn [rbind]; [|eexists; reflexivity].
    destruct (py_int b); cbn [rbind]; [|eexists; reflexivity].
    destruct (py_int c); cbn [rbind]; eexists; reflexivity.
Qed.

(** X12.  An address with fewer than three dots is never read: [iptoint] raises
    (ValueError at a part that is no number, IndexError at the missing
    part). *)
Theorem iptoint_needs_four_parts (s : str) :
  (List.length (split_on "." s) < 4)%nat ->
  exists e, iptoint s = Raise e.
Proof. exact (iptoint_short s). Qed.

(** The decimal writing of a number below 1000 has no dot and [int] reads
    it back. *)
Lemma number_text_reads :
  forallb (fun n => dotless (octet_text n)
                    && match py_int (octet_text n) with
                       | Ret z => z =? Z.of_nat n
                       | Raise _ => false
                       end)
          (seq 0 1000) = true.
Proof. vm_compute. reflexivity. Qed.

Lemma number_text_facts (n : nat) :
  (n < 1000)%nat ->
  dotless (octet_text n) = true /\ py_int (octet_text n) = Ret (Z.of_nat n).
Proof.
  intros Hn. pose proof number_text_reads as Hall.
  rewrite forallb_forall in Hall.
  specialize (Hall n). rewrite in_seq in Hall.
  apply andb_prop in Hall as [Hd Hi]; [|lia].
  split; [exact Hd|].
  destruct (py_int (octet_text n)) as [z|e]; [|discriminate].
  apply Z.eqb_eq in Hi. rewrite Hi. reflexivity.
Qed.

(** [iptoint] on four numbers below 1000 followed by anything: the parts
    after the fourth are not looked at. *)
Lemma iptoint_numbers (q : quad) (rest : list str) :
  numbers_ok q ->
  let '(a, b, c, d) := q in
  forall s,
    split_on "." s
    = (octet_text a :: octet_text b :: octet_text c :: octet_text d :: rest)%list ->
    iptoint s
    = Ret (Z.of_nat a * 2 ^ 24 + Z.of_nat b * 2 ^ 16 + Z.of_nat c * 2 ^ 8
           + Z.of_nat d).
Proof.
  destruct q as [[[a b] c] d]. cbn [numbers_ok].
  intros (Ha & Hb & Hc & Hd) s Hs.
  unfold iptoint. rewrite Hs.
  cbn [List.length Nat.eqb negb item nth_error rbind].
  rewrite (proj2 (number_text_facts a Ha)), (proj2 (number_text_facts b Hb)),
    (proj2 (number_text_facts c Hc)), (proj2 (number_text_facts d Hd)).
  cbn [rbind]. f_equal.
  rewrite !Z.shiftl_mul_pow2 by lia. reflexivity.
Qed.

Lemma split_on_dotted (q : quad) :
  numbers_ok q ->
  let '(a, b, c, d) := q in
  split_on "." (dotted q) = [octet_text a; octet_text b; octet_text c; octet_text d]
  /\ forall t,
       split_on "." (dotted q ++ String "." t)
       = (octet_text a :: octet_text b :: octet_text c :: octet_text d
          :: split_on "." t)%list.
Proof.
  destruct q as [[[a b] c] d]. cbn [numbers_ok dotted].
  intros (Ha & Hb & Hc & Hd).
  pose proof (proj1 (number_text_facts a Ha)) as Da.
  pose proof (proj1 (number_text_facts b Hb)) as Db.
  pose proof (proj1 (number_text_facts c Hc)) as Dc.
  pose proof (proj1 (number_text_facts d Hd)) as Dd.
  change ("." ++ octet_text b ++ "." ++ octet_text c ++ "." ++ octet_text d)%string
    with (String "." (octet_text b ++ String "." (octet_text c
            ++ String "." (octet_text d)))).
  split.
  - rewrite !split_on_app by assumption.
    rewrite split_on_dotless by assumption. reflexivity.
  - intros t. repeat (rewrite string_app_assoc; cbn [String.append]).
    rewrite !split_on_app by assumption. reflexivity.
Qed.

(** X13.  What comes after the fourth part of an address is not read: not even
    looked at for being a number. *)
Theorem iptoint_ignores_extra_parts (q : quad) (t : str) :
  octets_ok q ->
  iptoint (dotted q ++ "." ++ t) = Ret (be32 q).
Proof.
  intros Hq. rewrite <- (iptoint_dotted q Hq).
  destruct q as [[[a b] c] d]. cbn [octets_ok] in Hq.
  assert (Hn : numbers_ok (a, b, c, d)) by (cbn; lia).
  pose proof (split_on_dotted (a, b, c, d) Hn) as [Hfour Hmore].
  change ("." ++ t)%string with (String "." t).
  rewrite (iptoint_numbers (a, b, c, d) (split_on "." t) Hn _ (Hmore t)).
  rewrite (iptoint_numbers (a, b, c, d) [] Hn _ Hfour).
  reflexivity.
Qed.

(** X14.  [iptoint] does not check that a part is at most 255.  A part up to 999
    is read as it is and runs over into the next higher position: 256 more
    in the second part give the number of one more in the first. *)
Theorem iptoint_no_range_check (a b c d : nat) :
  numbers_ok (a, b + 256, c, d)%nat -> numbers_ok (S a, b, c, d) ->
  iptoint (dotted (a, b + 256, c, d)%nat)
  = Ret (Z.of_nat a * 2 ^ 24 + Z.of_nat (b + 256) * 2 ^ 16 + Z.of_nat c * 2 ^ 8
         + Z.of_nat d)
  /\ iptoint (dotted (a, b + 256, c, d)%nat) = iptoint (dotted (S a, b, c, d)).
Proof.
  intros H1 H2.
  pose proof (split_on_dotted _ H1) as [Hs1 _].
  pose proof (split_on_dotted _ H2) as [Hs2 _].
  rewrite (iptoint_numbers _ [] H1 _ Hs1), (iptoint_numbers _ [] H2 _ Hs2).
  split; [reflexivity|]. f_equal. lia.
Qed.

Lemma be32_range (q : quad) : octets_ok q -> 0 <= be32 q < 2 ^ 32.
Proof.
  destruct q as [[[a b] c] d]. cbn [octets_ok be32]. lia.
Qed.

Lemma be32_injective (q1 q2 : quad) :
  octets_ok q1 -> octets_ok q2 -> be32 q1 = be32 q2 -> q1 = q2.
Proof.
  destruct q1 as [[[a1 b1] c1] d1], q2 as [[[a2 b2] c2] d2].
  cbn [octets_ok be32]. intros H1 H2 He.
  assert (a1 = a2 /\ b1 = b2 /\ c1 = c2 /\ d1 = d2) as (-> & -> & -> & ->) by lia.
  reflexivity.
Qed.

(** X15.  On dotted quads [iptoint] is one-to-one and its values fit in 32
    bits. *)
Theorem iptoint_one_to_one (q1 q2 : quad) :
  octets_ok q1 -> octets_ok q2 ->
  (exists n, iptoint (dotted q1) = Ret n /\ 0 <= n < 2 ^ 32)
  /\ (iptoint (dotted q1) = iptoint (dotted q2) -> q1 = q2).
Proof.
  intros H1 H2. rewrite !iptoint_dotted by assumption. split.
  - exists (be32 q1). split; [reflexivity | apply be32_range; exact H1].
  - intros [= He]. apply be32_injective; assumption.
Qed.

Lemma issameinterface_dotted (a b m : quad) :
  octets_ok a -> octets_ok b -> octets_ok m ->
  issameinterface (dotted a) (dotted b) (dotted m)
  = Ret (Z.land (be32 a) (be32 m) =? Z.land (be32 b) (be32 m)).
Proof.
  intros Ha Hb Hm. unfold issameinterface.
  rewrite !iptoint_dotted by assumption. cbn [rbind].
  case_if; reflexivity.
Qed.

(** X16.  For a given netmask, being on the same interface is an equivalence
    between dotted quads: every address is with itself, the order of the two
    addresses does not matter, and two addresses that are each with a third
    are with each other. *)
Theorem issameinterface_equivalence (a b c m : quad) :
  octets_ok a -> octets_ok b -> octets_ok c -> octets_ok m ->
  issameinterface (dotted a) (dotted a) (dotted m) = Ret true
  /\ issameinterface (dotted a) (dotted b) (dotted m)
     = issameinterface (dotted b) (dotted a) (dotted m)
  /\ (issameinterface (dotted a) (dotted b) (dotted m) = Ret true ->
      issameinterface (dotted b) (dotted c) (dotted m) = Ret true ->
      issameinterface (dotted a) (dotted c) (dotted m) = Ret true).
Proof.
  intros Ha Hb Hc Hm. rewrite !issameinterface_dotted by assumption.
  split; [rewrite Z.eqb_refl; reflexivity|].
  split; [rewrite Z.eqb_sym; reflexivity|].
  intros [= Hab] [= Hbc]. apply Z.eqb_eq in Hab, Hbc.
  rewrite Hab, Hbc, Z.eqb_refl. reflexivity.
Qed.

(** X17.  The two extreme netmasks: under 0.0.0.0 every address is on the
    interface; under 255.255.255.255 only the address of the interface
    is. *)
Theorem issameinterface_extreme_masks (a b : quad) :
  octets_ok a -> octets_ok b ->
  issameinterface (dotted a) (dotted b) "0.0.0.0" = Ret true
  /\ (issameinterface (dotted a) (dotted b) "255.255.255.255" = Ret true
      <-> a = b).
Proof.
  intros Ha Hb.
  change "0.0.0.0" with (dotted (0, 0, 0, 0)%nat).
  change "255.255.255.255" with (dotted (255, 255, 255, 255)%nat).
  rewrite !issameinterface_dotted by (try assumption; cbn; lia).
  change (be32 (0, 0, 0, 0)%nat) with 0.
  change (be32 (255, 255, 255, 255)%nat) with (Z.ones 32).
  rewrite !Z.land_0_r, !Z.land_ones by lia.
  pose proof (be32_range a Ha). pose proof (be32_range b Hb).
  rewrite !Z.mod_small by assumption.
  split; [reflexivity|]. split.
  - intros [= He]. apply Z.eqb_eq in He. apply be32_injective; assumption.
  - intros ->. rewrite Z.eqb_refl. reflexivity.
Qed.

(** *** Texts as lists of characters *)

Lemma text_chars (s : str) : text (chars s) = s.
Proof. apply string_of_list_ascii_of_string. Qed.

Lemma chars_text (l : list ascii) : chars (text l) = l.
Proof. apply list_ascii_of_string_of_list_ascii. Qed.

Lemma text_app (l1 l2 : list ascii) : text (l1 ++ l2) = (text l1 ++ text l2)%string.
Proof.
  induction l1 as [|x l1 IH]; cbn; [reflexivity|]. unfold text in IH.
  rewrite IH. reflexivity.
Qed.

Lemma chars_app (s1 s2 : str) : chars (s1 ++ s2) = (chars s1 ++ chars s2)%list.
Proof.
  induction s1 as [|x s1 IH]; cbn; [reflexivity|]. unfold chars in IH.
  rewrite IH. reflexivity.
Qed.

Lemma chars_length (s : str) : List.length (chars s) = String.length s.
Proof. induction s as [|x s IH]; cbn; [reflexivity|]. unfold chars in IH. lia. Qed.

Lemma text_inj (l1 l2 : list ascii) : text l1 = text l2 -> l1 = l2.
Proof. intros He. rewrite <- (chars_text l1), <- (chars_text l2), He. reflexivity. Qed.

(** *** rfind and rstrip *)

(** Either there is no [c] and the answer so far stands, or the list is cut
    at its last [c] and the answer is the index of that one. *)
Lemma rfind_from_spec (c : ascii) (l : list ascii) (pos found : Z) :
  (~ In c l /\ rfind_from c l pos found = found)
  \/ (exists l1 l2,
        l = (l1 ++ c :: l2)%list /\ ~ In c l2
        /\ rfind_from c l pos found = pos + Z.of_nat (List.length l1)).
Proof.
  revert pos found. induction l as [|x r IH]; intros pos found; cbn [rfind_from].
  - left. split; [intros []|reflexivity].
  - destruct (IH (pos + 1) (if Ascii.eqb x c then pos else found))
      as [[Hno Hr] | (l1 & l2 & Hl & Hno & Hr)].
    + destruct (Ascii.eqb_spec x c) as [->|Hx].
      * right. exists [], r. cbn [List.length app]. repeat split; [exact Hno | lia].
      * left. split; [|exact Hr]. intros [Hin|Hin]; [congruence | contradiction].
    + right. exists (x :: l1), l2. subst r. cbn [List.length app].
      repeat split; [exact Hno | lia].
Qed.

Lemma rfind_spec (c : ascii) (s : str) :
  (~ In c (chars s) /\ rfind c s = -1)
  \/ (exists l1 l2,
        chars s = (l1 ++ c :: l2)%list /\ ~ In c l2
        /\ rfind c s = Z.of_nat (List.length l1)).
Proof.
  unfold rfind.
  destruct (rfind_from_spec c (chars s) 0 (-1)) as [H1 | (l1 & l2 & H1 & H2 & H3)].
  - left. exact H1.
  - right. exists l1, l2. repeat split; [exact H1 | exact H2 | lia].
Qed.

(** Stripping on the right takes away a run of [c] and leaves a list that
    does not end with [c]. *)
Lemma drop_while_rev_spec (c : ascii) (r : list ascii) :
  exists k,
    rev r = (rev (drop_while (Ascii.eqb c) r) ++ repeat c k)%list
    /\ forall l', rev (drop_while (Ascii.eqb c) r) <> (l' ++ [c])%list.
Proof.
  induction r as [|x r IH]; cbn [drop_while].
  - exists 0%nat. split; [reflexivity|]. intros [|]; discriminate.
  - destruct (Ascii.eqb_spec c x) as [<-|Hx].
    + destruct IH as (k & Hk & Hend). exists (S k). split; [|exact Hend].
      cbn [rev]. rewrite Hk, <- app_assoc. f_equal.
      change [c] with (repeat c 1). rewrite <- repeat_app.
      f_equal. lia.
    + exists 0%nat. cbn [repeat]. rewrite app_nil_r. split; [reflexivity|].
      intros l' He. cbn [rev] in He. apply app_inj_tail in He as [_ He].
      congruence.
Qed.

Lemma rstrip_list_spec (c : ascii) (l : list ascii) :
  exists k,
    l = (rev (drop_while (Ascii.eqb c) (rev l)) ++ repeat c k)%list
    /\ forall l', rev (drop_while (Ascii.eqb c) (rev l)) <> (l' ++ [c])%list.
Proof.
  destruct (drop_while_rev_spec c (rev l)) as (k & Hk & Hend).
  exists k. rewrite rev_involutive in Hk. split; assumption.
Qed.

Lemma cut_after (A : Type) (l1 l2 : list A) (c : A) :
  firstn (S (List.length l1)) (l1 ++ c :: l2) = (l1 ++ [c])%list
  /\ skipn (S (List.length l1)) (l1 ++ c :: l2) = l2.
Proof.
  induction l1 as [|x l1 [IH1 IH2]]; [split; reflexivity|].
  cbn [List.length app]. rewrite firstn_cons, skipn_cons, IH1, IH2.
  split; reflexivity.
Qed.

Lemma cut_before (A : Type) (l1 l2 : list A) :
  firstn (List.length l1) (l1 ++ l2) = l1 /\ skipn (List.length l1) (l1 ++ l2) = l2.
Proof.
  induction l1 as [|x l1 [IH1 IH2]]; [split; reflexivity|].
  cbn [List.length app]. rewrite firstn_cons, skipn_cons, IH1, IH2.
  split; reflexivity.
Qed.

(** *** split *)

Lemma split_decomposition (p : str) :
  exists k,
    p = (fst (split p) ++ times "/" k ++ snd (split p))%string
    /\ without "/" (snd (split p))
    /\ (fst (split p) = times "/" (String.length (fst (split p)))
        \/ forall h, fst (split p) <> (h ++ "/")%string)
    /\ (without "/" p -> split p = ("", p)).
Proof.
  unfold split, without. cbv zeta.
  destruct (rfind_spec "/" p) as [[Hno Hr] | (l1 & l2 & Hp & Hno & Hr)]; rewrite Hr.
  - assert (Hup : upto p (-1 + 1) = "") by reflexivity.
    assert (Hfrom : from p (-1 + 1) = p).
    { unfold from. cbn [Z.add bound Z.ltb Z.compare Z.to_nat Nat.min skipn].
      apply text_chars. }
    rewrite Hup, Hfrom. cbn [String.eqb negb andb fst snd].
    exists 0%nat. repeat split; [exact Hno | left; reflexivity].
  - assert (Hb : bound (List.length (chars p)) (Z.of_nat (List.length l1) + 1)
                 = S (List.length l1)).
    { unfold bound. destruct (Z.ltb_spec (Z.of_nat (List.length l1) + 1) 0); [lia|].
      rewrite Hp, length_app. cbn [List.length]. lia. }
    assert (Hup : upto p (Z.of_nat (List.length l1) + 1) = text (l1 ++ ["/"%char])).
    { unfold upto. rewrite Hb, Hp, (proj1 (cut_after _ l1 l2 _)). reflexivity. }
    assert (Hfrom : from p (Z.of_nat (List.length l1) + 1) = text l2).
    { unfold from. rewrite Hb, Hp, (proj2 (cut_after _ l1 l2 _)). reflexivity. }
    rewrite Hup, Hfrom. clear Hup Hfrom Hb.
    assert (Hwhole : p = (text (l1 ++ ["/"%char]) ++ text l2)%string).
    { rewrite <- text_app, <- app_assoc. cbn [app].
      rewrite <- Hp. symmetry. apply text_chars. }
    assert (Hne : (text (l1 ++ ["/"%char]) =? "")%string = false).
    { apply String.eqb_neq. intros He.
      apply (f_equal chars) in He. rewrite chars_text in He.
      destruct l1; discriminate. }
    rewrite Hne. cbn [negb andb fst snd].
    assert (Hlast : without "/" p -> False).
    { unfold without. intros Hw. apply Hw. rewrite Hp.
      apply in_or_app. right. left. reflexivity. }
    destruct (String.eqb_spec (text (l1 ++ ["/"%char]))
                (times "/" (List.length (chars (text (l1 ++ ["/"%char]))))))
      as [Hall|Hnot]; cbn [negb fst snd].
    + exists 0%nat. split; [exact Hwhole|]. rewrite chars_text.
      split; [exact Hno|]. split; [|intros Hw; destruct (Hlast Hw)].
      left. rewrite <- chars_length. exact Hall.
    + unfold rstrip. rewrite chars_text.
      destruct (rstrip_list_spec "/" (l1 ++ ["/"%char])) as (k & Hk & Hend).
      exists k. split; [|split; [rewrite chars_text; exact Hno|split]].
      * rewrite Hwhole at 1. rewrite Hk at 1.
        rewrite text_app, string_app_assoc. reflexivity.
      * right. intros h He. apply (Hend (chars h)).
        apply text_inj. rewrite He, text_app, text_chars. reflexivity.
      * intros Hw. destruct (Hlast Hw).
Qed.

(** X18.  [split(p)] cuts [p] after its last "/": the tail has no "/", and [p] is
    the head, then a run of "/" (those stripped from the head), then the
    tail.  The head is made of "/" only (or empty), or else does not end with
    "/".  A path without "/" is all tail. *)
Theorem split_parts (p : str) :
  exists k,
    p = (fst (split p) ++ times "/" k ++ snd (split p))%string
    /\ without "/" (snd (split p))
    /\ (fst (split p) = times "/" (String.length (fst (split p)))
        \/ forall h, fst (split p) <> (h ++ "/")%string)
    /\ (without "/" p -> split p = ("", p)).
Proof. exact (split_decomposition p). Qed.

(** *** splitext *)

Lemma upto_from (p : str) (i : Z) : (upto p i ++ from p i)%string = p.
Proof.
  unfold upto, from. rewrite <- text_app, firstn_skipn. apply text_chars.
Qed.

(** When the loop returns, it returns the cut at [dotIndex]. *)
Lemma splitext_loop_cut (p : str) (filenameIndex dotIndex : Z) (r : str * str) :
  splitext_loop p filenameIndex dotIndex = Some r ->
  r = (upto p dotIndex, from p dotIndex).
Proof.
  funelim (splitext_loop p filenameIndex dotIndex); [|discriminate].
  destruct (negb _).
  - intros [= <-]. reflexivity.
  - match goal with IH : forall r, _ -> r = _ |- _ => apply IH end.
Qed.

(** Two cuts of the same list: what follows the later cut point is part of
    what follows the earlier one. *)
Lemma later_cut (A : Type) (m1 m2 l1 l2 : list A) (a b : A) :
  (m1 ++ a :: m2 = l1 ++ b :: l2)%list ->
  (List.length m1 < List.length l1)%nat ->
  exists x, m2 = (x ++ b :: l2)%list.
Proof.
  revert l1. induction m1 as [|y m1 IH]; intros [|z l1] He Hlen;
    cbn [List.length] in Hlen; try lia.
  - cbn [app] in He. injection He as _ He. exists l1. exact He.
  - cbn [app] in He. injection He as _ He.
    apply (IH l1 He). lia.
Qed.

(** A character whose last place is before a cut does not occur after the
    cut. *)
Lemma rfind_before (c b : ascii) (p : str) (l1 l2 : list ascii) :
  chars p = (l1 ++ b :: l2)%list ->
  rfind c p < Z.of_nat (List.length l1) ->
  ~ In c l2.
Proof.
  intros Hp Hlt.
  destruct (rfind_spec c p) as [[Hno _] | (m1 & m2 & Hm & Hno & Hr)].
  - intros Hin. apply Hno. rewrite Hp. apply in_or_app. right. right. exact Hin.
  - rewrite Hm in Hp.
    destruct (later_cut _ m1 m2 l1 l2 c b Hp) as (x & Hx); [lia|].
    intros Hin. apply Hno. rewrite Hx. apply in_or_app. right. right. exact Hin.
Qed.

(** X21.  [splitext(p)] cuts [p] in two: root and extension give [p] back.  The
    extension is empty, or a dot followed by a text with no dot, no "/" and
    no backslash.  A path without dot has no extension. *)
Theorem splitext_parts (p : str) :
  (fst (splitext p) ++ snd (splitext p))%string = p
  /\ (snd (splitext p) = ""
      \/ exists e,
           snd (splitext p) = String "." e
           /\ without "." e /\ without "/" e /\ without "\" e)
  /\ (without "." p -> splitext p = (p, "")).
Proof.
  unfold splitext. cbv zeta.
  set (sepIndex := Z.max (rfind "\" p) (rfind "/" p)).
  assert (Hnone : (p ++ upto p 0)%string = p
                  /\ (upto p 0 = ""
                      \/ exists e, upto p 0 = String "." e /\ without "." e
                                   /\ without "/" e /\ without "\" e)).
  { change (upto p 0) with "". split; [|left; reflexivity].
    rewrite <- (text_chars p) at 2. rewrite <- (app_nil_r (chars p)), text_app.
    rewrite text_chars. reflexivity. }
  destruct (rfind_spec "." p) as [[Hno Hr] | (l1 & l2 & Hp & Hno & Hr)]; rewrite Hr.
  - assert ((sepIndex <? -1) = false) as ->.
    { apply Z.ltb_ge. subst sepIndex.
      destruct (rfind_spec "\" p) as [[_ ->]|(? & ? & _ & _ & ->)]; lia. }
    cbn [fst snd]. destruct Hnone as [H1 H2].
    split; [exact H1|]. split; [exact H2|]. reflexivity.
  - assert (Hdot : without "." p -> False).
    { unfold without. intros Hw. apply Hw. rewrite Hp.
      apply in_or_app. right. left. reflexivity. }
    destruct (sepIndex <? Z.of_nat (List.length l1)) eqn:Hsep.
    2:{ cbn [fst snd]. destruct Hnone as [H1 H2].
        split; [exact H1|]. split; [exact H2|]. intros Hw. destruct (Hdot Hw). }
    destruct (splitext_loop p (sepIndex + 1) (Z.of_nat (List.length l1)))
      as [r|] eqn:Hloop.
    2:{ cbn [fst snd]. destruct Hnone as [H1 H2].
        split; [exact H1|]. split; [exact H2|]. intros Hw. destruct (Hdot Hw). }
    apply splitext_loop_cut in Hloop. subst r. cbn [fst snd].
    split; [apply upto_from|]. split; [|intros Hw; destruct (Hdot Hw)].
    right. exists (text l2).
    assert (Hb : bound (List.length (chars p)) (Z.of_nat (List.length l1))
                 = List.length l1).
    { unfold bound. destruct (Z.ltb_spec (Z.of_nat (List.length l1)) 0); [lia|].
      rewrite Hp, length_app. cbn [List.length]. lia. }
    apply Z.ltb_lt in Hsep. subst sepIndex.
    unfold from, without. rewrite Hb, Hp, (proj2 (cut_before _ l1 _)), chars_text.
    split; [reflexivity|]. split; [exact Hno|].
    split; eapply rfind_before; try exact Hp; lia.
Qed.

(** *** abspath *)

Lemma split_on_without (sep : ascii) (s : str) :
  without sep s -> split_on sep s = [s].
Proof.
  unfold without. induction s as [|c s IH]; cbn [chars list_ascii_of_string split_on];
    [reflexivity|].
  intros Hno. destruct (Ascii.eqb_spec c sep) as [->|_].
  - exfalso. apply Hno. left. reflexivity.
  - rewrite IH; [reflexivity|]. intros Hin. apply Hno. right. exact Hin.
Qed.

Lemma split_on_cut (sep : ascii) (s t : str) :
  without sep s ->
  split_on sep (s ++ String sep t) = s :: split_on sep t.
Proof.
  unfold without.
  induction s as [|c s IH];
    cbn [chars list_ascii_of_string split_on String.append].
  - intros _. rewrite Ascii.eqb_refl. reflexivity.
  - intros Hno. destruct (Ascii.eqb_spec c sep) as [->|_].
    + exfalso. apply Hno. left. reflexivity.
    + rewrite IH; [reflexivity|]. intros Hin. apply Hno. right. exact Hin.
Qed.

(** The parts [split] gives have no separator in them. *)
Lemma split_on_parts (sep : ascii) (s : str) :
  Forall (without sep) (split_on sep s).
Proof.
  unfold without. induction s as [|c s IH]; cbn [split_on].
  - constructor; [intros []|constructor].
  - destruct (Ascii.eqb_spec c sep) as [->|Hc].
    + constructor; [intros []|exact IH].
    + destruct (split_on sep s) as [|h t].
      * constructor; [|constructor]. intros [Hin|[]]. congruence.
      * inversion IH as [|? ? Hh Ht]; subst. constructor; [|exact Ht].
        intros [Hin|Hin]; [congruence | contradiction].
Qed.

(** Joining with "/" and splitting at "/" gives the parts back. *)
Lemma split_on_concat (l : list str) :
  l <> [] -> Forall (without "/") l ->
  split_on "/" (String.concat "/" l) = l.
Proof.
  induction l as [|x [|y r] IH]; intros Hne Hall; [congruence | |].
  - cbn [String.concat]. apply split_on_without.
    inversion Hall; assumption.
  - inversion Hall as [|? ? Hx Hr]; subst.
    change (String.concat "/" (x :: y :: r))
      with (x ++ String "/" (String.concat "/" (y :: r)))%string.
    rewrite split_on_cut by exact Hx.
    rewrite IH; [reflexivity | discriminate | exact Hr].
Qed.

Lemma concat_snoc (sep : str) (l : list str) (t : str) :
  l <> [] ->
  String.concat sep (l ++ [t]) = (String.concat sep l ++ sep ++ t)%string.
Proof.
  induction l as [|x [|y r] IH]; intros Hne; [congruence|reflexivity|].
  change (String.concat sep ((x :: y :: r) ++ [t]))
    with (x ++ sep ++ String.concat sep ((y :: r) ++ [t]))%string.
  rewrite IH by discriminate.
  change (String.concat sep (x :: y :: r))
    with (x ++ sep ++ String.concat sep (y :: r))%string.
  rewrite !string_app_assoc. reflexivity.
Qed.

Lemma path_of_deep (c : str) (r : list str) :
  c <> "" -> path_of (c :: r) <> "/".
Proof.
  intros Hc. unfold path_of. cbn [String.append].
  destruct r as [|y r]; cbn [String.concat]; intros [= He].
  - congruence.
  - destruct c; [congruence | discriminate].
Qed.

(** One token: the text that [abspath] keeps is the path of the components
    walked. *)
Lemma abspath_token_walks (stack : list str) (token : str) :
  Forall component stack -> without "/" token ->
  abspath_token (path_of stack) token = path_of (walk_token stack token)
  /\ Forall component (walk_token stack token).
Proof.
  intros Hstack Htoken. unfold abspath_token, walk_token.
  destruct (String.eqb_spec token "..") as [->|Hup].
  - destruct stack as [|c r]; [split; [reflexivity|constructor]|].
    assert (Hc : c <> "") by (inversion Hstack as [|? ? [Hc _] _]; exact Hc).
    rewrite (proj2 (String.eqb_neq _ _) (path_of_deep c r Hc)). cbn [negb].
    assert (Hparts : split_on "/" (path_of (c :: r)) = "" :: c :: r).
    { unfold path_of. cbn [String.append split_on].
      change (Ascii.eqb "/" "/") with true. cbn iota.
      rewrite split_on_concat; [reflexivity | discriminate |].
      eapply Forall_impl; [|exact Hstack]. intros ? [_ Hw]. exact Hw. }
    rewrite Hparts.
    assert (Hkeep : Forall component (removelast (c :: r))).
    { apply Forall_forall. intros x Hx.
      rewrite Forall_forall in Hstack. apply Hstack.
      rewrite (app_removelast_last "" (l := c :: r)) by discriminate.
      apply in_or_app. left. exact Hx. }
    split; [|exact Hkeep].
    change (removelast ("" :: c :: r)) with ("" :: removelast (c :: r)).
    destruct (removelast (c :: r)) as [|y t] eqn:Hrem; [reflexivity|].
    change (String.concat "/" ("" :: y :: t))
      with (String "/" (String.concat "/" (y :: t))).
    reflexivity.
  - destruct (String.eqb_spec token ".") as [->|Hdot]; cbn [negb andb];
      [split; [reflexivity|exact Hstack]|].
    destruct (String.eqb_spec token "") as [->|Hempty]; cbn [negb];
      [split; [reflexivity|exact Hstack]|].
    split.
    + destruct stack as [|c r]; [reflexivity|].
      assert (Hc : c <> "") by (inversion Hstack as [|? ? [Hc _] _]; exact Hc).
      rewrite (proj2 (String.eqb_neq _ _) (path_of_deep c r Hc)).
      unfold path_of at 1.
      change ((c :: r) ++ [token])%list with (c :: (r ++ [token]))%list.
      unfold path_of.
      change (c :: (r ++ [token]))%list with ((c :: r) ++ [token])%list.
      rewrite concat_snoc by discriminate.
      rewrite !string_app_assoc. reflexivity.
    + apply Forall_app. split; [exact Hstack|].
      constructor; [split; assumption|constructor].
Qed.

Lemma abspath_tokens_walk (tokens : list str) (stack : list str) :
  Forall component stack -> Forall (without "/") tokens ->
  fold_left abspath_token tokens (path_of stack)
  = path_of (fold_left walk_token tokens stack)
  /\ Forall component (fold_left walk_token tokens stack).
Proof.
  revert stack. induction tokens as [|t ts IH]; intros stack Hs Ht; cbn [fold_left].
  - split; [reflexivity|exact Hs].
  - inversion Ht as [|? ? Ht1 Ht2]; subst.
    destruct (abspath_token_walks stack t Hs Ht1) as [Heq Hs'].
    rewrite Heq. apply IH; assumption.
Qed.

Lemma abspath_fold (stack : list str) (payload : str) :
  Forall component stack ->
  abspath (path_of stack) payload
  = path_of (fold_left walk_token (split_on "/" payload)
               (if String.prefix "/" payload then [] else stack)).
Proof.
  intros Hs. unfold abspath.
  destruct (String.prefix "/" payload).
  - apply (abspath_tokens_walk (split_on "/" payload) []);
      [constructor | apply split_on_parts].
  - apply abspath_tokens_walk; [exact Hs | apply split_on_parts].
Qed.

(** X22.  [abspath] on a current directory made of components below the root: the
    tokens of the payload are walked one by one, ".." leaves the last
    component (and stays at the root), "." and empty tokens do nothing, any
    other token is entered; a payload that begins with "/" starts from the
    root.  The result is the path of the components reached. *)
Theorem abspath_walks (stack : list str) (payload : str) :
  Forall component stack ->
  abspath (path_of stack) payload
  = path_of (fold_left walk_token (split_on "/" payload)
               (if String.prefix "/" payload then [] else stack)).
Proof. exact (abspath_fold stack payload). Qed.

Lemma walk_token_names (stack : list str) (token : str) :
  Forall name stack -> without "/" token -> Forall name (walk_token stack token).
Proof.
  intros Hs Ht. unfold walk_token.
  destruct (String.eqb_spec token "..") as [->|Hup].
  - destruct stack as [|c r]; [constructor|].
    apply Forall_forall. intros x Hx.
    rewrite Forall_forall in Hs. apply Hs.
    rewrite (app_removelast_last "" (l := c :: r)) by discriminate.
    apply in_or_app. left. exact Hx.
  - destruct (String.eqb_spec token ".") as [->|Hdot]; cbn [negb andb];
      [exact Hs|].
    destruct (String.eqb_spec token "") as [->|Hempty]; cbn [negb]; [exact Hs|].
    apply Forall_app. split; [exact Hs|].
    constructor; [|constructor]. repeat split; assumption.
Qed.

(** X23.  From a current directory whose components are names, [abspath] gives a
    path of names below the root, whatever the payload: no ".", no "..", no
    empty component is left, and the payload cannot lead above the root. *)
Theorem abspath_normal (stack : list str) (payload : str) :
  Forall name stack ->
  exists stack',
    abspath (path_of stack) payload = path_of stack' /\ Forall name stack'.
Proof.
  intros Hs.
  exists (fold_left walk_token (split_on "/" payload)
            (if String.prefix "/" payload then [] else stack)).
  split.
  - apply abspath_fold. eapply Forall_impl; [|exact Hs]. intros ? [Hc _]. exact Hc.
  - assert (Hstart : Forall name (if String.prefix "/" payload then [] else stack))
      by (destruct (String.prefix "/" payload); [constructor | exact Hs]).
    revert Hstart. generalize (if String.prefix "/" payload then [] else stack).
    pose proof (split_on_parts "/" payload) as Ht. revert Ht.
    generalize (split_on "/" payload) as tokens.
    induction tokens as [|t ts IH]; intros Ht st Hst; cbn [fold_left];
      [exact Hst|].
    inversion Ht as [|? ? Ht1 Ht2]; subst.
    apply IH; [exact Ht2|]. apply walk_token_names; assumption.
Qed.

(** *** File information *)

(** The directory bit of a mode is set or not. *)
Lemma mode_bit (m : Z) : Z.land m 16384 = 0 \/ Z.land m 16384 = 16384.
Proof.
  change 16384 with (2 ^ 14).
  destruct (Z.testbit m 14) eqn:Hbit; [right|left];
    apply Z.bits_inj'; intros n Hn;
    rewrite Z.land_spec, ?Z.bits_0, (Z.pow2_bits_eqb 14 n) by lia;
    destruct (Z.eqb_spec 14 n) as [<-|_];
    rewrite ?Hbit, ?andb_false_r; reflexivity.
Qed.

Lemma fileinfo_eq (os_stat : str -> result stat_result) (path : str) (fs : Files) :
  fileinfo os_stat path fs
  = match cached fs path with
    | Some s => (Ret s, fs)
    | None =>
        match os_stat path with
        | Ret s => (Ret s, mkFiles (Some (path, s)) (path :: stat_calls fs))
        | Raise e => (Raise e, mkFiles (previousFileInfo fs) (path :: stat_calls fs))
        end
    end.
Proof.
  destruct fs as [[[known s0]|] calls]; unfold fileinfo, cached, bind, remember;
    cbn [previousFileInfo stat_calls].
  - destruct (known =? path)%string; cbn [negb]; [reflexivity|].
    destruct (os_stat path); reflexivity.
  - destruct (os_stat path); reflexivity.
Qed.

Lemma cached_remember (path : str) (s : stat_result) (calls : list str) :
  cached (mkFiles (Some (path, s)) calls) path = Some s.
Proof. unfold cached. cbn [previousFileInfo]. rewrite String.eqb_refl. reflexivity. Qed.

(** [isdir] and [isfile], with the value tested against the directory
    bit. *)
Lemma mode_test_eq (os_stat : str -> result stat_result) (v : Z)
    (path : str) (fs : Files) :
  try_except
    (s <- fileinfo os_stat path ;;
     if Z.land (st_mode s) 16384 =? v then ret true else ret false)
    (fun _ => ret false) fs
  = match cached fs path with
    | Some s => (Ret (Z.land (st_mode s) 16384 =? v), fs)
    | None =>
        match os_stat path with
        | Ret s => (Ret (Z.land (st_mode s) 16384 =? v),
                    mkFiles (Some (path, s)) (path :: stat_calls fs))
        | Raise e => (Ret false,
                      mkFiles (previousFileInfo fs) (path :: stat_calls fs))
        end
    end.
Proof.
  unfold try_except, bind. rewrite fileinfo_eq.
  destruct (cached fs path) as [s|]; [case_if; reflexivity|].
  destruct (os_stat path) as [s|e]; [case_if; reflexivity | reflexivity].
Qed.

(** X24.  [isdir(path)] followed by [isfile(path)]: both return, never both True;
    one of them is True exactly when something is known about the path,
    from the memory of the last path asked or from [os.stat].  When nothing
    is, the memory is left as it was. *)
Theorem isdir_isfile_exclusive (os_stat : str -> result stat_result)
    (path : str) (fs : Files) :
  exists d f fs1 fs2,
    isdir os_stat path fs = (Ret d, fs1)
    /\ isfile os_stat path fs1 = (Ret f, fs2)
    /\ d && f = false
    /\ (d || f = true <-> cached fs path <> None \/ exists s, os_stat path = Ret s)
    /\ (d || f = false -> previousFileInfo fs2 = previousFileInfo fs).
Proof.
  pose proof (mode_test_eq os_stat 16384 path fs) as Hdir.
  fold (isdir os_stat path) in Hdir.
  destruct (cached fs path) as [s|] eqn:Hc; [|destruct (os_stat path) as [s|e] eqn:Hs].
  - do 4 eexists. split; [exact Hdir|].
    split; [unfold isfile; rewrite mode_test_eq, Hc; reflexivity|].
    destruct (mode_bit (st_mode s)) as [-> | ->]; cbn;
      repeat split; try reflexivity; try discriminate;
      intros _; left; discriminate.
  - do 4 eexists. split; [exact Hdir|].
    split; [unfold isfile; rewrite mode_test_eq, cached_remember; reflexivity|].
    destruct (mode_bit (st_mode s)) as [-> | ->]; cbn;
      repeat split; try reflexivity; try discriminate;
      intros _; right; eexists; reflexivity.
  - do 4 eexists. split; [exact Hdir|].
    split.
    { unfold isfile. rewrite mode_test_eq.
      change (cached (mkFiles (previousFileInfo fs) (path :: stat_calls fs)) path)
        with (cached fs path).
      rewrite Hc, Hs. reflexivity. }
    cbn. repeat split; try reflexivity; try discriminate.
    intros [Hk | (s & Hk)]; [congruence | discriminate].
Qed.

(** X25.  Once [fileinfo(path)] has succeeded, asking again about the same path
    does not look at the file system: [fileinfo], [isdir] and [isfile]
    answer from what was remembered, whatever [os.stat] would say now, and
    change nothing. *)
Theorem fileinfo_answers_from_memory (os_then os_now : str -> result stat_result)
    (path : str) (fs : Files) (s : stat_result) :
  fst (fileinfo os_then path fs) = Ret s ->
  let fs1 := snd (fileinfo os_then path fs) in
  fileinfo os_now path fs1 = (Ret s, fs1)
  /\ isdir os_now path fs1 = (Ret (Z.land (st_mode s) 16384 =? 16384), fs1)
  /\ isfile os_now path fs1 = (Ret (Z.land (st_mode s) 16384 =? 0), fs1).
Proof.
  intros Hfirst. cbv zeta.
  assert (Hc : cached (snd (fileinfo os_then path fs)) path = Some s).
  { rewrite fileinfo_eq in *.
    destruct (cached fs path) as [s0|] eqn:Hc0; cbn [fst snd] in *.
    - congruence.
    - destruct (os_then path) as [s1|e]; cbn [fst snd] in *; [|discriminate].
      unfold cached. cbn [previousFileInfo]. rewrite String.eqb_refl. congruence. }
  assert (Hagain : fileinfo os_now path (snd (fileinfo os_then path fs))
                   = (Ret s, snd (fileinfo os_then path fs)))
    by (rewrite fileinfo_eq, Hc; reflexivity).
  split; [exact Hagain|].
  unfold isdir, isfile, try_except, bind. rewrite Hagain.
  split; case_if; reflexivity.
Qed.

(** *** makedir *)

Lemma string_length_app (a b : string) :
  String.length (a ++ b) = (String.length a + String.length b)%nat.
Proof. induction a as [|x a IH]; cbn; [reflexivity|]. rewrite IH. reflexivity. Qed.

Lemma extends_length (x y : str) :
  extends x y -> (String.length x < String.length y)%nat.
Proof.
  intros (rest & Hne & ->). rewrite string_length_app.
  destruct rest; [congruence|]. cbn. lia.
Qed.

Lemma extends_trans (x y z : str) : extends x y -> extends y z -> extends x z.
Proof.
  intros (r1 & H1 & ->) (r2 & H2 & ->). exists (r1 ++ r2)%string.
  split; [|apply string_app_assoc].
  destruct r1; [congruence | discriminate].
Qed.

(** A head is a proper beginning of the path, when the tail is not empty. *)
Lemma split_head_extends (d : str) :
  snd (split d) <> "" -> extends (fst (split d)) d.
Proof.
  intros Htail. destruct (split_decomposition d) as (k & Hd & _).
  exists (times "/" k ++ snd (split d))%string. split; [|exact Hd].
  intros He. apply Htail.
  destruct (times "/" k); [exact He | discriminate].
Qed.

(** The loop comes to an end: every path has its list of heads, each a
    proper beginning of the path and of the heads before it. *)
Lemma climbs_exists (n : nat) (d : str) :
  (String.length d < n)%nat ->
  exists heads,
    climbs d heads /\ Forall (fun h => extends h d) heads
    /\ StronglySorted (fun a b => extends b a) heads.
Proof.
  revert d. induction n as [|n IH]; intros d Hlen; [lia|].
  destruct (String.eqb_spec (snd (split d)) "") as [Ht|Ht].
  { exists []. split; [apply climbs_stop; left; exact Ht | split; constructor]. }
  destruct (String.eqb_spec (fst (split d)) "") as [Hh|Hh].
  { exists []. split; [apply climbs_stop; right; exact Hh | split; constructor]. }
  pose proof (split_head_extends d Ht) as Hext.
  destruct (IH (fst (split d))) as (heads & Hc & Hall & Hsorted).
  { apply extends_length in Hext. lia. }
  exists (fst (split d) :: heads). split; [|split].
  - constructor; assumption.
  - constructor; [exact Hext|].
    eapply Forall_impl; [|exact Hall].
    intros h Hh'. cbn beta in *.
    exact (extends_trans _ _ _ Hh' Hext).
  - constructor; assumption.
Qed.

(** With fuel for more turns than the path has characters, the loop of the
    model is the loop of the code. *)
Lemma climb_complete (d : str) (heads : list str) :
  climbs d heads ->
  forall fuel acc,
    (String.length d < fuel)%nat ->
    makedir_climb fuel d acc = Some (acc ++ heads)%list.
Proof.
  induction 1 as [d Hstop | d heads Ht Hh Hc IH]; intros fuel acc Hlen;
    (destruct fuel as [|fuel]; [lia|]); cbn [makedir_climb]; cbv zeta.
  - rewrite app_nil_r.
    destruct Hstop as [-> | ->]; [reflexivity|].
    rewrite orb_true_r. reflexivity.
  - rewrite (proj2 (String.eqb_neq _ _) Ht), (proj2 (String.eqb_neq _ _) Hh).
    cbn [orb]. rewrite IH.
    + rewrite <- app_assoc. reflexivity.
    + pose proof (extends_length _ _ (split_head_extends d Ht)). lia.
Qed.

Lemma sorted_snoc (A : Type) (R : A -> A -> Prop) (l : list A) (a : A) :
  StronglySorted R l -> Forall (fun x => R x a) l -> StronglySorted R (l ++ [a]).
Proof.
  induction 1 as [|x l Hs IH Hx]; intros Hall; cbn [app].
  - repeat constructor.
  - inversion Hall as [|? ? Hxa Hla]; subst.
    constructor; [apply IH; exact Hla|].
    apply Forall_app. split; [exact Hx|]. repeat constructor. exact Hxa.
Qed.

Lemma sorted_rev (A : Type) (R : A -> A -> Prop) (l : list A) :
  StronglySorted (fun a b => R b a) l -> StronglySorted R (rev l).
Proof.
  induction 1 as [|x l Hs IH Hx]; cbn [rev]; [constructor|].
  apply sorted_snoc; [exact IH|].
  apply Forall_rev. exact Hx.
Qed.

(** X26.  [makedir(directory, True)]: the loop that collects the directories comes
    to an end, and the list the [for] loop goes through ends with
    [directory] and has every directory after its proper beginnings: a
    parent is tried before what is in it. *)
Theorem makedir_parents_first (directory : str) :
  exists ds,
    makedir_directories directory = Some ds
    /\ last ds "" = directory
    /\ StronglySorted extends ds.
Proof.
  destruct (climbs_exists (S (String.length directory)) directory)
    as (heads & Hc & Hall & Hsorted); [lia|].
  exists (rev (directory :: heads)).
  unfold makedir_directories.
  rewrite (climb_complete directory heads Hc) by lia.
  split; [reflexivity|]. cbn [rev]. split; [apply last_last|].
  apply sorted_snoc; [apply sorted_rev; exact Hsorted|].
  apply Forall_rev. exact Hall.
Qed.

(** The place of the last [c] is where a cut with no [c] after it is. *)
Lemma rfind_unique (c : ascii) (p : str) (l1 l2 : list ascii) :
  chars p = (l1 ++ c :: l2)%list -> ~ In c l2 ->
  rfind c p = Z.of_nat (List.length l1).
Proof.
  intros Hp Hno.
  destruct (rfind_spec c p) as [[Hnone _] | (m1 & m2 & Hm & Hno' & Hr)].
  - exfalso. apply Hnone. rewrite Hp. apply in_or_app. right. left. reflexivity.
  - rewrite Hr. f_equal. rewrite Hp in Hm.
    destruct (Nat.lt_trichotomy (List.length l1) (List.length m1)) as [Hlt|[He|Hgt]];
      [|exact (eq_sym He)|].
    + destruct (later_cut _ l1 l2 m1 m2 c c Hm Hlt) as (x & Hx).
      exfalso. apply Hno. rewrite Hx. apply in_or_app. right. left. reflexivity.
    + destruct (later_cut _ m1 m2 l1 l2 c c (eq_sym Hm) Hgt) as (x & Hx).
      exfalso. apply Hno'. rewrite Hx. apply in_or_app. right. left. reflexivity.
Qed.

(** The two texts [split] starts from, for a path cut at its last "/". *)
Lemma split_raw (p : str) (l1 l2 : list ascii) :
  chars p = (l1 ++ "/"%char :: l2)%list -> ~ In "/"%char l2 ->
  upto p (rfind "/" p + 1) = text (l1 ++ ["/"%char])
  /\ from p (rfind "/" p + 1) = text l2.
Proof.
  intros Hp Hno. rewrite (rfind_unique _ _ _ _ Hp Hno).
  assert (Hb : bound (List.length (chars p)) (Z.of_nat (List.length l1) + 1)
               = S (List.length l1)).
  { unfold bound. destruct (Z.ltb_spec (Z.of_nat (List.length l1) + 1) 0); [lia|].
    rewrite Hp, length_app. cbn [List.length]. lia. }
  unfold upto, from. rewrite Hb, Hp.
  rewrite (proj1 (cut_after _ l1 l2 _)), (proj2 (cut_after _ l1 l2 _)).
  split; reflexivity.
Qed.

(** X27.  A directory written with a "/" at its end is all [makedir] goes through,
    also when [recursive] is set: its tail is empty, and none of its parents
    is tried. *)
Theorem makedir_trailing_slash (d : str) :
  makedir_directories (d ++ "/") = Some [(d ++ "/")%string].
Proof.
  assert (Htail : snd (split (d ++ "/")) = "").
  { unfold split. cbv zeta. cbn [snd].
    refine (proj2 (split_raw (d ++ "/") (chars d) [] _ _)).
    - apply chars_app.
    - intros []. }
  unfold makedir_directories. cbn [makedir_climb]. cbv zeta.
  rewrite Htail. reflexivity.
Qed.

Lemma component_chars (c : str) :
  component c ->
  (exists z w, chars c = z :: w /\ z <> "/"%char)
  /\ (exists w z, chars c = (w ++ [z])%list /\ z <> "/"%char).
Proof.
  intros [Hne Hno]. unfold without in Hno.
  assert (Hc : chars c <> []).
  { intros He. apply Hne. rewrite <- (text_chars c), He. reflexivity. }
  split.
  - destruct (chars c) as [|z w]; [congruence|].
    exists z, w. split; [reflexivity|]. intros ->. apply Hno. left. reflexivity.
  - destruct (exists_last Hc) as (w & z & Hw).
    exists w, z. split; [exact Hw|]. intros ->. apply Hno. rewrite Hw.
    apply in_or_app. right. left. reflexivity.
Qed.

(** A path of components begins and ends with a character that is no
    "/". *)
Lemma concat_ends (l : list str) :
  l <> [] -> Forall component l ->
  (exists z w, chars (String.concat "/" l) = z :: w /\ z <> "/"%char)
  /\ (exists w z, chars (String.concat "/" l) = (w ++ [z])%list /\ z <> "/"%char).
Proof.
  intros Hne Hall. split.
  - destruct l as [|c [|y r]]; [congruence| |];
      inversion Hall as [|? ? Hc _]; subst;
      destruct (proj1 (component_chars c Hc)) as (z & w & Hz & Hzn).
    + exists z, w. split; assumption.
    + change (String.concat "/" (c :: y :: r))
        with (c ++ "/" ++ String.concat "/" (y :: r))%string.
      rewrite chars_app, Hz. eexists z, _. split; [reflexivity | exact Hzn].
  - destruct (exists_last Hne) as (l' & t & ->).
    apply Forall_app in Hall as [_ Ht]. inversion Ht as [|? ? Hc _]; subst.
    destruct (proj2 (component_chars t Hc)) as (w & z & Hz & Hzn).
    destruct l' as [|c r].
    + exists w, z. split; assumption.
    + rewrite concat_snoc by discriminate.
      rewrite !chars_app, Hz, !app_assoc.
      eexists _, z. split; [reflexivity | exact Hzn].
Qed.

(** [split] of a path of components gives the path of all but the last, and
    the last. *)
Lemma split_join (l : list str) (t : str) :
  l <> [] -> Forall component l -> component t ->
  split (String.concat "/" (l ++ [t])) = (String.concat "/" l, t).
Proof.
  intros Hne Hall Ht.
  assert (Hp : chars (String.concat "/" (l ++ [t]))
               = (chars (String.concat "/" l) ++ "/"%char :: chars t)%list).
  { rewrite concat_snoc by exact Hne. rewrite chars_app. reflexivity. }
  destruct (split_raw _ _ _ Hp (proj2 Ht)) as [Hup Hfrom].
  unfold split. cbv zeta. rewrite Hup, Hfrom, text_chars. f_equal.
  destruct (concat_ends l Hne Hall) as [(z & w & Hz & Hzn) (w' & z' & Hz' & Hzn')].
  set (X := chars (String.concat "/" l)) in *.
  assert (Hne' : (text (X ++ ["/"%char]) =? "")%string = false).
  { apply String.eqb_neq. intros He. apply (f_equal chars) in He.
    rewrite chars_text, Hz in He. discriminate. }
  assert (Hnot : (text (X ++ ["/"%char])
                  =? times "/" (List.length (chars (text (X ++ ["/"%char])))))%string
                 = false).
  { apply String.eqb_neq. unfold times. intros He. apply text_inj in He.
    assert (Hin : In z (X ++ ["/"%char])) by (rewrite Hz; left; reflexivity).
    rewrite He in Hin. apply repeat_spec in Hin. congruence. }
  rewrite Hne', Hnot. cbn [negb andb].
  unfold rstrip. rewrite chars_text, rev_app_distr. cbn [rev app drop_while].
  rewrite Ascii.eqb_refl, Hz', rev_app_distr. cbn [rev app drop_while].
  rewrite (proj2 (Ascii.eqb_neq _ _)) by congruence.
  change (z' :: rev w') with (rev [z'] ++ rev w')%list.
  rewrite <- rev_app_distr, rev_involutive, <- Hz'. apply text_chars.
Qed.

Lemma prefixes_from_snoc (done l : list str) (t : str) :
  prefixes_from done (l ++ [t])
  = (prefixes_from done l ++ [String.concat "/" (done ++ l ++ [t])])%list.
Proof.
  revert done. induction l as [|x l IH]; intros done; cbn [prefixes_from app].
  - reflexivity.
  - rewrite IH, <- !app_assoc. reflexivity.
Qed.

(** The heads the loop finds for a path of components are the shorter paths
    of these components, longest first. *)
Lemma climbs_names (l : list str) :
  forall t, Forall component (l ++ [t]) ->
  climbs (String.concat "/" (l ++ [t])) (rev (prefixes l)).
Proof.
  induction l as [|t' l' IH] using rev_ind; intros t Hall.
  - apply climbs_stop. right.
    inversion Hall as [|? ? [_ Hno] _]; subst.
    cbn [app String.concat].
    destruct (split_decomposition t) as (k & _ & _ & _ & Hall_tail).
    rewrite (Hall_tail Hno). reflexivity.
  - apply Forall_app in Hall as [Hl Ht]. inversion Ht as [|? ? Hc _]; subst.
    assert (Hsplit := split_join (l' ++ [t']) t
                        ltac:(destruct l'; discriminate) Hl Hc).
    unfold prefixes. rewrite prefixes_from_snoc, rev_app_distr.
    cbn [rev app].
    replace (String.concat "/" (l' ++ [t']))
      with (fst (split (String.concat "/" ((l' ++ [t']) ++ [t]))))
      by (rewrite Hsplit; reflexivity).
    apply climbs_up.
    + rewrite Hsplit. exact (proj1 Hc).
    + rewrite Hsplit. cbn [fst].
      destruct (proj1 (concat_ends (l' ++ [t'])
                         ltac:(destruct l'; discriminate) Hl))
        as (z & w & Hz & _).
      intros He. rewrite He in Hz. discriminate.
    + rewrite Hsplit. cbn [fst]. apply IH. exact Hl.
Qed.

(** X28.  For a relative path of components, [makedir(path, True)] goes through
    the paths of the first component, of the first two, and so on up to the
    path itself: for a/b/c these are a, a/b and a/b/c, in this order. *)
Theorem makedir_prefixes (names : list str) :
  names <> [] -> Forall component names ->
  makedir_directories (String.concat "/" names) = Some (prefixes names).
Proof.
  intros Hne Hall.
  destruct (exists_last Hne) as (l & t & ->).
  unfold makedir_directories.
  rewrite (climb_complete _ _ (climbs_names l t Hall)) by lia.
  cbn [option_map app rev]. rewrite rev_involutive.
  unfold prefixes. rewrite prefixes_from_snoc. reflexivity.
Qed.

Section MakeDirProofs.

Context {F : Type}.
Variable os_lstat : str -> F -> result stat_result.
Variable os_stat : str -> F -> result stat_result.
Variable os_mkdir : str -> F -> result unit * F.

Lemma makedir_each_existing (ds : list str) (st : F * list str) :
  Forall (fun d => fst (exists_ os_lstat os_stat d st) = Ret true) ds ->
  makedir_each os_lstat os_stat os_mkdir ds st = (Ret tt, st).
Proof.
  induction 1 as [|d r Hd Hr IH]; cbn [makedir_each]; [reflexivity|].
  unfold bind at 1. unfold exists_ in *.
  destruct (os_lstat d (fst st)); [|destruct (os_stat d (fst st))];
    cbn [fst] in Hd; try discriminate; cbn [negb when];
    unfold bind at 1, ret at 1; exact IH.
Qed.

(** X29.  [makedir(directory, True)] collects a list of directories that
    ends with [directory]; when every directory of that list exists
    already, the call returns without a single call of [os.mkdir]. *)
Theorem makedir_existing_tree (directory : str) (st : F * list str) :
  exists ds,
    makedir_directories directory = Some ds
    /\ last ds "" = directory
    /\ (Forall (fun d => fst (exists_ os_lstat os_stat d st) = Ret true) ds ->
        makedir os_lstat os_stat os_mkdir directory true st = (Ret (Some tt), st)).
Proof.
  destruct (climbs_exists (S (String.length directory)) directory)
    as (heads & Hc & _ & _); [lia|].
  exists (rev (directory :: heads)).
  assert (Hds : makedir_directories directory = Some (rev (directory :: heads))).
  { unfold makedir_directories.
    rewrite (climb_complete directory heads Hc) by lia. reflexivity. }
  split; [exact Hds|]. split; [cbn [rev]; apply last_last|].
  intros Hexist. unfold makedir. cbn [Bool.eqb]. rewrite Hds.
  erewrite bind_Ret; [reflexivity|].
  apply makedir_each_existing. exact Hexist.
Qed.

End MakeDirProofs.

(** *** More on isIpOnInterface and start *)

(** X19.  With a live address, a candidate with fewer than three dots makes
    [isIpOnInterface] raise (ValueError or IndexError) instead of answering
    False; so does a candidate that cannot be decoded (UnicodeError). *)
Theorem isIpOnInterface_malformed (ipAddr : pytext) (st : Station D) :
  live_address st <> None ->
  (forall s, tostrings ipAddr = Ret s ->
             (List.length (split_on "." s) < 4)%nat) ->
  exists e, fst (isIpOnInterface ipAddr st) = Raise e.
Proof.
  intros Hlive Hshort.
  pose proof (getInfo_eq st) as Hinfo.
  unfold isIpOnInterface, bind.
  destruct (getInfo st) as [[info|e] st1]; cbn [fst] in Hinfo; [|discriminate].
  injection Hinfo as ->.
  destruct (live_address st) as [i|]; [|congruence].
  unfold lift. cbn [fst].
  destruct (tostrings ipAddr) as [s|e]; cbn [rbind]; [|exists e; reflexivity].
  destruct (iptoint_short s (Hshort s eq_refl)) as (e & He).
  exists e. unfold issameinterface. rewrite He. reflexivity.
Qed.

Section StartMore.

Variable jsonconfig_load : StationConfig -> bool * StationConfig.
Variable ismicropython : bool.
Variable format_exc : exn -> str.

(** X20.  When the network cannot be reached, [start] still returns True with the
    handle created, but the radio has been switched off by [connect]: the
    station is not active, the last thing printed is "Wifi connection
    failed", and a later [start] loads and binds all over again. *)
Theorem start_unreachable_network (force : bool) (st : Station D) :
  (forall d : D, fst (wl_isconnected d) = false) ->
  (forall d : D, wl_active (wl_set_active false d) = false) ->
  is_active st = false ->
  fst (jsonconfig_load StationConfig_init) = true ->
  activated (snd (jsonconfig_load StationConfig_init)) || force = true ->
  exists st',
    start jsonconfig_load ismicropython format_exc force st = (Ret true, st')
    /\ wlan st' = Some STA_IF
    /\ is_active st' = false
    /\ hd_error (journal st') = Some (EvPrint "Wifi connection failed")
    /\ goes_live jsonconfig_load force st' = true.
Proof.
  intros Hnever Hoff Hidle Hload Hon.
  assert (Hbranch :
    forall w c n (d : D) j,
    exists st',
      bind (log EvLoad) (fun _ =>
        let (loaded, cfg) := jsonconfig_load StationConfig_init in
        if loaded then
          if activated cfg || force then
            log EvBind ;;;
            set_wlan (Some STA_IF) ;;;
            set_config (Some cfg) ;;;
            set_networks [] ;;;
            print "Start wifi" ;;;
            configure ismicropython format_exc None None None None ;;;
            c <- connect None None ;;
            (if c then r <- repr_config ;; print r
             else print "Wifi connection failed") ;;;
            ret true
          else
            print "Wifi disabled" ;;; ret false
        else
          print "Wifi not initialized" ;;; ret false) (mkStation w c n d j)
      = (Ret true, st')
      /\ wlan st' = Some STA_IF
      /\ is_active st' = false
      /\ hd_error (journal st') = Some (EvPrint "Wifi connection failed")).
  { intros w c n d j.
    destruct (jsonconfig_load StationConfig_init) as [loaded cfg].
    cbn [fst snd] in Hload, Hon. subst loaded. rewrite Hon.
    erewrite bind_Ret by reflexivity.
    do 5 (erewrite bind_Ret by reflexivity).
    cbn [wlan config networks radio journal].
    match goal with
    | |- context [bind (configure ismicropython format_exc None None None None) _ ?s] =>
        destruct (configure_returns ismicropython format_exc None None None None s STA_IF cfg
                    eq_refl eq_refl)
          as ([w1 c1 n1 d1 j1] & Hconf & Hw1 & Hc1 & _ & _)
    end.
    cbn [wlan config] in Hw1, Hc1. subst w1 c1.
    erewrite bind_Ret by exact Hconf.
    match goal with
    | |- context [bind (connect None None) _
                    (mkStation (Some ?h0) (Some ?c0) ?n0 ?d0 ?j0)] =>
        destruct (connect_unfold None None h0 c0 n0 d0 j0 (Hnever d0))
          as (d2 & j2 & _ & Hrun)
    end.
    erewrite bind_Ret by exact Hrun.
    rewrite (Hnever d2).
    erewrite bind_Ret by reflexivity.
    eexists. split; [reflexivity|].
    unfold is_active. cbn [wlan radio journal hd_error].
    repeat split. apply Hoff. }
  destruct st as [w c n d j].
  assert (Hagain : forall st', is_active st' = false ->
                     goes_live jsonconfig_load force st' = true).
  { intros st' Hst'. unfold goes_live. rewrite Hst', Hload, Hon. reflexivity. }
  unfold start. unfold is_active in Hidle. cbn [wlan radio] in Hidle.
  destruct w as [h|].
  - erewrite bind_Ret by apply wlan_active_bound.
    rewrite Hidle. cbn [Bool.eqb].
    destruct (Hbranch (Some h) c n d (EvCall CActive :: j))
      as (st' & Hrun & Hw & Ha & Hp).
    exists st'. repeat split; try assumption. apply Hagain. exact Ha.
  - erewrite bind_Ret by reflexivity. cbn [Bool.eqb].
    destruct (Hbranch None c n d j) as (st' & Hrun & Hw & Ha & Hp).
    exists st'. repeat split; try assumption. apply Hagain. exact Ha.
Qed.

End StartMore.

End Proofs.


(** ** Instances of the theorems *)

(** The theorem of C2 on the radio with no hotspot in range: [connect()]
    returns False after 121 sleeps and the radio ends switched off. *)
Lemma connect_never_connected_witness :
  (forall d : lonely, fst (wl_isconnected d) = false)
  /\ wlan lonely_station <> None /\ config lonely_station <> None
  /\ exists st',
       connect None None lonely_station = (Ret false, st')
       /\ occurrences is_sleep (journal st') = 121%nat
       /\ occurrences is_poll (journal st') = 123%nat
       /\ slept (journal st') = 60500
       /\ wl_active (radio st') = false.
Proof.
  assert (Hn : forall d : lonely, fst (wl_isconnected d) = false) by reflexivity.
  assert (Hw : wlan lonely_station <> None) by discriminate.
  assert (Hc : config lonely_station <> None) by discriminate.
  repeat (split; [assumption|]).
  destruct (connect_never_connected None None lonely_station Hn Hw Hc)
    as (st' & Hrun & Hsl & Hpo & Hti & _ & (d' & Hd)).
  exists st'. rewrite Hd. repeat split; assumption.
Defined.

(** C1, as claimed, fails when the stored gateway is "0.0.0.0" and no
    parameter is given: the claim has the field take the gateway of the
    interface, "192.168.1.254"; [configure] leaves it empty, because the
    interface is only asked for a field that is empty before the null address
    is dropped. *)
Lemma configure_stored_null_counterexample :
  let st' := snd (configure true no_text None None None None null_gateway_station) in
  let claimed :=
    resolve_as_specified None (gateway null_gateway_config)
      (if_gateway (wl_ifconfig (radio null_gateway_station))) in
  claimed = "192.168.1.254"
  /\ option_map gateway (config st') = Some ""
  /\ option_map gateway (config st') <> Some claimed.
Proof.
  cbv zeta. split; [reflexivity|]. split; [reflexivity|].
  vm_compute. discriminate.
Qed.

(** The theorem of C1 at the same station: the gateway ends empty, the
    three empty fields take the values of the interface. *)
Lemma configure_resolution_witness :
  wlan null_gateway_station = Some STA_IF
  /\ config null_gateway_station = Some null_gateway_config
  /\ exists st' c',
       configure true no_text None None None None null_gateway_station = (Ret tt, st')
       /\ config st' = Some c'
       /\ ipaddress c' = "192.168.1.1" /\ netmask c' = "255.255.255.0"
       /\ gateway c' = "" /\ dns c' = "8.8.8.8".
Proof.
  split; [reflexivity|]. split; [reflexivity|].
  destruct (configure_resolution true no_text None None None None
              null_gateway_station STA_IF null_gateway_config eq_refl eq_refl)
    as (st' & c' & Hrun & Hc & Hi & Hn & Hg & Hd & _).
  exists st', c'. repeat split; assumption.
Defined.

(** C5, as claimed, fails when a field is set but is not UTF-8:
    [configure(b"\xff", "255.0.0.0", "10.0.0.1", "10.0.0.1")] leaves the four
    fields non-empty, so that the claim has [ifconfig] called once with the
    tuple; the code calls it not at all, because the UnicodeError of
    [tostrings] is raised, and caught, before the call.  (The same holds
    outside MicroPython.) *)
Lemma configure_undecodable_counterexample :
  let st' := snd (configure true no_text (Some (PBytes garbled))
                    (Some (PStr "255.0.0.0")) (Some (PStr "10.0.0.1"))
                    (Some (PStr "10.0.0.1")) null_gateway_station) in
  let claimed :=
    match config st' with
    | Some c' => if complete c' then 1%nat else 0%nat
    | None => 0%nat
    end in
  claimed = 1%nat
  /\ occurrences is_push (journal st') = 0%nat
  /\ occurrences is_push (journal st') <> claimed
  /\ radio st' = radio null_gateway_station.
Proof.
  cbv zeta. split; [reflexivity|]. split; [reflexivity|].
  split; [vm_compute; discriminate|reflexivity].
Qed.

(** The theorem of C5 at three calls: with the gateway missing nothing is
    sent to the radio; with the four addresses given they are sent; with
    an address that is not UTF-8 nothing is sent and the error is
    reported. *)
Lemma configure_static_iff_complete_decodable_witness :
  wlan null_gateway_station = Some STA_IF
  /\ config null_gateway_station = Some null_gateway_config
  /\ (exists st',
        configure true no_text None None None None null_gateway_station = (Ret tt, st')
        /\ occurrences is_push (journal st') = 0%nat
        /\ radio st' = radio null_gateway_station)
  /\ (exists st',
        configure true no_text (Some (PStr "10.0.0.2")) (Some (PStr "255.0.0.0"))
          (Some (PStr "10.0.0.1")) (Some (PBytes "10.0.0.1")) null_gateway_station
        = (Ret tt, st')
        /\ occurrences is_push (journal st') = 1%nat
        /\ wl_ifconfig (radio st') = mkIfcfg "10.0.0.2" "255.0.0.0" "10.0.0.1" "10.0.0.1")
  /\ (exists st',
        configure true no_text (Some (PBytes garbled)) (Some (PStr "255.0.0.0"))
          (Some (PStr "10.0.0.1")) (Some (PStr "10.0.0.1")) null_gateway_station
        = (Ret tt, st')
        /\ occurrences is_push (journal st') = 0%nat
        /\ radio st' = radio null_gateway_station
        /\ hd_error (journal st')
           = Some (EvPrint ("Cannot configure wifi station "
                            ++ no_text UnicodeError))).
Proof.
  split; [reflexivity|]. split; [reflexivity|]. split; [|split].
  - destruct (configure_static_iff_complete_decodable true no_text None None None None
                null_gateway_station STA_IF null_gateway_config eq_refl eq_refl)
      as (st' & c' & Hrun & _ & Hc & Hcount & _ & Hkeep & _).
    exists st'. rewrite Hc in Hcount, Hkeep.
    split; [exact Hrun|]. split; [exact Hcount|]. apply Hkeep. reflexivity.
  - destruct (configure_static_iff_complete_decodable true no_text
                (Some (PStr "10.0.0.2")) (Some (PStr "255.0.0.0"))
                (Some (PStr "10.0.0.1")) (Some (PBytes "10.0.0.1"))
                null_gateway_station STA_IF null_gateway_config eq_refl eq_refl)
      as (st' & c' & Hrun & _ & Hc & Hcount & Hpush & _).
    exists st'. rewrite Hc in Hcount, Hpush.
    split; [exact Hrun|]. split; [exact Hcount|].
    destruct (Hpush eq_refl eq_refl) as [_ Hradio]. rewrite Hradio. reflexivity.
  - destruct (configure_static_iff_complete_decodable true no_text
                (Some (PBytes garbled)) (Some (PStr "255.0.0.0"))
                (Some (PStr "10.0.0.1")) (Some (PStr "10.0.0.1"))
                null_gateway_station STA_IF null_gateway_config eq_refl eq_refl)
      as (st' & c' & Hrun & _ & Hc & Hcount & _ & _ & Hcaught).
    exists st'. rewrite Hc in Hcount, Hcaught.
    split; [exact Hrun|]. split; [exact Hcount|].
    exact (Hcaught eq_refl eq_refl).
Defined.

(** C6 on the three hotspots: kitchen (-40) first, attic (-60) second,
    cellar (-80) last. *)
Example scan_ranking :
  fst (scan true home_station)
  = Ret [("kitchen", 6, 3); ("attic", 11, 4); ("cellar", 1, 3)].
Proof. reflexivity. Qed.

(** The theorem of C6 at [home_station]. *)
Lemma scan_force_ranks_witness :
  wlan home_station <> None
  /\ exists ranked st',
       scan true home_station = (Ret (map project ranked), st')
       /\ networks st' = map project ranked
       /\ Permutation ranked [cellar; kitchen; attic]
       /\ StronglySorted stronger ranked
       /\ (forall k, at_strength k ranked = at_strength k [cellar; kitchen; attic]).
Proof.
  assert (Hb : wlan home_station <> None) by discriminate.
  split; [exact Hb|].
  exact (scan_force_ranks home_station Hb).
Defined.

(** Entries of equal strength stay in the order of the radio. *)
Example scan_ranking_ties :
  map se_ssid
    (sorted_rssi_desc
       [mkScanEntry "a" "" 1 (-50) 0 false; mkScanEntry "b" "" 1 (-30) 0 false;
        mkScanEntry "c" "" 1 (-50) 0 false; mkScanEntry "d" "" 1 (-30) 0 false])
  = ["b"; "d"; "a"; "c"].
Proof. reflexivity. Qed.

(** The theorem of C7 at [scanned_station]. *)
Lemma scan_twice_cached_witness :
  networks scanned_station <> []
  /\ scan false scanned_station = (Ret (networks scanned_station), scanned_station)
  /\ occurrences is_scan
       (journal (snd (scan false (snd (scan false scanned_station)))))
     = occurrences is_scan (journal scanned_station).
Proof.
  assert (Hn : networks scanned_station <> []) by discriminate.
  split; [exact Hn|].
  destruct (scan_twice_cached scanned_station Hn) as (Hone & _ & Hcount).
  split; assumption.
Defined.

(** The theorem of C10 on the radio that finds nothing: after a first scan
    the list is empty, and the next [scan(False)] is a second scan. *)
Lemma scan_empty_cache_rescans_witness :
  wlan lonely_station <> None
  /\ networks (snd (scan false lonely_station)) = []
  /\ occurrences is_scan
       (journal (snd (scan false (snd (scan false lonely_station))))) = 2%nat.
Proof.
  assert (Hb : wlan lonely_station <> None) by discriminate.
  split; [exact Hb|].
  destruct (scan_empty_cache_rescans lonely_station Hb) as (_ & _ & Hagain).
  destruct (Hagain eq_refl false (or_intror eq_refl)) as (Hnil & _ & Hcount).
  split; assumption.
Defined.

(** C8 on the addresses of the claim. *)
Example subnet_inside :
  fst (isIpOnInterface (PStr "192.168.1.10") home_station) = Ret true.
Proof. reflexivity. Qed.

Example subnet_outside :
  fst (isIpOnInterface (PBytes "10.0.0.5") home_station) = Ret false.
Proof. reflexivity. Qed.

Example subnet_not_connected :
  fst (isIpOnInterface (PStr "192.168.1.10") deaf_station) = Ret false.
Proof. reflexivity. Qed.

(** The theorem of C8 at [home_station] for 192.168.1.10. *)
Lemma isIpOnInterface_subnet_witness :
  octets_ok (192, 168, 1, 10)%nat
  /\ live_address home_station = Some home_ifcfg
  /\ fst (isIpOnInterface (PStr "192.168.1.10") home_station)
     = Ret (Z.land (be32 (192, 168, 1, 10)%nat) (be32 (255, 255, 255, 0)%nat)
            =? Z.land (be32 (192, 168, 1, 1)%nat) (be32 (255, 255, 255, 0)%nat)).
Proof.
  assert (Hc : octets_ok (192, 168, 1, 10)%nat) by (cbn; lia).
  assert (Ha : octets_ok (192, 168, 1, 1)%nat) by (cbn; lia).
  assert (Hm : octets_ok (255, 255, 255, 0)%nat) by (cbn; lia).
  split; [exact Hc|]. split; [reflexivity|].
  destruct (isIpOnInterface_subnet (PStr "192.168.1.10") home_station) as [_ Hsub].
  exact (Hsub _ _ _ home_ifcfg Hc Ha Hm eq_refl eq_refl eq_refl eq_refl).
Defined.



(** The same on a station that is already active. *)
Example start_active_garbled_ssid :
  is_active garbled_station = true
  /\ fst (start disabled_store true no_text false garbled_station)
     = Raise UnicodeError.
Proof. split; reflexivity. Qed.


(** C3 in the three cases where no handle is created, and in the one where
    it is, with a connection that fails. *)
Example start_already_active :
  fst (start disabled_store true no_text false home_station) = Ret true.
Proof. reflexivity. Qed.

Example start_disabled :
  fst (start disabled_store true no_text false (Station_init home_radio)) = Ret false
  /\ wlan (snd (start disabled_store true no_text false (Station_init home_radio))) = None.
Proof. split; reflexivity. Qed.

Example start_not_initialized :
  fst (start (fun c => (false, c)) true no_text true (Station_init home_radio)) = Ret false.
Proof. reflexivity. Qed.

Example start_forced_connection_fails :
  let r := start disabled_store true no_text true (Station_init (mkLonely 0 false)) in
  fst r = Ret true /\ wlan (snd r) = Some STA_IF
  /\ hd_error (journal (snd r)) = Some (EvPrint "Wifi connection failed").
Proof. vm_compute. repeat split. Qed.

(** ** Instances of the further theorems *)

Lemma connect_already_connected_witness :
  wlan home_station <> None
  /\ config home_station = Some StationConfig_init
  /\ fst (wl_isconnected (radio home_station)) = true
  /\ fst (connect (Some (PStr "attic")) None home_station) = Ret true.
Proof.
  assert (Hw : wlan home_station <> None) by discriminate.
  assert (Hc : config home_station = Some StationConfig_init) by reflexivity.
  assert (Hf : fst (wl_isconnected (radio home_station)) = true) by reflexivity.
  repeat (split; [assumption|]).
  rewrite (connect_already_connected (Some (PStr "attic")) None home_station
             StationConfig_init Hw Hc Hf).
  reflexivity.
Defined.

Lemma connect_reports_last_poll_witness :
  wlan lonely_station <> None /\ config lonely_station <> None
  /\ exists b st',
       connect None None lonely_station = (Ret b, st')
       /\ occurrences is_switch_off (journal st')
          = ((if b then 0 else 1)
             + occurrences is_switch_off (journal lonely_station))%nat.
Proof.
  assert (Hw : wlan lonely_station <> None) by discriminate.
  assert (Hc : config lonely_station <> None) by discriminate.
  repeat (split; [assumption|]).
  destruct (connect_reports_last_poll None None lonely_station Hw Hc)
    as (b & d' & j' & st' & Hrun & _ & _ & _ & Hoff).
  exists b, st'. split; assumption.
Defined.

Lemma connect_blocks_at_most_witness :
  wlan lonely_station <> None /\ config lonely_station <> None
  /\ slept (journal (snd (connect None None lonely_station)))
     <= slept (journal lonely_station) + 60500.
Proof.
  assert (Hw : wlan lonely_station <> None) by discriminate.
  assert (Hc : config lonely_station <> None) by discriminate.
  repeat (split; [assumption|]).
  exact (proj2 (connect_blocks_at_most None None lonely_station Hw Hc)).
Defined.

Lemma configure_never_stores_null_witness :
  wlan null_gateway_station <> None /\ config null_gateway_station <> None
  /\ exists st' c',
       configure true no_text None None None None null_gateway_station = (Ret tt, st')
       /\ config st' = Some c' /\ gateway c' <> "0.0.0.0".
Proof.
  assert (Hw : wlan null_gateway_station <> None) by discriminate.
  assert (Hc : config null_gateway_station <> None) by discriminate.
  repeat (split; [assumption|]).
  destruct (configure_never_stores_null true no_text None None None None
              null_gateway_station Hw Hc)
    as (st' & c' & Hrun & Hcfg & _ & _ & Hg & _).
  exists st', c'. repeat split; assumption.
Defined.

Lemma configure_survives_refusal_witness :
  wlan stubborn_station <> None
  /\ config stubborn_station = Some static_config
  /\ exists st',
       configure true no_text None None None None stubborn_station = (Ret tt, st')
       /\ config st' = Some static_config
       /\ hd_error (journal st')
          = Some (EvPrint ("Cannot configure wifi station " ++ no_text OSError)).
Proof.
  assert (Hw : wlan stubborn_station <> None) by discriminate.
  assert (Hc : config stubborn_station = Some static_config) by reflexivity.
  repeat (split; [assumption|]).
  assert (Hall : complete (resolved None None None None static_config
                             (wl_ifconfig (radio stubborn_station))) = true)
    by reflexivity.
  assert (Hno : fst (wl_set_ifconfig
                       (static_of (resolved None None None None static_config
                                     (wl_ifconfig (radio stubborn_station))))
                       (radio stubborn_station)) = Raise OSError)
    by reflexivity.
  destruct (configure_survives_refusal true no_text None None None None
              stubborn_station static_config OSError Hw Hc Hall Hno)
    as (st' & Hrun & _ & Hcfg & _ & Hprint).
  exists st'. repeat split; assumption.
Defined.

(** X10 outside MicroPython, with the four addresses given: the traceback
    is printed, then the message of [configure]. *)
Lemma configure_without_handle_witness :
  configure false exn_name (Some (PStr "10.0.0.2")) (Some (PStr "255.0.0.0"))
    (Some (PStr "10.0.0.1")) (Some (PStr "10.0.0.1"))
    (mkStation None (Some StationConfig_init) [] home_radio [])
  = (Ret tt,
     mkStation None
       (Some (mkStationConfig true (PBytes "") (PBytes "")
                "10.0.0.2" "255.0.0.0" "10.0.0.1" "10.0.0.1"))
       [] home_radio
       [EvPrint "Cannot configure wifi station AttributeError";
        EvPrint "AttributeError"]).
Proof.
  rewrite configure_without_handle. reflexivity.
Defined.

Lemma configure_again_witness :
  wlan home_station <> None
  /\ config home_station = Some StationConfig_init
  /\ (let st1 := snd (configure true no_text (Some (PStr "10.0.0.2")) None None None
                        home_station) in
      config (snd (configure true no_text None None None None st1)) = config st1).
Proof.
  assert (Hw : wlan home_station <> None) by discriminate.
  assert (Hc : config home_station = Some StationConfig_init) by reflexivity.
  repeat (split; [assumption|]).
  refine (proj2 (configure_again true no_text (Some (PStr "10.0.0.2")) None None None
                   home_station StationConfig_init Hw Hc _ _ _ _));
    discriminate.
Defined.

Lemma scan_then_cached_witness :
  wlan home_station <> None
  /\ fst (wl_scan (radio home_station)) <> []
  /\ (let st1 := snd (scan true home_station) in
      scan false st1 = (Ret (networks st1), st1)).
Proof.
  assert (Hw : wlan home_station <> None) by discriminate.
  assert (Hf : fst (wl_scan (radio home_station)) <> []) by discriminate.
  repeat (split; [assumption|]).
  destruct (scan_then_cached home_station Hw Hf) as (_ & _ & Hagain & _).
  exact Hagain.
Defined.

Lemma iptoint_needs_four_parts_witness :
  (List.length (split_on "." "192.168.1") < 4)%nat
  /\ exists e, iptoint "192.168.1" = Raise e.
Proof.
  assert (Hl : (List.length (split_on "." "192.168.1") < 4)%nat) by (cbn; lia).
  split; [exact Hl|].
  exact (iptoint_needs_four_parts "192.168.1" Hl).
Defined.

Lemma iptoint_ignores_extra_parts_witness :
  octets_ok (10, 0, 0, 5)%nat
  /\ iptoint "10.0.0.5.not.a.number" = Ret (be32 (10, 0, 0, 5)%nat).
Proof.
  assert (Hq : octets_ok (10, 0, 0, 5)%nat) by (cbn; lia).
  split; [exact Hq|].
  exact (iptoint_ignores_extra_parts (10, 0, 0, 5)%nat "not.a.number" Hq).
Defined.

Lemma iptoint_no_range_check_witness :
  numbers_ok (0, 0 + 256, 0, 0)%nat /\ numbers_ok (1, 0, 0, 0)%nat
  /\ iptoint "0.256.0.0" = iptoint "1.0.0.0".
Proof.
  assert (H1 : numbers_ok (0, 0 + 256, 0, 0)%nat) by (cbn; lia).
  assert (H2 : numbers_ok (1, 0, 0, 0)%nat) by (cbn; lia).
  repeat (split; [assumption|]).
  exact (proj2 (iptoint_no_range_check 0 0 0 0 H1 H2)).
Defined.

Lemma iptoint_one_to_one_witness :
  octets_ok (192, 168, 1, 1)%nat /\ octets_ok (192, 168, 1, 10)%nat
  /\ exists n, iptoint "192.168.1.1" = Ret n /\ 0 <= n < 2 ^ 32.
Proof.
  assert (H1 : octets_ok (192, 168, 1, 1)%nat) by (cbn; lia).
  assert (H2 : octets_ok (192, 168, 1, 10)%nat) by (cbn; lia).
  repeat (split; [assumption|]).
  exact (proj1 (iptoint_one_to_one _ _ H1 H2)).
Defined.

Lemma issameinterface_equivalence_witness :
  octets_ok (192, 168, 1, 1)%nat /\ octets_ok (192, 168, 1, 10)%nat
  /\ octets_ok (192, 168, 1, 77)%nat /\ octets_ok (255, 255, 255, 0)%nat
  /\ issameinterface "192.168.1.1" "192.168.1.10" "255.255.255.0"
     = issameinterface "192.168.1.10" "192.168.1.1" "255.255.255.0".
Proof.
  assert (H1 : octets_ok (192, 168, 1, 1)%nat) by (cbn; lia).
  assert (H2 : octets_ok (192, 168, 1, 10)%nat) by (cbn; lia).
  assert (H3 : octets_ok (192, 168, 1, 77)%nat) by (cbn; lia).
  assert (Hm : octets_ok (255, 255, 255, 0)%nat) by (cbn; lia).
  repeat (split; [assumption|]).
  exact (proj1 (proj2 (issameinterface_equivalence _ _ _ _ H1 H2 H3 Hm))).
Defined.

Lemma issameinterface_extreme_masks_witness :
  octets_ok (192, 168, 1, 1)%nat /\ octets_ok (10, 0, 0, 5)%nat
  /\ issameinterface "192.168.1.1" "10.0.0.5" "0.0.0.0" = Ret true.
Proof.
  assert (H1 : octets_ok (192, 168, 1, 1)%nat) by (cbn; lia).
  assert (H2 : octets_ok (10, 0, 0, 5)%nat) by (cbn; lia).
  repeat (split; [assumption|]).
  exact (proj1 (issameinterface_extreme_masks _ _ H1 H2)).
Defined.

Lemma isIpOnInterface_malformed_witness :
  live_address home_station <> None
  /\ (forall s, tostrings (PStr "192.168.1") = Ret s ->
                 (List.length (split_on "." s) < 4)%nat)
  /\ exists e, fst (isIpOnInterface (PStr "192.168.1") home_station) = Raise e.
Proof.
  assert (Hl : live_address home_station <> None) by discriminate.
  assert (Hs : forall s, tostrings (PStr "192.168.1") = Ret s ->
                         (List.length (split_on "." s) < 4)%nat)
    by (intros s [= <-]; cbn; lia).
  repeat (split; [assumption|]).
  exact (isIpOnInterface_malformed (PStr "192.168.1") home_station Hl Hs).
Defined.

Lemma start_unreachable_network_witness :
  (forall d : lonely, fst (wl_isconnected d) = false)
  /\ (forall d : lonely, wl_active (wl_set_active false d) = false)
  /\ exists st',
       start disabled_store true no_text true (Station_init (mkLonely 0 false))
       = (Ret true, st')
       /\ wlan st' = Some STA_IF /\ is_active st' = false.
Proof.
  assert (Hn : forall d : lonely, fst (wl_isconnected d) = false) by reflexivity.
  assert (Ho : forall d : lonely, wl_active (wl_set_active false d) = false)
    by reflexivity.
  repeat (split; [assumption|]).
  destruct (start_unreachable_network disabled_store true no_text true
              (Station_init (mkLonely 0 false)) Hn Ho eq_refl eq_refl eq_refl)
    as (st' & Hrun & Hw & Ha & _).
  exists st'. repeat split; assumption.
Defined.

Lemma abspath_walks_witness :
  Forall component ["a"; "b"]
  /\ abspath "/a/b" "../c/./d" = "/a/c/d".
Proof.
  assert (Hs : Forall component ["a"; "b"]).
  { repeat (apply Forall_cons;
            [unfold name, component, without, chars; cbn;
             repeat split; try discriminate; intuition discriminate|]).
    apply Forall_nil. }
  split; [exact Hs|].
  exact (abspath_walks ["a"; "b"] "../c/./d" Hs).
Defined.

Lemma abspath_normal_witness :
  Forall name ["a"; "b"]
  /\ exists stack',
       abspath "/a/b" "../../../etc" = path_of stack' /\ Forall name stack'.
Proof.
  assert (Hs : Forall name ["a"; "b"]).
  { repeat (apply Forall_cons;
            [unfold name, component, without, chars; cbn;
             repeat split; try discriminate; intuition discriminate|]).
    apply Forall_nil. }
  split; [exact Hs|].
  exact (abspath_normal ["a"; "b"] "../../../etc" Hs).
Defined.

Lemma fileinfo_answers_from_memory_witness :
  let os_then := fun _ : str => Ret (mkStat 16384 []) in
  let os_now := fun _ : str => @Raise stat_result OSError in
  let fs1 := snd (fileinfo os_then "www" (mkFiles None [])) in
  fst (fileinfo os_then "www" (mkFiles None [])) = Ret (mkStat 16384 [])
  /\ isdir os_now "www" fs1 = (Ret true, fs1).
Proof.
  cbv zeta.
  assert (Hf : fst (fileinfo (fun _ : str => Ret (mkStat 16384 [])) "www"
                      (mkFiles None [])) = Ret (mkStat 16384 [])) by reflexivity.
  split; [exact Hf|].
  exact (proj1 (proj2 (fileinfo_answers_from_memory
                         (fun _ : str => Ret (mkStat 16384 []))
                         (fun _ : str => @Raise stat_result OSError)
                         "www" (mkFiles None []) (mkStat 16384 []) Hf))).
Defined.

Lemma makedir_prefixes_witness :
  ["www"; "css"; "fonts"] <> []
  /\ Forall component ["www"; "css"; "fonts"]
  /\ makedir_directories "www/css/fonts" = Some ["www"; "www/css"; "www/css/fonts"].
Proof.
  assert (Hn : ["www"; "css"; "fonts"] <> []) by discriminate.
  assert (Hs : Forall component ["www"; "css"; "fonts"]).
  { repeat (apply Forall_cons;
            [unfold name, component, without, chars; cbn;
             repeat split; try discriminate; intuition discriminate|]).
    apply Forall_nil. }
  repeat (split; [assumption|]).
  exact (makedir_prefixes ["www"; "css"; "fonts"] Hn Hs).
Defined.

(** A file system that holds directories only, given by their paths:
    [www] and [www/css] and nothing else; [os.mkdir] is refused. *)
Lemma makedir_existing_tree_witness :
  let holds := fun (d : str) (fs : list str) =>
                 if existsb (String.eqb d) fs
                 then Ret (mkStat 16384 []) else Raise OSError in
  let refuse := fun (_ : str) (fs : list str) => (@Raise unit OSError, fs) in
  let www := ["www"; "www/css"] in
  makedir_directories "www/css" = Some ["www"; "www/css"]
  /\ fst (exists_ holds holds "ww" (www, [])) = Ret false
  /\ makedir holds holds refuse "www/css" true (www, [])
     = (Ret (Some tt), (www, [])).
Proof.
  cbv zeta. split; [reflexivity|]. split; [reflexivity|].
  match goal with
  | |- makedir ?l ?s ?m _ _ ?st = _ =>
      destruct (makedir_existing_tree l s m "www/css" st) as (ds & Hds & _ & Hrun)
  end.
  apply Hrun.
  assert (Hlist : makedir_directories "www/css" = Some ["www"; "www/css"])
    by reflexivity.
  rewrite Hlist in Hds. injection Hds as <-.
  repeat constructor.
Defined.
